(** * MedLens: analysis normalisation and report lifecycle

    A shallow embedding of the analysis-normalisation layer
    ([services/modelAdapter.ts]) and of the report lifecycle and feedback
    handlers of the report viewer and the upload page, together with the
    properties the specification states about them.

    The model payload reaches [mapModelResponseToApp] as a value of
    TypeScript type [any], fresh from [JSON.parse]; it is modelled as an
    untyped JSON value and every property access, truthiness test,
    template-literal conversion and subtraction follows the ECMAScript
    semantics of the operation used in the source.  Numbers are IEEE 754
    binary64 values, as in JavaScript. *)

From Stdlib Require Import String Ascii List Bool ZArith Lia.
From Stdlib Require Import Floats.PrimFloat.
From Stdlib Require Import DecimalString.
Import ListNotations.
Local Open Scope list_scope.
Local Open Scope string_scope.
Set Warnings "-register-all,-inexact-float".

(** ** JavaScript values *)

(** A value produced by [JSON.parse], plus [undefined] (the result of reading
    a property that is not there).  An object is the list of its own
    properties, each key listed once. *)
Inductive JsVal : Type :=
| JUndefined
| JNull
| JBool (b : bool)
| JNum (x : float)
| JStr (s : string)
| JArr (elems : list JsVal)
| JObj (props : list (string * JsVal)).

(** The call sites of the source at which the engine can raise a TypeError. *)
Inductive TypeErrorSite : Type :=
| ReadOfNullish (prop : string)   (* [null.p], [undefined.p] *)
| NotAFunction (prop : string)    (* [v.p(...)] where [v.p] is not callable *)
| NoPrimitiveValue.               (* ToPrimitive found no callable method *)

(** Thrown values: engine TypeErrors and the [new Error(msg)] of the source. *)
Inductive JsError : Type :=
| TypeError (site : TypeErrorSite)
| Error (message : string).

(** Outcome of evaluating an expression or, for an async function, of the
    promise it returns: [Normal] is a value (a resolved promise), [Throw] an
    exception (a rejected promise). *)
Inductive Completion (A : Type) : Type :=
| Normal (a : A)
| Throw (e : JsError).
Arguments Normal {A} a.
Arguments Throw {A} e.

(** Built-ins of the JavaScript runtime whose algorithms live in the engine,
    not in the repository.  They are taken as parameters; no property below
    depends on what they compute. *)
Record JsRuntime : Type := {
  (* Number::toString, used when a template literal receives a number *)
  Number_toString : float -> string;
  (* StringToNumber, used when [-] or [<] receives a string *)
  StringToNumber : string -> float;
  (* String.prototype.toUpperCase *)
  String_toUpperCase : string -> string;
  (* String.prototype.trim *)
  String_trim : string -> string;
  (* [s[i]] on a string: the code unit at [i], or [undefined] *)
  String_at : string -> nat -> JsVal;
  (* Date.prototype.toISOString of the date with the given epoch milliseconds *)
  Date_toISOString : Z -> string;
  (* JSON.parse: [None] when it throws a SyntaxError *)
  JSON_parse : string -> option JsVal;
  (* the [message] of an engine TypeError *)
  TypeError_message : TypeErrorSite -> string
}.

(** ToBoolean. *)
Definition truthy (v : JsVal) : bool :=
  match v with
  | JUndefined | JNull => false
  | JBool b => b
  | JNum x => negb (PrimFloat.eqb x 0 || PrimFloat.is_nan x)
  | JStr s => negb (String.eqb s "")
  | JArr _ | JObj _ => true
  end.

(** [a || b] on values (the right operand is a constant or a pure read
    wherever the source uses it). *)
Definition js_or (a b : JsVal) : JsVal := if truthy a then a else b.

Fixpoint lookup (k : string) (props : list (string * JsVal)) : option JsVal :=
  match props with
  | [] => None
  | (k', v) :: rest => if String.eqb k k' then Some v else lookup k rest
  end.

Definition has_own (k : string) (props : list (string * JsVal)) : bool :=
  match lookup k props with Some _ => true | None => false end.

(** [v.k] for the field names the source reads from the payload; none of
    them names a property of a built-in prototype, so a primitive or an array
    yields [undefined]. *)
Definition getField (v : JsVal) (k : string) : Completion JsVal :=
  match v with
  | JUndefined | JNull => Throw (TypeError (ReadOfNullish k))
  | JObj props => Normal (match lookup k props with Some x => x | None => JUndefined end)
  | _ => Normal JUndefined
  end.

(** [v?.k]. *)
Definition getFieldOpt (v : JsVal) (k : string) : Completion JsVal :=
  match v with
  | JUndefined | JNull => Normal JUndefined
  | _ => getField v k
  end.

Definition Z_to_string (z : Z) : string := NilZero.string_of_int (Z.to_int z).
Definition nat_to_string (n : nat) : string := Z_to_string (Z.of_nat n).

Section Runtime.
Context (rt : JsRuntime).

(** [v[i]] for a literal index [i]. *)
Definition getIndex (v : JsVal) (i : nat) : Completion JsVal :=
  match v with
  | JUndefined | JNull => Throw (TypeError (ReadOfNullish (nat_to_string i)))
  | JArr elems => Normal (nth i elems JUndefined)
  | JObj props => Normal (match lookup (nat_to_string i) props with Some x => x | None => JUndefined end)
  | JStr s => Normal (String_at rt s i)
  | _ => Normal JUndefined
  end.

(** ToString, as a template literal applies it.  An array joins its elements
    with commas ([null] and [undefined] print as nothing); a plain object
    answers through [Object.prototype.toString] unless an own property
    ["toString"] (never callable in parsed JSON) shadows it, in which case
    ToPrimitive finds no primitive and throws. *)
Fixpoint ToString (v : JsVal) : Completion string :=
  match v with
  | JUndefined => Normal "undefined"
  | JNull => Normal "null"
  | JBool true => Normal "true"
  | JBool false => Normal "false"
  | JNum x => Normal (Number_toString rt x)
  | JStr s => Normal s
  | JArr elems =>
      (fix join (l : list JsVal) : Completion string :=
         match l with
         | [] => Normal ""
         | x :: rest =>
             match (match x with
                    | JUndefined | JNull => Normal ""
                    | _ => ToString x
                    end) with
             | Throw e => Throw e
             | Normal s =>
                 match rest with
                 | [] => Normal s
                 | _ :: _ =>
                     match join rest with
                     | Throw e => Throw e
                     | Normal r => Normal (s ++ "," ++ r)
                     end
                 end
             end
         end) elems
  | JObj props =>
      if has_own "toString" props then Throw (TypeError NoPrimitiveValue)
      else Normal "[object Object]"
  end.

(** ToNumber.  For an object or array, ToPrimitive with hint number first
    asks [valueOf], which returns the object itself, and then [toString]. *)
Definition ToNumber (v : JsVal) : Completion float :=
  match v with
  | JUndefined => Normal nan
  | JNull => Normal 0%float
  | JBool true => Normal 1%float
  | JBool false => Normal 0%float
  | JNum x => Normal x
  | JStr s => Normal (StringToNumber rt s)
  | JArr _ | JObj _ =>
      match ToString v with
      | Throw e => Throw e
      | Normal s => Normal (StringToNumber rt s)
      end
  end.

End Runtime.

(** ** Effects: the system clock and the random generator *)

(** The part of the world the normaliser observes: successive readings of the
    system clock (epoch milliseconds, as [Date.now()] and [new Date()] see
    it) and successive draws of [Math.random()], each draw given as the text
    [Math.random().toString(36).substr(2, 5)] the source derives from it. *)
Record World : Type := {
  clock : nat -> Z;
  random36 : nat -> string;
  clock_reads : nat;
  random_draws : nat
}.

(** Computations that read the world and may throw; the readings consumed
    before an exception stay consumed. *)
Definition M (A : Type) : Type := World -> Completion A * World.

Definition ret {A} (a : A) : M A := fun w => (Normal a, w).

Definition bind {A B} (m : M A) (k : A -> M B) : M B :=
  fun w => match m w with
           | (Normal a, w') => k a w'
           | (Throw e, w') => (Throw e, w')
           end.

Definition lift {A} (c : Completion A) : M A := fun w => (c, w).

Definition throw {A} (e : JsError) : M A := fun w => (Throw e, w).

(** [try { m } catch (e) { throw h(e) }]. *)
Definition rethrow {A} (m : M A) (h : JsError -> JsError) : M A :=
  fun w => match m w with
           | (Normal a, w') => (Normal a, w')
           | (Throw e, w') => (Throw (h e), w')
           end.

Declare Scope js_scope.
Delimit Scope js_scope with js.
Notation "x <- m ;; k" := (bind m (fun x => k))
  (at level 100, m at next level, right associativity) : js_scope.
Local Open Scope js_scope.

Definition tick_clock (w : World) : World :=
  {| clock := clock w; random36 := random36 w;
     clock_reads := S (clock_reads w); random_draws := random_draws w |}.

Definition tick_random (w : World) : World :=
  {| clock := clock w; random36 := random36 w;
     clock_reads := clock_reads w; random_draws := S (random_draws w) |}.

(** [Date.now()], and the epoch milliseconds of [new Date()]. *)
Definition Date_now : M Z :=
  fun w => (Normal (clock w (clock_reads w)), tick_clock w).

(** [Math.random().toString(36).substr(2, 5)]. *)
Definition Math_random36 : M string :=
  fun w => (Normal (random36 w (random_draws w)), tick_random w).

(** ** The application's types *)

(** Modelled from the spec: [types.ts] is not among the sources.  The records
    below have the attributes the specification's data model gives a
    finding, its evidence and its feedback, under the field names and with
    the optional fields the sources use where they build and read them. *)

Inductive Category : Type := CatFinding | CatImpression.

Inductive EvidenceSource : Type := MODEL_VISION.

Module BBox.
Record t : Type := mk {
  y : JsVal;
  x : JsVal;
  height : float;
  width : float
}.
End BBox.

Module Evidence.
Record t : Type := mk {
  fileId : string;
  confidence : JsVal;
  source : EvidenceSource;
  bbox : BBox.t
}.
End Evidence.

Module Feedback.
Record t : Type := mk {
  isAccurate : bool;
  correction : option string;   (* [None]: the argument was omitted *)
  timestamp : string
}.
End Feedback.

Module Finding.
Record t : Type := mk {
  id : string;
  category : Category;
  text : string;
  confidence : JsVal;
  explanation : JsVal;
  explanationEn : JsVal;
  suggestedActions : JsVal;
  icdCodes : option (list string);   (* [None]: the literal has no such key *)
  evidence : list Evidence.t;
  feedback : option Feedback.t
}.
End Finding.

Module ReportFile.
Record t : Type := mk {
  id : string;
  url : option string;   (* [None]: [preview] was still [null] *)
  type : string;
  name : string
}.
End ReportFile.

Module AnalysisResult.
Record t : Type := mk {
  summary : JsVal;
  findings : list Finding.t;
  summaryPatient : JsVal;
  summaryStudent : JsVal;
  summaryDoctor : JsVal;
  summaryPatientEn : JsVal;
  summaryStudentEn : JsVal;
  summaryDoctorEn : JsVal;
  recommendationsPatient : JsVal;
  recommendationsStudent : JsVal;
  recommendationsDoctor : JsVal;
  recommendationsPatientEn : JsVal;
  recommendationsStudentEn : JsVal;
  recommendationsDoctorEn : JsVal
}.
End AnalysisResult.

(** ** services/modelAdapter.ts *)

(** [s.replace(pat, rep)] for one-character [pat] and a replacement without
    [$] patterns: the first occurrence is replaced. *)
Fixpoint replace_first (pat : ascii) (rep : string) (s : string) : string :=
  match s with
  | EmptyString => EmptyString
  | String c s' =>
      if Ascii.eqb c pat then rep ++ s' else String c (replace_first pat rep s')
  end.

(** [s.includes(sub)]. *)
Fixpoint includes (sub s : string) : bool :=
  String.prefix sub s ||
  match s with
  | EmptyString => false
  | String _ s' => includes sub s'
  end.

(** What the [catch] block of [analyzeMedicalImage] can receive: an
    exception raised by this code or by the engine (an error object whose
    [message] is a string), or any other value thrown by the client, given
    by its own data properties: [undefined], a string, an object with or
    without a [message], of whatever type. *)
Inductive Caught : Type :=
| Raised (e : JsError)
| Foreign (v : JsVal).

(** How a [try] block ends: with a value, or with what its [catch] block
    receives. *)
Inductive Attempt (A : Type) : Type :=
| Done (a : A)
| Failed (c : Caught).
Arguments Done {A} a.
Arguments Failed {A} c.

Section ModelAdapter.
Context (rt : JsRuntime).

Section MapModelResponseToApp.
Variables (data : JsVal) (fileId : string).

(** [a - b]. *)
Definition js_sub (a b : JsVal) : Completion float :=
  match ToNumber rt a with
  | Throw e => Throw e
  | Normal na =>
      match ToNumber rt b with
      | Throw e => Throw e
      | Normal nb => Normal (PrimFloat.sub na nb)
      end
  end.

(** The [evidence] initialiser of a highlight finding. *)
Definition highlightEvidence (item : JsVal) : Completion (list Evidence.t) :=
  match getField item "box_2d" with
  | Throw e => Throw e
  | Normal box_2d =>
      if truthy box_2d then
        match getField item "confidence" with
        | Throw e => Throw e
        | Normal conf =>
        match getIndex rt box_2d 0 with
        | Throw e => Throw e
        | Normal b0 =>
        match getIndex rt box_2d 1 with
        | Throw e => Throw e
        | Normal b1 =>
        match getIndex rt box_2d 2 with
        | Throw e => Throw e
        | Normal b2 =>
        match js_sub b2 b0 with
        | Throw e => Throw e
        | Normal h =>
        match getIndex rt box_2d 3 with
        | Throw e => Throw e
        | Normal b3 =>
        match js_sub b3 b1 with
        | Throw e => Throw e
        | Normal w =>
            Normal [ {| Evidence.fileId := fileId;
                        Evidence.confidence := js_or conf (JNum 0.8);
                        Evidence.source := MODEL_VISION;
                        Evidence.bbox := {| BBox.y := b0; BBox.x := b1;
                                            BBox.height := h; BBox.width := w |} |} ]
        end end end end end end end
      else Normal []
  end.

(** The callback [processHighlights] passes to [forEach]: the finding pushed
    for one item, its property initialisers evaluated in source order. *)
Definition highlightFinding (category : Category) (item : JsVal) : M Finding.t :=
  now <- Date_now ;;
  rnd <- Math_random36 ;;
  label <- lift (getField item "label") ;;
  label_s <- lift (ToString rt label) ;;
  description <- lift (getField item "description") ;;
  description_s <- lift (ToString rt description) ;;
  conf <- lift (getField item "confidence") ;;
  summary_student <- lift (getField data "summary_student") ;;
  summary_student_en <- lift (getField data "summary_student_en") ;;
  recommendations_student <- lift (getField data "recommendations_student") ;;
  ev <- lift (highlightEvidence item) ;;
  ret {| Finding.id := "find-" ++ Z_to_string now ++ "-" ++ rnd;
         Finding.category := category;
         Finding.text := label_s ++ ": " ++ description_s;
         Finding.confidence := js_or conf (JNum 0.8);
         Finding.explanation := js_or summary_student (JStr "Visual pattern detected.");
         Finding.explanationEn := js_or summary_student_en (JStr "Visual pattern detected.");
         Finding.suggestedActions := js_or recommendations_student (JArr []);
         Finding.icdCodes := Some [];
         Finding.evidence := ev;
         Finding.feedback := None |}.

(** [items.forEach(...)] over an array, pushing onto [findings]. *)
Fixpoint forEach_push (category : Category) (elems : list JsVal)
    (findings : list Finding.t) : M (list Finding.t) :=
  match elems with
  | [] => ret findings
  | item :: rest =>
      f <- highlightFinding category item ;;
      forEach_push category rest (findings ++ [f])%list
  end.

Definition processHighlights (items : JsVal) (category : Category)
    (findings : list Finding.t) : M (list Finding.t) :=
  if negb (truthy items) then ret findings
  else match items with
       | JArr elems => forEach_push category elems findings
       | _ => throw (TypeError (NotAFunction "forEach"))
       end.

(** [`File Classification: ${data.file_type?.replace('_', ' ').toUpperCase()}`]. *)
Definition classificationText (file_type : JsVal) : Completion string :=
  match file_type with
  | JUndefined | JNull => Normal ("File Classification: " ++ "undefined")
  | JStr s =>
      Normal ("File Classification: "
                ++ String_toUpperCase rt (replace_first "_"%char " " s))
  | _ => Throw (TypeError (NotAFunction "replace"))
  end.

Definition mapModelResponseToApp : M AnalysisResult.t :=
  let field k := lift (getField data k) in
  highlights <- field "highlights" ;;
  regions_of_interest <- lift (getFieldOpt highlights "regions_of_interest") ;;
  findings <- processHighlights regions_of_interest CatFinding [] ;;
  highlights' <- field "highlights" ;;
  artifacts <- lift (getFieldOpt highlights' "artifacts") ;;
  findings <- processHighlights artifacts CatFinding findings ;;
  now <- Date_now ;;
  file_type <- field "file_type" ;;
  cls_text <- lift (classificationText file_type) ;;
  confidence_overall <- field "confidence_overall" ;;
  let findings :=
    {| Finding.id := "ft-" ++ Z_to_string now;
       Finding.category := CatImpression;
       Finding.text := cls_text;
       Finding.confidence := js_or confidence_overall (JNum 0.9);
       Finding.explanation := JStr "Classified based on visual features.";
       Finding.explanationEn := JStr "Classified based on visual features.";
       Finding.suggestedActions := JArr [];
       Finding.icdCodes := None;
       Finding.evidence := [];
       Finding.feedback := None |} :: findings in
  summary_patient <- field "summary_patient" ;;
  summary_student <- field "summary_student" ;;
  summary_doctor <- field "summary_doctor" ;;
  recommendations_patient <- field "recommendations_patient" ;;
  recommendations_student <- field "recommendations_student" ;;
  recommendations_doctor <- field "recommendations_doctor" ;;
  summary_patient_en <- field "summary_patient_en" ;;
  summary_student_en <- field "summary_student_en" ;;
  summary_doctor_en <- field "summary_doctor_en" ;;
  recommendations_patient_en <- field "recommendations_patient_en" ;;
  recommendations_student_en <- field "recommendations_student_en" ;;
  recommendations_doctor_en <- field "recommendations_doctor_en" ;;
  ret {| AnalysisResult.summary := js_or summary_patient (JStr "Analysis complete.");
         AnalysisResult.findings := findings;
         AnalysisResult.summaryPatient := js_or summary_patient (JStr "");
         AnalysisResult.summaryStudent := js_or summary_student (JStr "");
         AnalysisResult.summaryDoctor := js_or summary_doctor (JStr "");
         AnalysisResult.recommendationsPatient := js_or recommendations_patient (JArr []);
         AnalysisResult.recommendationsStudent := js_or recommendations_student (JArr []);
         AnalysisResult.recommendationsDoctor := js_or recommendations_doctor (JArr []);
         AnalysisResult.summaryPatientEn :=
           js_or (js_or summary_patient_en summary_patient) (JStr "");
         AnalysisResult.summaryStudentEn :=
           js_or (js_or summary_student_en summary_student) (JStr "");
         AnalysisResult.summaryDoctorEn :=
           js_or (js_or summary_doctor_en summary_doctor) (JStr "");
         AnalysisResult.recommendationsPatientEn :=
           js_or (js_or recommendations_patient_en recommendations_patient) (JArr []);
         AnalysisResult.recommendationsStudentEn :=
           js_or (js_or recommendations_student_en recommendations_student) (JArr []);
         AnalysisResult.recommendationsDoctorEn :=
           js_or (js_or recommendations_doctor_en recommendations_doctor) (JArr []) |}.

End MapModelResponseToApp.

(** The payload [simulateAnalysis] builds. *)
Definition fallbackMsg : string := "⚠️ DEMO MODE: REAL AI IS DISABLED.".
Definition instructionMsg : string :=
  "To enable Real AI Analysis: Go to Admin Panel > Configuration > API Key Management and enter your Gemini API Key.".
Definition missingKeyMsg : string :=
  "MISSING_API_KEY: The application is running in Simulation Mode because no API Key was found in LocalStorage or Environment Variables.".

Definition mockData : JsVal :=
  JObj [
    ("file_type", JStr "demo_simulation");
    ("summary_patient", JStr fallbackMsg);
    ("summary_student", JStr instructionMsg);
    ("summary_doctor", JStr missingKeyMsg);
    ("summary_patient_en", JStr fallbackMsg);
    ("summary_student_en", JStr instructionMsg);
    ("summary_doctor_en", JStr missingKeyMsg);
    ("highlights", JObj [
       ("regions_of_interest", JArr [
          JObj [ ("label", JStr "Configuration Error");
                 ("description", JStr "API Key Not Found");
                 ("confidence", JNum 1.0);
                 ("box_2d", JArr [JNum 10; JNum 10; JNum 90; JNum 90]) ] ]);
       ("artifacts", JArr []) ]);
    ("recommendations_patient",
       JArr [JStr "Go to Admin Page"; JStr "Click Configuration Tab"; JStr "Enter API Key"]);
    ("recommendations_student", JArr []);
    ("recommendations_doctor", JArr []);
    ("recommendations_patient_en",
       JArr [JStr "Go to Admin Page"; JStr "Click Configuration Tab"; JStr "Enter API Key"]);
    ("recommendations_student_en", JArr []);
    ("recommendations_doctor_en", JArr []);
    ("confidence_overall", JNum 0.0);
    ("disclaimer", JStr "SIMULATION ONLY")
  ].

(** [simulateAnalysis]: after the delay, the mock payload goes through the
    normaliser. *)
Definition simulateAnalysis (file : ReportFile.t) (language : string)
    : M AnalysisResult.t :=
  mapModelResponseToApp mockData (ReportFile.id file).

(** Where [getApiKey] looks: the local-storage entry ([None] for [null]),
    the global [window.MEDLENS_API_KEY], and the global [process] ([None]
    where the identifier is not declared). *)
Record Browser : Type := {
  localStorage_MEDLENS_API_KEY : option string;
  window_MEDLENS_API_KEY : JsVal;
  process : option JsVal
}.

Definition getApiKey (b : Browser) : JsVal :=
  let fromEnv :=
    match process b with
    | None | Some JUndefined => JStr ""
    | Some p =>
        match getField p "env" with
        | Throw _ => JStr ""
        | Normal env =>
            if truthy env then
              match getField env "API_KEY" with
              | Throw _ => JStr ""
              | Normal k => if truthy k then k else JStr ""
              end
            else JStr ""
        end
    end in
  let fromWindow :=
    if truthy (window_MEDLENS_API_KEY b) then window_MEDLENS_API_KEY b else fromEnv in
  match localStorage_MEDLENS_API_KEY b with
  | Some localKey =>
      if truthy (JStr localKey) && (0 <? String.length (String_trim rt localKey))%nat
      then JStr (String_trim rt localKey)
      else fromWindow
  | None => fromWindow
  end.

(** The outcome of the [generateContent] call: a response with its [text]
    ([None] for [undefined]); a rejection with an error object whose
    [message] is the given string, as the client's own errors are; or a
    rejection with any other value. *)
Inductive GenAIOutcome : Type :=
| Responded (text : option string)
| Rejected (message : string)
| RejectedWith (thrown : JsVal).

(** The [@google/genai] client, an external collaborator: its constructor
    ([Some c] when [new GoogleGenAI] throws [c]) and the
    [models.generateContent] call for a key, a file and a language. *)
Record GenAIClient : Type := {
  GoogleGenAI_new : JsVal -> option Caught;
  generateContent : JsVal -> ReportFile.t -> string -> GenAIOutcome
}.

Definition error_message (e : JsError) : string :=
  match e with
  | TypeError site => TypeError_message rt site
  | Error m => m
  end.

(** The [catch] block of [analyzeMedicalImage] on an error whose [message]
    is a string. *)
Definition enhanceError (e : JsError) : JsError :=
  let m := error_message e in
  if includes "API key not valid" m || includes "API_KEY" m then
    Error "Invalid API Key. Please update it in the Admin Configuration."
  else if includes "fetch" m then
    Error "Network Error: Could not connect to Google AI services."
  else if includes "400" m then
    Error "The image format is not supported or corrupted."
  else if includes "503" m then
    Error "The AI service is currently overloaded. Please try again in a moment."
  else Error m.

(** [error.message.includes] for the [message] of a caught value: a string
    searches itself, an array answers through [Array.prototype.includes]
    (an element equal to the searched string), on [undefined] and [null] the
    property read throws, and no other value has a callable [includes]. *)
Definition includesOf (message : JsVal) : Completion (string -> bool) :=
  match message with
  | JStr m => Normal (fun s => includes s m)
  | JArr elems =>
      Normal (fun s => existsb (fun x => match x with
                                         | JStr t => String.eqb t s
                                         | _ => false
                                         end) elems)
  | JUndefined | JNull => Throw (TypeError (ReadOfNullish "includes"))
  | _ => Throw (TypeError (NotAFunction "includes"))
  end.

(** The [catch] block on whatever the [try] block threw; it always throws.
    On an error object with a string message it is [enhanceError].  On any
    other value the reads [error.message] and [error.message.includes] are
    unguarded and may throw themselves; when they do not, the last branch
    passes [error.message] to [new Error], which converts it to a string. *)
Definition catchBlock (c : Caught) : JsError :=
  match c with
  | Raised e => enhanceError e
  | Foreign v =>
      match getField v "message" with
      | Throw t => t
      | Normal message =>
          match includesOf message with
          | Throw t => t
          | Normal message_includes =>
              if message_includes "API key not valid" || message_includes "API_KEY" then
                Error "Invalid API Key. Please update it in the Admin Configuration."
              else if message_includes "fetch" then
                Error "Network Error: Could not connect to Google AI services."
              else if message_includes "400" then
                Error "The image format is not supported or corrupted."
              else if message_includes "503" then
                Error "The AI service is currently overloaded. Please try again in a moment."
              else
                match ToString rt message with
                | Normal m => Error m
                | Throw t => t
                end
          end
      end
  end.

(** A block of this code run inside a [try]: its exceptions are what the
    [catch] block receives. *)
Definition attempt {A} (m : M A) : World -> Attempt A * World :=
  fun w => match m w with
           | (Normal a, w') => (Done a, w')
           | (Throw e, w') => (Failed (Raised e), w')
           end.

(** [try { body } catch (error) { throw handler(error) }]. *)
Definition tryCatch {A} (body : World -> Attempt A * World)
    (handler : Caught -> JsError) : M A :=
  fun w => match body w with
           | (Done a, w') => (Normal a, w')
           | (Failed c, w') => (Throw (handler c), w')
           end.

(** The body of the [try] block. *)
Definition analyzeWithModel (sdk : GenAIClient) (apiKey : JsVal)
    (file : ReportFile.t) (language : string) : World -> Attempt AnalysisResult.t * World :=
  match GoogleGenAI_new sdk apiKey with
  | Some c => fun w => (Failed c, w)
  | None =>
  match ReportFile.url file with
  | None => attempt (throw (TypeError (ReadOfNullish "split")))
  | Some _ =>
      match generateContent sdk apiKey file language with
      | Rejected m => fun w => (Failed (Raised (Error m)), w)
      | RejectedWith v => fun w => (Failed (Foreign v), w)
      | Responded None =>
          attempt (throw (Error "The AI model returned an empty response. Please try again."))
      | Responded (Some text) =>
          if negb (truthy (JStr text)) then
            attempt (throw (Error "The AI model returned an empty response. Please try again."))
          else
            match JSON_parse rt text with
            | None =>
                attempt (throw (Error "Failed to parse the medical report. The AI response was malformed."))
            | Some data =>
                attempt (confidence_overall <- lift (getField data "confidence_overall") ;;
                         _ <- lift (ToNumber rt confidence_overall) ;;
                         mapModelResponseToApp data (ReportFile.id file))
            end
      end
  end
  end.

Definition analyzeMedicalImage (b : Browser) (sdk : GenAIClient)
    (file : ReportFile.t) (language : string) : M AnalysisResult.t :=
  let apiKey := getApiKey b in
  if negb (truthy apiKey) then simulateAnalysis file language
  else tryCatch (analyzeWithModel sdk apiKey file language) catchBlock.

End ModelAdapter.

(** ** Reports and the store *)

(** Modelled from the spec: the [ReportStatus] enumeration of [types.ts] is
    not among the sources.  The specification's lifecycle has two persisted
    states, review-required and approved (uploaded is implicit, before a
    report exists), and these are the two members the sources name. *)
Inductive ReportStatus : Type := REVIEW_REQUIRED | APPROVED.

Module Report.
Record t : Type := mk {
  id : string;
  patientId : string;
  patientName : string;
  createdAt : string;
  status : ReportStatus;
  files : list ReportFile.t;
  findings : list Finding.t;
  summary : JsVal;
  language : string;
  summaryPatient : JsVal;
  summaryStudent : JsVal;
  summaryDoctor : JsVal;
  recommendationsPatient : JsVal;
  recommendationsStudent : JsVal;
  recommendationsDoctor : JsVal;
  summaryPatientEn : JsVal;
  summaryStudentEn : JsVal;
  summaryDoctorEn : JsVal;
  recommendationsPatientEn : JsVal;
  recommendationsStudentEn : JsVal;
  recommendationsDoctorEn : JsVal
}.

Definition with_status (s : ReportStatus) (r : t) : t :=
  mk (id r) (patientId r) (patientName r) (createdAt r) s (files r)
     (findings r) (summary r) (language r)
     (summaryPatient r) (summaryStudent r) (summaryDoctor r)
     (recommendationsPatient r) (recommendationsStudent r) (recommendationsDoctor r)
     (summaryPatientEn r) (summaryStudentEn r) (summaryDoctorEn r)
     (recommendationsPatientEn r) (recommendationsStudentEn r)
     (recommendationsDoctorEn r).

Definition with_findings (fs : list Finding.t) (r : t) : t :=
  mk (id r) (patientId r) (patientName r) (createdAt r) (status r) (files r)
     fs (summary r) (language r)
     (summaryPatient r) (summaryStudent r) (summaryDoctor r)
     (recommendationsPatient r) (recommendationsStudent r) (recommendationsDoctor r)
     (summaryPatientEn r) (summaryStudentEn r) (summaryDoctorEn r)
     (recommendationsPatientEn r) (recommendationsStudentEn r)
     (recommendationsDoctorEn r).
End Report.

Module Patient.
Record t : Type := mk { id : string; name : string }.
End Patient.

Module User.
Record t : Type := mk { id : string; name : string; email : string; role : string }.
End User.

(** The two partial reports the viewer hands to [updateReport]. *)
Inductive ReportUpdates : Type :=
| UpdStatus (status : ReportStatus)
| UpdFindings (findings : list Finding.t).

Definition applyUpdates (u : ReportUpdates) (r : Report.t) : Report.t :=
  match u with
  | UpdStatus s => Report.with_status s r
  | UpdFindings fs => Report.with_findings fs r
  end.

Module Store.
Record t : Type := mk {
  reports : list Report.t;
  patients : list Patient.t;
  user : option User.t
}.
End Store.

(** Modelled from the spec: the store module ([store.ts], with [useStore],
    [addReport] and [updateReport]) is not among the sources.  The spec
    describes the shared state as a single in-memory collection of reports
    whose mutation is always a full-record replace: [updateReport id updates]
    replaces the report identified by [id] with that report overlaid by
    [updates], and leaves every other report as it is. *)
Definition updateReport (id : string) (updates : ReportUpdates) (s : Store.t) : Store.t :=
  Store.mk
    (map (fun r => if String.eqb (Report.id r) id then applyUpdates updates r else r)
         (Store.reports s))
    (Store.patients s) (Store.user s).

(** Modelled from the spec: [addReport] of the same absent store module; the
    new report joins the collection. *)
Definition addReport (r : Report.t) (s : Store.t) : Store.t :=
  Store.mk (r :: Store.reports s) (Store.patients s) (Store.user s).

(** ** pages/ReportViewer *)

(** The component state the two handlers write, and the router location. *)
Module ViewerState.
Record t : Type := mk {
  correctionText : string;
  showCorrectionInput : option string;
  location : string
}.
End ViewerState.

Section ReportViewer.
Context (rt : JsRuntime).

Definition handleApprove (report : Report.t) (s : Store.t) (v : ViewerState.t)
    : Store.t * ViewerState.t :=
  (updateReport (Report.id report) (UpdStatus APPROVED) s,
   ViewerState.mk (ViewerState.correctionText v) (ViewerState.showCorrectionInput v) "/").

(** The callback of [report.findings.map] in [submitFeedback]. *)
Definition withFeedback (findingId : string) (isAccurate : bool)
    (correction : option string) (f : Finding.t) : M Finding.t :=
  if String.eqb (Finding.id f) findingId then
    now <- Date_now ;;
    ret (Finding.mk (Finding.id f) (Finding.category f) (Finding.text f)
           (Finding.confidence f) (Finding.explanation f) (Finding.explanationEn f)
           (Finding.suggestedActions f) (Finding.icdCodes f) (Finding.evidence f)
           (Some {| Feedback.isAccurate := isAccurate;
                    Feedback.correction := correction;
                    Feedback.timestamp := Date_toISOString rt now |}))
  else ret f.

(** [xs.map(f)] for a callback with effects. *)
Fixpoint mapM {A B} (f : A -> M B) (xs : list A) : M (list B) :=
  match xs with
  | [] => ret []
  | x :: rest =>
      y <- f x ;;
      ys <- mapM f rest ;;
      ret (y :: ys)
  end.

Definition submitFeedback (report : Report.t) (findingId : string) (isAccurate : bool)
    (correction : option string) (s : Store.t) (v : ViewerState.t)
    : M (Store.t * ViewerState.t) :=
  updatedFindings <- mapM (withFeedback findingId isAccurate correction)
                          (Report.findings report) ;;
  ret (updateReport (Report.id report) (UpdFindings updatedFindings) s,
       ViewerState.mk "" None (ViewerState.location v)).

(** What a clinician can ask of the viewer mounted at [/report/:id]. *)
Inductive ViewerAction : Type :=
| Approve
| SubmitFeedback (findingId : string) (isAccurate : bool) (correction : option string).

(** One interaction with the viewer: the component reads the report of the
    route from the store as it is at that render and runs the handler; when
    the store has no such report the component renders a notice and offers
    no handler. *)
Definition ReportViewer (id : string) (a : ViewerAction) (s : Store.t)
    (v : ViewerState.t) : M (Store.t * ViewerState.t) :=
  match find (fun r => String.eqb (Report.id r) id) (Store.reports s) with
  | None => ret (s, v)
  | Some report =>
      match a with
      | Approve => ret (handleApprove report s v)
      | SubmitFeedback findingId isAccurate correction =>
          submitFeedback report findingId isAccurate correction s v
      end
  end.

(** A session: interactions, each on the viewer of some report. *)
Fixpoint session (acts : list (string * ViewerAction)) (s : Store.t)
    (v : ViewerState.t) : M (Store.t * ViewerState.t) :=
  match acts with
  | [] => ret (s, v)
  | (id, a) :: rest =>
      sv <- ReportViewer id a s v ;;
      session rest (fst sv) (snd sv)
  end.

End ReportViewer.

(** ** pages/UploadReport *)

Module UploadState.
Record t : Type := mk {
  file : option (string * string);   (* the chosen file's [type] and [name] *)
  preview : option string;
  selectedPatientId : string;
  selectedLanguage : string;
  isProcessing : bool;
  error : option string;
  location : string
}.
End UploadState.

Section UploadReport.
Context (rt : JsRuntime) (browser : Browser) (sdk : GenAIClient).

(** The [newReport] literal. *)
Definition newReport (patient : option Patient.t) (reportFile : ReportFile.t)
    (selectedLanguage : string) (analysis : AnalysisResult.t) : M Report.t :=
  now <- Date_now ;;
  match patient with
  | None => throw (TypeError (ReadOfNullish "id"))
  | Some p =>
      created <- Date_now ;;
      ret {| Report.id := "rep-" ++ Z_to_string now;
             Report.patientId := Patient.id p;
             Report.patientName := Patient.name p;
             Report.createdAt := Date_toISOString rt created;
             Report.status := REVIEW_REQUIRED;
             Report.files := [reportFile];
             Report.findings := AnalysisResult.findings analysis;
             Report.summary := AnalysisResult.summary analysis;
             Report.language := selectedLanguage;
             Report.summaryPatient := AnalysisResult.summaryPatient analysis;
             Report.summaryStudent := AnalysisResult.summaryStudent analysis;
             Report.summaryDoctor := AnalysisResult.summaryDoctor analysis;
             Report.recommendationsPatient := AnalysisResult.recommendationsPatient analysis;
             Report.recommendationsStudent := AnalysisResult.recommendationsStudent analysis;
             Report.recommendationsDoctor := AnalysisResult.recommendationsDoctor analysis;
             Report.summaryPatientEn := AnalysisResult.summaryPatientEn analysis;
             Report.summaryStudentEn := AnalysisResult.summaryStudentEn analysis;
             Report.summaryDoctorEn := AnalysisResult.summaryDoctorEn analysis;
             Report.recommendationsPatientEn := AnalysisResult.recommendationsPatientEn analysis;
             Report.recommendationsStudentEn := AnalysisResult.recommendationsStudentEn analysis;
             Report.recommendationsDoctorEn := AnalysisResult.recommendationsDoctorEn analysis |}
  end.

(** The [try] block of [handleSubmit]. *)
Definition createReport (file : string * string) (u : UploadState.t) (s : Store.t)
    : M Report.t :=
  let patient :=
    find (fun p => String.eqb (Patient.id p) (UploadState.selectedPatientId u))
         (Store.patients s) in
  now <- Date_now ;;
  let reportFile :=
    {| ReportFile.id := "file-" ++ Z_to_string now;
       ReportFile.url := UploadState.preview u;
       ReportFile.type := fst file;
       ReportFile.name := snd file |} in
  analysis <- analyzeMedicalImage rt browser sdk reportFile
                (UploadState.selectedLanguage u) ;;
  newReport patient reportFile (UploadState.selectedLanguage u) analysis.

Definition handleSubmit (u : UploadState.t) (s : Store.t) (w : World)
    : (UploadState.t * Store.t) * World :=
  match UploadState.file u, Store.user s with
  | Some file, Some _ =>
      if negb (truthy (JStr (UploadState.selectedPatientId u))) then (u, s, w)
      else
        let set (processing : bool) (err : option string) (loc : string) :=
          UploadState.mk (UploadState.file u) (UploadState.preview u)
            (UploadState.selectedPatientId u) (UploadState.selectedLanguage u)
            processing err loc in
        match createReport file u s w with
        | (Normal r, w') =>
            (set true None ("/report/" ++ Report.id r), addReport r s, w')
        | (Throw e, w') =>
            let m := error_message rt e in
            (set false
                 (Some (if truthy (JStr m) then m
                        else "An unexpected error occurred. Please try again."))
                 (UploadState.location u),
             s, w')
        end
  | _, _ => (u, s, w)
  end.

End UploadReport.

(** ** pages/UploadReport: choosing the file *)

(** The DOM [File] fields the page reads; [size] is in bytes. *)
Module File.
Record t : Type := mk {
  type : string;
  name : string;
  size : Z
}.
End File.

Definition validTypes : list string :=
  ["image/jpeg"; "image/png"; "image/webp"; "application/pdf"].

(** [xs.includes(x)] on an array of strings. *)
Definition Array_includes (xs : list string) (x : string) : bool :=
  existsb (String.eqb x) xs.

Definition withError (err : option string) (u : UploadState.t) : UploadState.t :=
  UploadState.mk (UploadState.file u) (UploadState.preview u)
    (UploadState.selectedPatientId u) (UploadState.selectedLanguage u)
    (UploadState.isProcessing u) err (UploadState.location u).

(** [processFile], up to the point where it hands the file to the
    [FileReader]. *)
Definition processFile (f : File.t) (u : UploadState.t) : UploadState.t :=
  if negb (Array_includes validTypes (File.type f)) then
    withError (Some "Invalid file type. Please upload JPG, PNG, or PDF.") u
  else if (File.size f >? 50 * 1024 * 1024)%Z then
    withError (Some "File is too large. Max size is 50MB.") u
  else
    UploadState.mk (Some (File.type f, File.name f)) (UploadState.preview u)
      (UploadState.selectedPatientId u) (UploadState.selectedLanguage u)
      (UploadState.isProcessing u) None (UploadState.location u).

(** [reader.onload]: the data URL of the file becomes the preview. *)
Definition readerOnload (result : string) (u : UploadState.t) : UploadState.t :=
  UploadState.mk (UploadState.file u) (Some result)
    (UploadState.selectedPatientId u) (UploadState.selectedLanguage u)
    (UploadState.isProcessing u) (UploadState.error u) (UploadState.location u).

(** [handleFileChange], and [handleDrop] apart from the drop zone's
    highlighting: the first file of the list, when there is one, goes to
    [processFile]. *)
Definition handleFileChange (files : list File.t) (u : UploadState.t) : UploadState.t :=
  match files with
  | f :: _ => processFile f u
  | [] => u
  end.

(** The "Remove & Upload Different File" button. *)
Definition removeFile (u : UploadState.t) : UploadState.t :=
  UploadState.mk None None
    (UploadState.selectedPatientId u) (UploadState.selectedLanguage u)
    (UploadState.isProcessing u) (UploadState.error u) (UploadState.location u).

(** What a user can do on the upload page. *)
Inductive UploadEvent : Type :=
| FilesChosen (files : list File.t)
| ReaderLoaded (result : string)
| RemoveFile
| SelectPatient (id : string)
| SelectLanguage (language : string)
| DismissError
| Submit.

Section UploadPage.
Context (rt : JsRuntime) (browser : Browser) (sdk : GenAIClient).

Definition uploadStep (e : UploadEvent) (u : UploadState.t) (s : Store.t) (w : World)
    : (UploadState.t * Store.t) * World :=
  match e with
  | FilesChosen files => (handleFileChange files u, s, w)
  | ReaderLoaded result => (readerOnload result u, s, w)
  | RemoveFile => (removeFile u, s, w)
  | SelectPatient id =>
      (UploadState.mk (UploadState.file u) (UploadState.preview u) id
         (UploadState.selectedLanguage u) (UploadState.isProcessing u)
         (UploadState.error u) (UploadState.location u), s, w)
  | SelectLanguage language =>
      (UploadState.mk (UploadState.file u) (UploadState.preview u)
         (UploadState.selectedPatientId u) language (UploadState.isProcessing u)
         (UploadState.error u) (UploadState.location u), s, w)
  | DismissError => (withError None u, s, w)
  | Submit => handleSubmit rt browser sdk u s w
  end.

Fixpoint uploadSession (es : list UploadEvent) (u : UploadState.t) (s : Store.t)
    (w : World) : (UploadState.t * Store.t) * World :=
  match es with
  | [] => (u, s, w)
  | e :: rest =>
      match uploadStep e u s w with
      | (u', s', w') => uploadSession rest u' s' w'
      end
  end.

End UploadPage.

(** ** pages/Admin: the API key *)

Module AdminState.
Record t : Type := mk {
  apiKey : string;
  showKey : bool;
  keySaved : bool;
  hasExistingKey : bool
}.
End AdminState.

Definition withLocalKey (k : option string) (b : Browser) : Browser :=
  {| localStorage_MEDLENS_API_KEY := k;
     window_MEDLENS_API_KEY := window_MEDLENS_API_KEY b;
     process := process b |}.

(** The effect run when the page mounts. *)
Definition loadSavedKey (a : AdminState.t) (b : Browser) : AdminState.t :=
  match localStorage_MEDLENS_API_KEY b with
  | Some savedKey =>
      if truthy (JStr savedKey)
      then AdminState.mk savedKey (AdminState.showKey a) (AdminState.keySaved a) true
      else a
  | None => a
  end.

Section Admin.
Context (rt : JsRuntime).

(** [handleSaveKey], up to the timer it starts. *)
Definition handleSaveKey (a : AdminState.t) (b : Browser) : AdminState.t * Browser :=
  if negb (truthy (JStr (String_trim rt (AdminState.apiKey a)))) then
    (AdminState.mk (AdminState.apiKey a) (AdminState.showKey a) true false,
     withLocalKey None b)
  else
    (AdminState.mk (AdminState.apiKey a) (AdminState.showKey a) true true,
     withLocalKey (Some (String_trim rt (AdminState.apiKey a))) b).

End Admin.

(** The timer of [handleSaveKey], two seconds later. *)
Definition keySavedTimeout (a : AdminState.t) : AdminState.t :=
  AdminState.mk (AdminState.apiKey a) (AdminState.showKey a) false
    (AdminState.hasExistingKey a).

(** ** pages/ReportViewer: what is shown and what is offered *)

Inductive ExplanationMode : Type := patient | student | doctor.

Definition getSummaryForMode (mode : ExplanationMode) (report : Report.t) : JsVal :=
  match mode with
  | patient => js_or (Report.summaryPatient report) (Report.summary report)
  | student => js_or (Report.summaryStudent report) (Report.summary report)
  | doctor => js_or (Report.summaryDoctor report) (Report.summary report)
  end.

Definition getRecommendationsForMode (mode : ExplanationMode) (report : Report.t)
    : JsVal :=
  match mode with
  | patient => js_or (Report.recommendationsPatient report) (JArr [])
  | student => js_or (Report.recommendationsStudent report) (JArr [])
  | doctor => js_or (Report.recommendationsDoctor report) (JArr [])
  end.

(** The [summaryText] and the [recs] of [handleExportPDF]. *)
Definition exportSummaryText (mode : ExplanationMode) (report : Report.t) : JsVal :=
  match mode with
  | patient => js_or (Report.summaryPatientEn report) (Report.summary report)
  | student => js_or (Report.summaryStudentEn report) (Report.summary report)
  | doctor => js_or (Report.summaryDoctorEn report) (Report.summary report)
  end.

Definition exportRecommendations (mode : ExplanationMode) (report : Report.t) : JsVal :=
  match mode with
  | patient => js_or (Report.recommendationsPatientEn report) (JArr [])
  | student => js_or (Report.recommendationsStudentEn report) (JArr [])
  | doctor => js_or (Report.recommendationsDoctorEn report) (JArr [])
  end.

(** What the rendered viewer lets a clinician trigger: the approve button
    exists while the report is not approved, and the feedback buttons of a
    finding exist while that finding has no feedback. *)
Definition offered (report : Report.t) (a : ViewerAction) : Prop :=
  match a with
  | Approve => Report.status report <> APPROVED
  | SubmitFeedback findingId _ _ =>
      exists f, In f (Report.findings report) /\
                Finding.id f = findingId /\ Finding.feedback f = None
  end.



(** ** A runtime to evaluate examples with *)

Definition ascii_upper (c : ascii) : ascii :=
  let n := nat_of_ascii c in
  if (97 <=? n)%nat && (n <=? 122)%nat then ascii_of_nat (n - 32) else c.

Definition ascii_lower (c : ascii) : ascii :=
  let n := nat_of_ascii c in
  if (65 <=? n)%nat && (n <=? 90)%nat then ascii_of_nat (n + 32) else c.

Fixpoint string_map (f : ascii -> ascii) (s : string) : string :=
  match s with
  | EmptyString => EmptyString
  | String c s' => String (f c) (string_map f s')
  end.

Definition is_space (c : ascii) : bool :=
  let n := nat_of_ascii c in
  (n =? 32)%nat || ((9 <=? n)%nat && (n <=? 13)%nat).

Fixpoint trim_left (s : string) : string :=
  match s with
  | String c s' => if is_space c then trim_left s' else s
  | EmptyString => EmptyString
  end.

Fixpoint string_rev (s acc : string) : string :=
  match s with
  | EmptyString => acc
  | String c s' => string_rev s' (String c acc)
  end.

Definition ascii_trim (s : string) : string :=
  string_rev (trim_left (string_rev (trim_left s) "")) "".

(** The text built-ins below are the engine's on ASCII text; number
    formatting and parsing, date formatting and [JSON.parse] are not reached
    by the examples that use this runtime and answer with a constant. *)
Definition example_runtime : JsRuntime :=
  {| Number_toString := fun _ => "NaN";
     StringToNumber := fun _ => nan;
     String_toUpperCase := string_map ascii_upper;
     String_trim := ascii_trim;
     String_at := fun s i => match String.get i s with
                             | Some c => JStr (String c EmptyString)
                             | None => JUndefined
                             end;
     Date_toISOString := fun _ => "1970-01-01T00:00:00.000Z";
     JSON_parse := fun _ => None;
     TypeError_message := fun _ => "TypeError" |}.

(** A world whose clock advances one millisecond per reading. *)
Definition example_world : World :=
  {| clock := fun n => (1700000000000 + Z.of_nat n)%Z;
     random36 := fun n => "r" ++ nat_to_string n;
     clock_reads := 0;
     random_draws := 0 |}.

(** The payload of the specification's bounding-box scenario, its two lists
    placed under [highlights] where the normaliser reads them. *)
Definition noduleScenario : JsVal :=
  JObj [ ("highlights", JObj [
    ("regions_of_interest", JArr [
       JObj [ ("label", JStr "Nodule");
              ("description", JStr "3mm opacity");
              ("confidence", JNum 0.95);
              ("box_2d", JArr [JNum 10; JNum 20; JNum 30; JNum 40]) ] ]);
    ("artifacts", JArr []) ]) ].

(** The input of the same scenario written as the specification writes it,
    its two lists at the top level of the payload. *)
Definition scenarioAsWritten : JsVal :=
  JObj [
    ("regions_of_interest", JArr [
       JObj [ ("label", JStr "Nodule");
              ("description", JStr "3mm opacity");
              ("confidence", JNum 0.95);
              ("box_2d", JArr [JNum 10; JNum 20; JNum 30; JNum 40]) ] ]);
    ("artifacts", JArr []) ].

(** ** Vocabulary of the properties *)

(** The entries of a highlight list as [forEach] visits them: the elements
    of an array, nothing for a value [processHighlights] skips. *)
Definition itemsOf (items : JsVal) : list JsVal :=
  match items with
  | JArr elems => elems
  | _ => []
  end.

(** [data.highlights?.k] as a list of entries. *)
Definition highlightItems (data : JsVal) (k : string) : list JsVal :=
  match getField data "highlights" with
  | Normal highlights =>
      match getFieldOpt highlights k with
      | Normal items => itemsOf items
      | Throw _ => []
      end
  | Throw _ => []
  end.

(** A field read off the payload, [undefined] where the read throws. *)
Definition fieldOf (data : JsVal) (k : string) : JsVal :=
  match getField data k with
  | Normal v => v
  | Throw _ => JUndefined
  end.

(** [f] is the finding the [forEach] callback pushes for [item] in some
    state of the world. *)
Definition pushedFor (rt : JsRuntime) (data : JsVal) (fileId : string)
    (item : JsVal) (f : Finding.t) : Prop :=
  exists w w', highlightFinding rt data fileId CatFinding item w = (Normal f, w').

(** The value is neither [undefined] nor [null]. *)
Definition defined (v : JsVal) : Prop := v <> JUndefined /\ v <> JNull.

(** The shape the system instruction asks the model for, every key
    optional: the payload is an object; [highlights], when present, is an
    object whose two lists, when present, are arrays of objects with string
    [label] and [description] and a [box_2d] array of numbers; [file_type],
    when present, is a string. *)
Definition string_or_absent (v : JsVal) : bool :=
  match v with
  | JUndefined | JNull | JStr _ => true
  | _ => false
  end.

Definition is_number (v : JsVal) : bool :=
  match v with
  | JNum _ => true
  | _ => false
  end.

Definition conformsBox (v : JsVal) : bool :=
  match v with
  | JUndefined | JNull => true
  | JArr elems => forallb is_number elems
  | _ => false
  end.

Definition conformsItem (item : JsVal) : bool :=
  match item with
  | JObj _ =>
      string_or_absent (fieldOf item "label")
      && string_or_absent (fieldOf item "description")
      && conformsBox (fieldOf item "box_2d")
  | _ => false
  end.

Definition conformsList (v : JsVal) : bool :=
  match v with
  | JUndefined | JNull => true
  | JArr elems => forallb conformsItem elems
  | _ => false
  end.

Definition conformsHighlights (v : JsVal) : bool :=
  match v with
  | JUndefined | JNull => true
  | JObj _ =>
      conformsList (fieldOf v "regions_of_interest")
      && conformsList (fieldOf v "artifacts")
  | _ => false
  end.

Definition conforms (data : JsVal) : bool :=
  match data with
  | JObj _ =>
      conformsHighlights (fieldOf data "highlights")
      && string_or_absent (fieldOf data "file_type")
  | _ => false
  end.

(** A payload whose region list has one entry, [null]. *)
Definition nullEntryPayload : JsVal :=
  JObj [ ("highlights", JObj [ ("regions_of_interest", JArr [JNull]) ]) ].

(** [Completion] is a functor. *)
Definition cmap {A B} (f : A -> B) (c : Completion A) : Completion B :=
  match c with
  | Normal a => Normal (f a)
  | Throw e => Throw e
  end.

(** A finding, and a result, with the identifiers blanked. *)
Definition withoutId (f : Finding.t) : Finding.t :=
  Finding.mk "" (Finding.category f) (Finding.text f) (Finding.confidence f)
    (Finding.explanation f) (Finding.explanationEn f) (Finding.suggestedActions f)
    (Finding.icdCodes f) (Finding.evidence f) (Finding.feedback f).

Definition withoutIds (r : AnalysisResult.t) : AnalysisResult.t :=
  AnalysisResult.mk (AnalysisResult.summary r)
    (map withoutId (AnalysisResult.findings r))
    (AnalysisResult.summaryPatient r) (AnalysisResult.summaryStudent r)
    (AnalysisResult.summaryDoctor r)
    (AnalysisResult.summaryPatientEn r) (AnalysisResult.summaryStudentEn r)
    (AnalysisResult.summaryDoctorEn r)
    (AnalysisResult.recommendationsPatient r) (AnalysisResult.recommendationsStudent r)
    (AnalysisResult.recommendationsDoctor r)
    (AnalysisResult.recommendationsPatientEn r)
    (AnalysisResult.recommendationsStudentEn r)
    (AnalysisResult.recommendationsDoctorEn r).

(** The world of [example_world] one second later. *)
Definition later_world : World :=
  {| clock := fun n => (1700000001000 + Z.of_nat n)%Z;
     random36 := fun n => "r" ++ nat_to_string n;
     clock_reads := 0;
     random_draws := 0 |}.

(** The bounding box [{x, y, width, height}] the specification derives from
    a quadruple [[ymin, xmin, ymax, xmax]]. *)
Definition bboxOfQuadruple (ymin xmin ymax xmax : float) : BBox.t :=
  {| BBox.y := JNum ymin;
     BBox.x := JNum xmin;
     BBox.height := PrimFloat.sub ymax ymin;
     BBox.width := PrimFloat.sub xmax xmin |}.

(** The entries of both highlight lists, regions first, as the findings
    after the classification finding follow them. *)
Definition allHighlightItems (data : JsVal) : list JsVal :=
  (highlightItems data "regions_of_interest" ++ highlightItems data "artifacts")%list.

(** A payload that declares an overall confidence of zero and nothing else. *)
Definition zeroOverallPayload : JsVal := JObj [ ("confidence_overall", JNum 0) ].

(** The value the specification gives an English-fallback field: the
    English field when present, else the localized field when present, else
    the default.  A field is present when the payload has a value for it. *)
Definition present (v : JsVal) : bool :=
  match v with
  | JUndefined | JNull => false
  | _ => true
  end.

Definition spec_english_fallback (english localized default : JsVal) : JsVal :=
  if present english then english
  else if present localized then localized
  else default.

(** A payload whose English patient summary is present and empty. *)
Definition emptyEnglishPayload : JsVal :=
  JObj [ ("summary_patient", JStr "Resumen");
         ("summary_patient_en", JStr "") ].

(** [english || localized || default]: the first truthy operand, the
    default when neither is. *)
Definition firstTruthy (english localized default : JsVal) : JsVal :=
  if truthy english then english
  else if truthy localized then localized
  else default.

(** A browser in which no credential is configured anywhere. *)
Definition noCredentialBrowser : Browser :=
  {| localStorage_MEDLENS_API_KEY := None;
     window_MEDLENS_API_KEY := JUndefined;
     process := None |}.

(** Readings of the two things the specification asks of a summary in
    simulation mode, both generous: the text names the demonstration or
    simulation mode, in any letter case; the text speaks of the API key or
    of a credential. *)
Definition statesDemoMode (s : string) : bool :=
  let t := string_map ascii_lower s in
  includes "demo" t || includes "simulation" t.

Definition explainsCredential (s : string) : bool :=
  let t := string_map ascii_lower s in
  includes "api key" t || includes "credential" t.

Definition demoNoticeWithInstructions (v : JsVal) : bool :=
  match v with
  | JStr s => statesDemoMode s && explainsCredential s
  | _ => false
  end.

(** The six summary fields of a result. *)
Definition summaryFields (r : AnalysisResult.t) : list JsVal :=
  [ AnalysisResult.summaryPatient r; AnalysisResult.summaryStudent r;
    AnalysisResult.summaryDoctor r;
    AnalysisResult.summaryPatientEn r; AnalysisResult.summaryStudentEn r;
    AnalysisResult.summaryDoctorEn r ].

(** A file to analyse and an external model that is never reached. *)
Definition exampleFile : ReportFile.t :=
  {| ReportFile.id := "file-1"; ReportFile.url := Some "data:image/png;base64,AAAA";
     ReportFile.type := "image/png"; ReportFile.name := "scan.png" |}.

Definition noModel : GenAIClient :=
  {| GoogleGenAI_new := fun _ => None;
     generateContent := fun _ _ _ => Rejected "fetch failed" |}.

(** A finding with its feedback replaced. *)
Definition setFeedback (fb : option Feedback.t) (f : Finding.t) : Finding.t :=
  Finding.mk (Finding.id f) (Finding.category f) (Finding.text f)
    (Finding.confidence f) (Finding.explanation f) (Finding.explanationEn f)
    (Finding.suggestedActions f) (Finding.icdCodes f) (Finding.evidence f) fb.

(** The name of a thrown error, as [error.name] gives it. *)
Definition errorName (e : JsError) : string :=
  match e with
  | TypeError _ => "TypeError"
  | Error _ => "Error"
  end.

(** The failure the specification expects of feedback on an unknown
    finding. *)
Definition failsWithFindingNotFound {A} (c : Completion A) : Prop :=
  exists e, c = Throw e /\ errorName e = "FindingNotFound".

(** The report of a viewer route, as the component looks it up. *)
Definition reportOf (id : string) (s : Store.t) : option Report.t :=
  find (fun r => String.eqb (Report.id r) id) (Store.reports s).

(** How a report may differ after interactions with the viewer: it keeps its
    identifier, and its status is what it was or [APPROVED]. *)
Definition evolves (r r' : Report.t) : Prop :=
  Report.id r' = Report.id r /\
  (Report.status r' = Report.status r \/ Report.status r' = APPROVED).

(** A store with one patient, one signed-in clinician, and one report under
    review holding two findings. *)
Definition exampleFinding (id : string) (text : string) : Finding.t :=
  {| Finding.id := id; Finding.category := CatFinding; Finding.text := text;
     Finding.confidence := JNum 0.8;
     Finding.explanation := JStr "Visual pattern detected.";
     Finding.explanationEn := JStr "Visual pattern detected.";
     Finding.suggestedActions := JArr [];
     Finding.icdCodes := Some [];
     Finding.evidence := [];
     Finding.feedback := None |}.

Definition exampleReport : Report.t :=
  {| Report.id := "rep-1"; Report.patientId := "p1"; Report.patientName := "Ada";
     Report.createdAt := "2024-01-01T00:00:00.000Z";
     Report.status := REVIEW_REQUIRED;
     Report.files := [exampleFile];
     Report.findings := [exampleFinding "f1" "Nodule: 3mm opacity";
                         exampleFinding "f2" "Effusion: small"];
     Report.summary := JStr "Summary"; Report.language := "English";
     Report.summaryPatient := JStr "Summary"; Report.summaryStudent := JStr "";
     Report.summaryDoctor := JStr "";
     Report.recommendationsPatient := JArr [];
     Report.recommendationsStudent := JArr [];
     Report.recommendationsDoctor := JArr [];
     Report.summaryPatientEn := JStr "Summary"; Report.summaryStudentEn := JStr "";
     Report.summaryDoctorEn := JStr "";
     Report.recommendationsPatientEn := JArr [];
     Report.recommendationsStudentEn := JArr [];
     Report.recommendationsDoctorEn := JArr [] |}.

Definition exampleStore : Store.t :=
  {| Store.reports := [exampleReport];
     Store.patients := [ {| Patient.id := "p1"; Patient.name := "Ada" |} ];
     Store.user := Some {| User.id := "u1"; User.name := "Dr. Sarah Connor";
                           User.email := "sarah@medlens.ai"; User.role := "CLINICIAN" |} |}.

Definition exampleViewer : ViewerState.t :=
  {| ViewerState.correctionText := "";
     ViewerState.showCorrectionInput := None;
     ViewerState.location := "/report/rep-1" |}.

Definition exampleUpload : UploadState.t :=
  {| UploadState.file := Some ("image/png", "scan.png");
     UploadState.preview := Some "data:image/png;base64,AAAA";
     UploadState.selectedPatientId := "p1";
     UploadState.selectedLanguage := "English";
     UploadState.isProcessing := false;
     UploadState.error := None;
     UploadState.location := "/upload" |}.

(** The record a submission writes when it reads the clock at [k]. *)
Definition recorded (rt : JsRuntime) (isAccurate : bool) (correction : option string)
    (w : World) (k : nat) : Feedback.t :=
  {| Feedback.isAccurate := isAccurate;
     Feedback.correction := correction;
     Feedback.timestamp := Date_toISOString rt (clock w k) |}.

(** [f'] is [f] after a submission that ran between the worlds [w] and
    [w']: untouched when its identifier differs, and otherwise [f] with the
    submitted record, stamped with a clock reading of that interval. *)
Definition submitted (rt : JsRuntime) (findingId : string) (isAccurate : bool)
    (correction : option string) (w w' : World) (f f' : Finding.t) : Prop :=
  if String.eqb (Finding.id f) findingId then
    exists k, clock_reads w <= k < clock_reads w' /\
              f' = setFeedback (Some (recorded rt isAccurate correction w k)) f
  else f' = f.

(** A world further along in its history that gives the readings and draws
    of [example_world] again. *)
Definition replayed_world : World :=
  {| clock := fun n => (1699999999995 + Z.of_nat n)%Z;
     random36 := fun n => "r" ++ nat_to_string (n - 3);
     clock_reads := 5;
     random_draws := 3 |}.

(** Two worlds agree when they give the same clock readings and the same
    random draws from now on. *)
Definition agree (w1 w2 : World) : Prop :=
  (forall k, clock w1 (clock_reads w1 + k) = clock w2 (clock_reads w2 + k)) /\
  (forall k, random36 w1 (random_draws w1 + k) = random36 w2 (random_draws w2 + k)).

(** A computation respects agreement when, run in two worlds that agree, it
    completes the same way and leaves worlds that agree. *)
Definition respects {A} (m : M A) : Prop :=
  forall w1 w2, agree w1 w2 ->
    fst (m w1) = fst (m w2) /\ agree (snd (m w1)) (snd (m w2)).

(** A browser with a key in each of the three places. *)
Definition threeKeysBrowser : Browser :=
  {| localStorage_MEDLENS_API_KEY := Some "  stored-key ";
     window_MEDLENS_API_KEY := JStr "window-key";
     process := Some (JObj [("env", JObj [("API_KEY", JStr "env-key")])]) |}.

Definition exampleAdmin : AdminState.t :=
  {| AdminState.apiKey := " typed-key  "; AdminState.showKey := false;
     AdminState.keySaved := false; AdminState.hasExistingKey := false |}.

(** A value that is not an object or an array. *)
Definition primitive (v : JsVal) : bool :=
  match v with
  | JArr _ | JObj _ => false
  | _ => true
  end.

(** A runtime that differs from [example_runtime] in parsing the JSON text
    of the empty object. *)
Definition parsing_runtime : JsRuntime :=
  {| Number_toString := Number_toString example_runtime;
     StringToNumber := StringToNumber example_runtime;
     String_toUpperCase := String_toUpperCase example_runtime;
     String_trim := String_trim example_runtime;
     String_at := String_at example_runtime;
     Date_toISOString := Date_toISOString example_runtime;
     JSON_parse := fun text => if String.eqb text "{}" then Some (JObj []) else None;
     TypeError_message := TypeError_message example_runtime |}.

(** A client whose model answers with the given text, and one whose call
    is rejected with the given message. *)
Definition answering (text : option string) : GenAIClient :=
  {| GoogleGenAI_new := fun _ => None;
     generateContent := fun _ _ _ => Responded text |}.

Definition rejecting (message : string) : GenAIClient :=
  {| GoogleGenAI_new := fun _ => None;
     generateContent := fun _ _ _ => Rejected message |}.

(** A client whose call is rejected with a value that is no error object. *)
Definition rejectingWith (thrown : JsVal) : GenAIClient :=
  {| GoogleGenAI_new := fun _ => None;
     generateContent := fun _ _ _ => RejectedWith thrown |}.

(** The [message] of a caught value, when it is a string. *)
Definition caughtMessage (rt : JsRuntime) (c : Caught) : option string :=
  match c with
  | Raised e => Some (error_message rt e)
  | Foreign v =>
      match getField v "message" with
      | Normal (JStr m) => Some m
      | _ => None
      end
  end.

(** A thrown value on which [error.message.includes] cannot be called:
    [undefined] or [null], or a value whose [message] is neither a string nor
    an array. *)
Definition noUsableMessage (v : JsVal) : bool :=
  match getField v "message" with
  | Throw _ => true
  | Normal (JStr _) | Normal (JArr _) => false
  | Normal _ => true
  end.

(** The fixed messages the [catch] block of [analyzeMedicalImage] puts in
    the place of the caught one. *)
Definition rewordings : list string :=
  [ "Invalid API Key. Please update it in the Admin Configuration.";
    "Network Error: Could not connect to Google AI services.";
    "The image format is not supported or corrupted.";
    "The AI service is currently overloaded. Please try again in a moment." ].

(** [data.highlights?.k], [undefined] where the read throws. *)
Definition highlightValue (data : JsVal) (k : string) : JsVal :=
  match getField data "highlights" with
  | Normal highlights =>
      match getFieldOpt highlights k with
      | Normal items => items
      | Throw _ => JUndefined
      end
  | Throw _ => JUndefined
  end.

(** A highlight list [processHighlights] can walk: a falsy value or an
    array. *)
Definition walkable (items : JsVal) : Prop :=
  truthy items = false \/ exists elems, items = JArr elems.

(** The payload keys of an audience: localized and English summary,
    localized and English recommendations. *)
Definition summaryKey (mode : ExplanationMode) : string :=
  match mode with
  | patient => "summary_patient"
  | student => "summary_student"
  | doctor => "summary_doctor"
  end.

Definition summaryEnKey (mode : ExplanationMode) : string :=
  match mode with
  | patient => "summary_patient_en"
  | student => "summary_student_en"
  | doctor => "summary_doctor_en"
  end.

Definition recommendationsKey (mode : ExplanationMode) : string :=
  match mode with
  | patient => "recommendations_patient"
  | student => "recommendations_student"
  | doctor => "recommendations_doctor"
  end.

Definition recommendationsEnKey (mode : ExplanationMode) : string :=
  match mode with
  | patient => "recommendations_patient_en"
  | student => "recommendations_student_en"
  | doctor => "recommendations_doctor_en"
  end.

(** The number of findings a feedback submission addresses. *)
Definition addressed (findingId : string) (fs : list Finding.t) : nat :=
  List.length (filter (fun f => String.eqb (Finding.id f) findingId) fs).

(** A report with the feedback of its first finding already recorded. *)
Definition reviewedReport : Report.t :=
  Report.with_findings
    [ setFeedback (Some {| Feedback.isAccurate := true; Feedback.correction := None;
                           Feedback.timestamp := "2024-01-02T00:00:00.000Z" |})
        (exampleFinding "f1" "Nodule: 3mm opacity");
      exampleFinding "f2" "Effusion: small" ]
    exampleReport.

Definition reviewedStore : Store.t :=
  Store.mk [reviewedReport] (Store.patients exampleStore) (Store.user exampleStore).

(** The chosen file, when there is one, is of an accepted type. *)
Definition fileAccepted (u : UploadState.t) : Prop :=
  match UploadState.file u with
  | Some file => In (fst file) validTypes
  | None => True
  end.

(** A report as the upload page leaves it in the store: awaiting review,
    for a patient of the store, with one file of an accepted type. *)
Definition uploaded (s : Store.t) (r : Report.t) : Prop :=
  Report.status r = REVIEW_REQUIRED /\
  (exists p, In p (Store.patients s) /\
             Report.patientId r = Patient.id p /\
             Report.patientName r = Patient.name p) /\
  exists rf, Report.files r = [rf] /\ In (ReportFile.type rf) validTypes.

(** The upload page as it mounts. *)
Definition initialUpload : UploadState.t :=
  {| UploadState.file := None;
     UploadState.preview := None;
     UploadState.selectedPatientId := "";
     UploadState.selectedLanguage := "English";
     UploadState.isProcessing := false;
     UploadState.error := None;
     UploadState.location := "/upload" |}.

Definition scanFile : File.t :=
  {| File.type := "image/png"; File.name := "scan.png"; File.size := 204800 |}.

(** ** Running the monad *)

Lemma bind_Normal {A B} (m : M A) (k : A -> M B) w b w' :
  bind m k w = (Normal b, w') ->
  exists a w1, m w = (Normal a, w1) /\ k a w1 = (Normal b, w').
Proof.
  unfold bind. destruct (m w) as [[a|e] w1]; intros H.
  - exists a, w1. split; [reflexivity | exact H].
  - discriminate H.
Qed.

Lemma lift_Normal {A} (c : Completion A) w a w' :
  lift c w = (Normal a, w') -> c = Normal a /\ w' = w.
Proof. unfold lift. intros H. inversion H. split; reflexivity. Qed.

Lemma ret_Normal {A} (x : A) w a w' :
  ret x w = (Normal a, w') -> a = x /\ w' = w.
Proof. unfold ret. intros H. inversion H. split; reflexivity. Qed.

Lemma Normal_inj {A} (a b : A) : Normal a = Normal b -> a = b.
Proof. intros H. injection H as H. exact H. Qed.

(** Decompose a hypothesis saying that a monadic block returned normally. *)
Ltac run_inv H :=
  repeat match type of H with
  | bind _ _ _ = (Normal _, _) =>
      let a := fresh "a" in let w := fresh "w" in
      let H1 := fresh "Hstep" in
      apply bind_Normal in H; destruct H as (a & w & H1 & H);
      first [ apply lift_Normal in H1; destruct H1 as [H1 ->]
            | idtac ]
  | ret _ _ = (Normal _, _) =>
      apply ret_Normal in H; destruct H as [-> ->]
  end.

Section NormaliserFacts.
Context (rt : JsRuntime) (data : JsVal) (fileId : string).

(** What is known of a finding the callback pushed. *)
Lemma highlightFinding_Normal cat item w f w' :
  highlightFinding rt data fileId cat item w = (Normal f, w') ->
  exists conf,
    getField item "confidence" = Normal conf /\
    Finding.category f = cat /\
    Finding.confidence f = js_or conf (JNum 0.8) /\
    highlightEvidence rt fileId item = Normal (Finding.evidence f) /\
    Finding.id f = "find-" ++ Z_to_string (clock w (clock_reads w)) ++ "-"
                     ++ random36 w (random_draws w) /\
    Finding.feedback f = None.
Proof.
  unfold highlightFinding. intros H. run_inv H.
  unfold Date_now in Hstep. inversion Hstep; subst; clear Hstep.
  unfold Math_random36 in Hstep0. inversion Hstep0; subst; clear Hstep0.
  exists a5. simpl. repeat split; assumption.
Qed.

Lemma forEach_push_Normal cat elems : forall acc w fs w',
  forEach_push rt data fileId cat elems acc w = (Normal fs, w') ->
  exists fr, fs = (acc ++ fr)%list /\
             Forall2 (fun item f => exists w1 w2,
                        highlightFinding rt data fileId cat item w1 = (Normal f, w2))
                     elems fr.
Proof.
  induction elems as [|item rest IH]; intros acc w fs w' H; simpl in H.
  - apply ret_Normal in H. destruct H as [-> _].
    exists []. split; [now rewrite app_nil_r | constructor].
  - apply bind_Normal in H. destruct H as (f & w1 & Hf & H).
    apply IH in H. destruct H as (fr & -> & Hfr).
    exists (f :: fr). split.
    + now rewrite <- app_assoc.
    + constructor; [now exists w, w1 | exact Hfr].
Qed.

Lemma processHighlights_Normal items cat acc w fs w' :
  processHighlights rt data fileId items cat acc w = (Normal fs, w') ->
  exists fr, fs = (acc ++ fr)%list /\
             Forall2 (fun item f => exists w1 w2,
                        highlightFinding rt data fileId cat item w1 = (Normal f, w2))
                     (itemsOf items) fr.
Proof.
  unfold processHighlights. destruct (truthy items) eqn:Ht; simpl.
  - destruct items; try (unfold throw; discriminate).
    apply forEach_push_Normal.
  - intros H. apply ret_Normal in H. destruct H as [-> _].
    exists []. split; [now rewrite app_nil_r |].
    destruct items; simpl in *; try constructor; discriminate.
Qed.

End NormaliserFacts.

(** Name every value read off [data] by the field it came from. *)
Ltac name_fields data :=
  repeat match goal with
  | H : getField data ?k = Normal ?a |- _ =>
      is_var a;
      assert (a = fieldOf data k) by (unfold fieldOf; rewrite H; reflexivity);
      subst a; clear H
  end.

(** The result of a normal run of the normaliser, field by field. *)
Lemma mapModelResponseToApp_Normal rt data fileId w r w' :
  mapModelResponseToApp rt data fileId w = (Normal r, w') ->
  exists cls fr fa,
    AnalysisResult.findings r = cls :: (fr ++ fa)%list /\
    Forall2 (pushedFor rt data fileId) (highlightItems data "regions_of_interest") fr /\
    Forall2 (pushedFor rt data fileId) (highlightItems data "artifacts") fa /\
    (Finding.category cls = CatImpression /\
     Finding.confidence cls = js_or (fieldOf data "confidence_overall") (JNum 0.9) /\
     Finding.evidence cls = [] /\
     Finding.feedback cls = None /\
     classificationText rt (fieldOf data "file_type") = Normal (Finding.text cls)) /\
    r = {| AnalysisResult.summary :=
             js_or (fieldOf data "summary_patient") (JStr "Analysis complete.");
           AnalysisResult.findings := cls :: (fr ++ fa)%list;
           AnalysisResult.summaryPatient := js_or (fieldOf data "summary_patient") (JStr "");
           AnalysisResult.summaryStudent := js_or (fieldOf data "summary_student") (JStr "");
           AnalysisResult.summaryDoctor := js_or (fieldOf data "summary_doctor") (JStr "");
           AnalysisResult.summaryPatientEn :=
             js_or (js_or (fieldOf data "summary_patient_en")
                          (fieldOf data "summary_patient")) (JStr "");
           AnalysisResult.summaryStudentEn :=
             js_or (js_or (fieldOf data "summary_student_en")
                          (fieldOf data "summary_student")) (JStr "");
           AnalysisResult.summaryDoctorEn :=
             js_or (js_or (fieldOf data "summary_doctor_en")
                          (fieldOf data "summary_doctor")) (JStr "");
           AnalysisResult.recommendationsPatient :=
             js_or (fieldOf data "recommendations_patient") (JArr []);
           AnalysisResult.recommendationsStudent :=
             js_or (fieldOf data "recommendations_student") (JArr []);
           AnalysisResult.recommendationsDoctor :=
             js_or (fieldOf data "recommendations_doctor") (JArr []);
           AnalysisResult.recommendationsPatientEn :=
             js_or (js_or (fieldOf data "recommendations_patient_en")
                          (fieldOf data "recommendations_patient")) (JArr []);
           AnalysisResult.recommendationsStudentEn :=
             js_or (js_or (fieldOf data "recommendations_student_en")
                          (fieldOf data "recommendations_student")) (JArr []);
           AnalysisResult.recommendationsDoctorEn :=
             js_or (js_or (fieldOf data "recommendations_doctor_en")
                          (fieldOf data "recommendations_doctor")) (JArr []) |}.
Proof.
  unfold mapModelResponseToApp. intros H.
  apply bind_Normal in H. destruct H as (hl & w1 & Hhl & H).
  apply lift_Normal in Hhl. destruct Hhl as [Hhl ->].
  apply bind_Normal in H. destruct H as (roi & w1 & Hroi & H).
  apply lift_Normal in Hroi. destruct Hroi as [Hroi ->].
  apply bind_Normal in H. destruct H as (fs1 & w1 & Hfs1 & H).
  apply processHighlights_Normal in Hfs1. destruct Hfs1 as (fr & -> & Hfr).
  apply bind_Normal in H. destruct H as (hl' & w2 & Hhl' & H).
  apply lift_Normal in Hhl'. destruct Hhl' as [Hhl' ->].
  apply bind_Normal in H. destruct H as (art & w2 & Hart & H).
  apply lift_Normal in Hart. destruct Hart as [Hart ->].
  apply bind_Normal in H. destruct H as (fs2 & w2 & Hfs2 & H).
  apply processHighlights_Normal in Hfs2. destruct Hfs2 as (fa & -> & Hfa).
  apply bind_Normal in H. destruct H as (now & w3 & Hnow & H).
  apply bind_Normal in H. destruct H as (ft & w4 & Hft & H).
  apply lift_Normal in Hft. destruct Hft as [Hft ->].
  apply bind_Normal in H. destruct H as (txt & w4 & Htxt & H).
  apply lift_Normal in Htxt. destruct Htxt as [Htxt ->].
  run_inv H.
  assert (Hr : highlightItems data "regions_of_interest" = itemsOf roi)
    by (unfold highlightItems; rewrite Hhl, Hroi; reflexivity).
  assert (Ha : highlightItems data "artifacts" = itemsOf art)
    by (unfold highlightItems; rewrite Hhl', Hart; reflexivity).
  rewrite Hr, Ha. clear Hr Ha Hhl Hhl' Hroi Hart.
  name_fields data.
  eexists _, fr, fa. simpl.
  split; [reflexivity|]. split; [exact Hfr|]. split; [exact Hfa|].
  split; [|reflexivity].
  simpl. repeat split. exact Htxt.
Qed.

(** ** The normaliser completes on payloads of the requested shape *)

Section Totality.
Context (rt : JsRuntime) (data : JsVal) (fileId : string).

Lemma ToString_string_or_absent v :
  string_or_absent v = true -> exists s, ToString rt v = Normal s.
Proof. destruct v; simpl; intros H; try discriminate H; eexists; reflexivity. Qed.

Lemma ToNumber_nth_numbers elems i :
  forallb is_number elems = true ->
  exists x, ToNumber rt (nth i elems JUndefined) = Normal x.
Proof.
  revert i. induction elems as [|v rest IH]; intros i H.
  - destruct i; simpl; eexists; reflexivity.
  - simpl in H. apply andb_prop in H. destruct H as [Hv Hrest].
    destruct i; simpl.
    + destruct v; try discriminate Hv. eexists; reflexivity.
    + apply IH, Hrest.
Qed.

Lemma js_sub_numbers elems i j :
  forallb is_number elems = true ->
  exists x, js_sub rt (nth i elems JUndefined) (nth j elems JUndefined) = Normal x.
Proof.
  intros H. unfold js_sub.
  destruct (ToNumber_nth_numbers elems i H) as [a ->].
  destruct (ToNumber_nth_numbers elems j H) as [b ->].
  eexists; reflexivity.
Qed.

Lemma highlightEvidence_total props :
  conformsBox (fieldOf (JObj props) "box_2d") = true ->
  exists ev, highlightEvidence rt fileId (JObj props) = Normal ev.
Proof.
  unfold highlightEvidence, fieldOf. simpl getField.
  destruct (match lookup "box_2d" props with Some x => x | None => JUndefined end)
    as [| |b|x|s|elems|ps] eqn:Hbox; simpl; intros H; try discriminate H;
    try (eexists; reflexivity).
  destruct (js_sub_numbers elems 2 0 H) as [h ->].
  destruct (js_sub_numbers elems 3 1 H) as [wd ->].
  eexists; reflexivity.
Qed.

Lemma highlightFinding_total cat item w :
  data <> JUndefined -> data <> JNull ->
  conformsItem item = true ->
  exists f w', highlightFinding rt data fileId cat item w = (Normal f, w').
Proof.
  intros Hd1 Hd2 Hitem. destruct item; try discriminate Hitem.
  simpl in Hitem.
  apply andb_prop in Hitem. destruct Hitem as [Hitem Hbox].
  apply andb_prop in Hitem. destruct Hitem as [Hlabel Hdesc].
  destruct (ToString_string_or_absent _ Hlabel) as [ls Hls].
  destruct (ToString_string_or_absent _ Hdesc) as [ds Hds].
  destruct (highlightEvidence_total props Hbox) as [ev Hev].
  unfold fieldOf in Hls, Hds. simpl in Hls, Hds.
  assert (Hdata : forall k, exists v, getField data k = Normal v).
  { intros k. destruct data; try (eexists; reflexivity); congruence. }
  destruct (Hdata "summary_student") as [v1 H1].
  destruct (Hdata "summary_student_en") as [v2 H2].
  destruct (Hdata "recommendations_student") as [v3 H3].
  unfold highlightFinding, Date_now, Math_random36, bind, lift, ret.
  simpl getField. cbv beta iota.
  rewrite Hls. cbv beta iota. rewrite Hds. cbv beta iota.
  rewrite H1, H2, H3, Hev.
  eexists _, _. reflexivity.
Qed.

Lemma forEach_push_total cat elems : forall acc w,
  data <> JUndefined -> data <> JNull ->
  forallb conformsItem elems = true ->
  exists fs w', forEach_push rt data fileId cat elems acc w = (Normal fs, w').
Proof.
  induction elems as [|item rest IH]; intros acc w Hd1 Hd2 H;
    cbn [forEach_push].
  - eexists _, _. reflexivity.
  - simpl in H. apply andb_prop in H. destruct H as [Hitem Hrest].
    destruct (highlightFinding_total cat item w Hd1 Hd2 Hitem) as (f & w1 & Hf).
    unfold bind at 1. rewrite Hf. apply IH; assumption.
Qed.

Lemma processHighlights_total items cat acc w :
  data <> JUndefined -> data <> JNull ->
  conformsList items = true ->
  exists fs w', processHighlights rt data fileId items cat acc w = (Normal fs, w').
Proof.
  intros Hd1 Hd2 H. unfold processHighlights.
  destruct items; simpl in *; try discriminate H;
    try (eexists _, _; reflexivity).
  apply forEach_push_total; assumption.
Qed.

Lemma classificationText_total v :
  string_or_absent v = true -> exists s, classificationText rt v = Normal s.
Proof. destruct v; simpl; intros H; try discriminate H; eexists; reflexivity. Qed.

End Totality.

Lemma conformsHighlights_lists h :
  conformsHighlights h = true ->
  exists roi art,
    getFieldOpt h "regions_of_interest" = Normal roi /\
    getFieldOpt h "artifacts" = Normal art /\
    conformsList roi = true /\ conformsList art = true.
Proof.
  destruct h; simpl; intros H; try discriminate H;
    try (exists JUndefined, JUndefined; repeat split; reflexivity).
  apply andb_prop in H. destruct H as [H1 H2].
  eexists _, _. repeat split; eassumption.
Qed.

Lemma mapModelResponseToApp_total rt data fileId w :
  conforms data = true ->
  exists r w', mapModelResponseToApp rt data fileId w = (Normal r, w').
Proof.
  intros H. destruct data as [| |b|x|s|elems|props]; try discriminate H.
  simpl in H. apply andb_prop in H. destruct H as [Hh Hft].
  set (data := JObj props) in *.
  assert (Hd1 : data <> JUndefined) by discriminate.
  assert (Hd2 : data <> JNull) by discriminate.
  destruct (conformsHighlights_lists _ Hh) as (roi & art & Hroi & Hart & Cr & Ca).
  destruct (classificationText_total rt _ Hft) as [txt Htxt].
  assert (Hfield : forall k, getField data k = Normal (fieldOf data k)) by reflexivity.
  destruct (processHighlights_total rt data fileId roi CatFinding [] w Hd1 Hd2 Cr)
    as (fs1 & w1 & Hfs1).
  destruct (processHighlights_total rt data fileId art CatFinding fs1 w1 Hd1 Hd2 Ca)
    as (fs2 & w2 & Hfs2).
  unfold mapModelResponseToApp, Date_now, bind, lift, ret.
  rewrite !Hfield. cbv beta iota.
  rewrite Hroi. cbv beta iota. rewrite Hfs1, Hart. cbv beta iota.
  rewrite Hfs2. cbv beta iota. rewrite Htxt.
  eexists _, _. reflexivity.
Qed.

(** ** C1: number and order of the findings *)

(** Outside the requested shape the normaliser may throw instead of
    returning: a region list whose one entry is [null] makes the read of
    [item.label] a TypeError, and no findings list is produced. *)
Lemma null_entry_throws :
  List.length (highlightItems nullEntryPayload "regions_of_interest") = 1 /\
  fst (mapModelResponseToApp example_runtime nullEntryPayload "file-1" example_world)
    = Throw (TypeError (ReadOfNullish "label")) /\
  conforms nullEntryPayload = false.
Proof.
  split; [reflexivity|]. split; [vm_compute; reflexivity | reflexivity].
Qed.

(** C1: for every raw payload with N entries in
    [highlights.regions_of_interest] and M entries in [highlights.artifacts],
    the findings list the normaliser produces has exactly [1 + N + M]
    findings: the file-classification finding (category Impression) at index
    0, then the finding pushed for each region entry in the emitted order,
    then the finding pushed for each artifact entry in the emitted order.  A
    missing or empty list contributes no entry.  The normaliser does produce
    a result on every payload of the shape the system instruction requests;
    its only other outcome is an exception. *)
Theorem findings_count_and_order rt data fileId w :
  (conforms data = true ->
   exists r w', mapModelResponseToApp rt data fileId w = (Normal r, w')) /\
  (forall r w',
     mapModelResponseToApp rt data fileId w = (Normal r, w') ->
     List.length (AnalysisResult.findings r)
       = 1 + List.length (highlightItems data "regions_of_interest")
           + List.length (highlightItems data "artifacts") /\
     exists cls fr fa,
       AnalysisResult.findings r = cls :: (fr ++ fa)%list /\
       Finding.category cls = CatImpression /\
       Forall2 (pushedFor rt data fileId)
               (highlightItems data "regions_of_interest") fr /\
       Forall2 (pushedFor rt data fileId)
               (highlightItems data "artifacts") fa) /\
  (forall h k, getFieldOpt h k = Normal JUndefined \/ getFieldOpt h k = Normal JNull
               \/ getFieldOpt h k = Normal (JArr []) ->
               getField data "highlights" = Normal h ->
               highlightItems data k = []).
Proof.
  split; [apply mapModelResponseToApp_total|]. split.
  - intros r w' Hrun.
    destruct (mapModelResponseToApp_Normal _ _ _ _ _ _ Hrun)
      as (cls & fr & fa & Hfs & Hfr & Hfa & (Hcat & _) & _).
    split.
    + rewrite Hfs. simpl. rewrite length_app.
      rewrite (Forall2_length Hfr), (Forall2_length Hfa). lia.
    + exists cls, fr, fa. repeat split; assumption.
  - intros h k Hk Hh. unfold highlightItems. rewrite Hh.
    destruct Hk as [-> | [-> | ->]]; reflexivity.
Qed.

Lemma findings_count_and_order_witness :
  conforms noduleScenario = true /\
  exists r w',
    mapModelResponseToApp example_runtime noduleScenario "file-1" example_world
      = (Normal r, w') /\
    List.length (AnalysisResult.findings r) = 2.
Proof.
  split; [reflexivity|].
  destruct (findings_count_and_order example_runtime noduleScenario "file-1"
              example_world) as [Htotal [Hshape _]].
  destruct (Htotal eq_refl) as (r & w' & Hrun).
  exists r, w'. split; [exact Hrun|].
  destruct (Hshape r w' Hrun) as [Hlen _]. exact Hlen.
Defined.

(** ** C4: what the result owes to the clock and the random generator *)

Section WorldIndependence.
Context (rt : JsRuntime) (data : JsVal) (fileId : string).

(** Destruct the completion a block is waiting on. *)
Ltac step_completion :=
  match goal with
  | |- context [match ?c with Normal _ => _ | Throw _ => _ end] =>
      destruct c; cbv beta iota
  end.

(** Two blocks that agree up to [g] on what they compute: it is enough that
    their first steps agree up to [f] and the continuations agree on
    [f]-related values. *)
Lemma related_bind {A B A' B'} (f : A -> A') (g : B -> B')
    (m1 m2 : M A) (k1 k2 : A -> M B) w1 w2 :
  cmap f (fst (m1 w1)) = cmap f (fst (m2 w2)) ->
  (forall a1 a2 v1 v2, f a1 = f a2 ->
     cmap g (fst (k1 a1 v1)) = cmap g (fst (k2 a2 v2))) ->
  cmap g (fst (bind m1 k1 w1)) = cmap g (fst (bind m2 k2 w2)).
Proof.
  intros Hm Hk. unfold bind.
  destruct (m1 w1) as [[a1|e1] v1]; destruct (m2 w2) as [[a2|e2] v2];
    simpl in Hm; try discriminate Hm.
  - apply Hk. now apply Normal_inj in Hm.
  - simpl. congruence.
Qed.

Lemma related_bind_lift {A B B'} (g : B -> B') (c : Completion A)
    (k1 k2 : A -> M B) w1 w2 :
  (forall a, cmap g (fst (k1 a w1)) = cmap g (fst (k2 a w2))) ->
  cmap g (fst (bind (lift c) k1 w1)) = cmap g (fst (bind (lift c) k2 w2)).
Proof. intros Hk. unfold bind, lift. destruct c; [apply Hk | reflexivity]. Qed.

(** The finding pushed for an item is the same in every world, its
    identifier apart; so is the exception, when one is thrown. *)
Lemma highlightFinding_any_world cat item w1 w2 :
  cmap withoutId (fst (highlightFinding rt data fileId cat item w1))
  = cmap withoutId (fst (highlightFinding rt data fileId cat item w2)).
Proof.
  unfold highlightFinding, bind, lift, ret, Date_now, Math_random36.
  cbv beta iota.
  repeat step_completion; reflexivity.
Qed.

Lemma forEach_push_any_world cat elems : forall acc1 acc2 w1 w2,
  map withoutId acc1 = map withoutId acc2 ->
  cmap (map withoutId) (fst (forEach_push rt data fileId cat elems acc1 w1))
  = cmap (map withoutId) (fst (forEach_push rt data fileId cat elems acc2 w2)).
Proof.
  induction elems as [|item rest IH]; intros acc1 acc2 w1 w2 Hacc;
    cbn [forEach_push].
  - simpl. now rewrite Hacc.
  - pose proof (highlightFinding_any_world cat item w1 w2) as Hf.
    unfold bind.
    destruct (highlightFinding rt data fileId cat item w1) as [[f1|e1] w1'];
      destruct (highlightFinding rt data fileId cat item w2) as [[f2|e2] w2'];
      simpl in Hf; try discriminate Hf.
    + apply IH. rewrite !map_app. cbn [map].
      apply Normal_inj in Hf. now rewrite Hacc, Hf.
    + simpl. congruence.
Qed.

Lemma processHighlights_any_world items cat acc1 acc2 w1 w2 :
  map withoutId acc1 = map withoutId acc2 ->
  cmap (map withoutId) (fst (processHighlights rt data fileId items cat acc1 w1))
  = cmap (map withoutId) (fst (processHighlights rt data fileId items cat acc2 w2)).
Proof.
  intros Hacc. unfold processHighlights.
  destruct (negb (truthy items)).
  - simpl. now rewrite Hacc.
  - destruct items; try reflexivity.
    now apply forEach_push_any_world.
Qed.

End WorldIndependence.

(** Every block of the normaliser respects agreement of worlds. *)
Lemma respects_ret {A} (a : A) : respects (ret a).
Proof. intros w1 w2 H. split; [reflexivity | exact H]. Qed.

Lemma respects_lift {A} (c : Completion A) : respects (lift c).
Proof. intros w1 w2 H. split; [reflexivity | exact H]. Qed.

Lemma respects_throw {A} (e : JsError) : respects (@throw A e).
Proof. intros w1 w2 H. split; [reflexivity | exact H]. Qed.

Lemma respects_bind {A B} (m : M A) (k : A -> M B) :
  respects m -> (forall a, respects (k a)) -> respects (bind m k).
Proof.
  intros Hm Hk w1 w2 H. unfold bind.
  destruct (Hm w1 w2 H) as [Hfst Hsnd].
  destruct (m w1) as [[a1|e1] v1]; destruct (m w2) as [[a2|e2] v2];
    simpl in Hfst, Hsnd; try discriminate Hfst.
  - apply Normal_inj in Hfst. subst a2. now apply Hk.
  - simpl. split; [congruence | exact Hsnd].
Qed.

Lemma respects_Date_now : respects Date_now.
Proof.
  intros w1 w2 [Hc Hr]. unfold Date_now. simpl. split; [|split].
  - f_equal. specialize (Hc 0). now rewrite !Nat.add_0_r in Hc.
  - intros k. specialize (Hc (S k)). now rewrite !Nat.add_succ_r in Hc.
  - exact Hr.
Qed.

Lemma respects_Math_random36 : respects Math_random36.
Proof.
  intros w1 w2 [Hc Hr]. unfold Math_random36. simpl. split; [|split].
  - f_equal. specialize (Hr 0). now rewrite !Nat.add_0_r in Hr.
  - exact Hc.
  - intros k. specialize (Hr (S k)). now rewrite !Nat.add_succ_r in Hr.
Qed.

Ltac respects_steps :=
  repeat first
    [ apply respects_ret | apply respects_lift | apply respects_throw
    | apply respects_Date_now | apply respects_Math_random36
    | apply respects_bind; [|intros ?] ].

Lemma respects_highlightFinding rt data fileId cat item :
  respects (highlightFinding rt data fileId cat item).
Proof. unfold highlightFinding. respects_steps. Qed.

Lemma respects_forEach_push rt data fileId cat elems : forall acc,
  respects (forEach_push rt data fileId cat elems acc).
Proof.
  induction elems as [|item rest IH]; intros acc; cbn [forEach_push].
  - apply respects_ret.
  - apply respects_bind; [apply respects_highlightFinding | intros f; apply IH].
Qed.

Lemma respects_processHighlights rt data fileId items cat acc :
  respects (processHighlights rt data fileId items cat acc).
Proof.
  unfold processHighlights. destruct (negb (truthy items)).
  - apply respects_ret.
  - destruct items; try apply respects_throw. apply respects_forEach_push.
Qed.

(** C4, as stated, fails: two runs on the same payload and file identifier,
    one a second after the other, return different results; the finding
    identifiers carry the clock reading. *)
Lemma same_input_different_results :
  fst (mapModelResponseToApp example_runtime noduleScenario "file-1" example_world)
    <> fst (mapModelResponseToApp example_runtime noduleScenario "file-1" later_world) /\
  cmap (fun r => map Finding.id (AnalysisResult.findings r))
       (fst (mapModelResponseToApp example_runtime noduleScenario "file-1" example_world))
    = Normal ["ft-1700000000001"; "find-1700000000000-r0"] /\
  cmap (fun r => map Finding.id (AnalysisResult.findings r))
       (fst (mapModelResponseToApp example_runtime noduleScenario "file-1" later_world))
    = Normal ["ft-1700000001001"; "find-1700000001000-r0"].
Proof.
  assert (H1 : cmap (fun r => map Finding.id (AnalysisResult.findings r))
                 (fst (mapModelResponseToApp example_runtime noduleScenario
                         "file-1" example_world))
               = Normal ["ft-1700000000001"; "find-1700000000000-r0"])
    by (vm_compute; reflexivity).
  assert (H2 : cmap (fun r => map Finding.id (AnalysisResult.findings r))
                 (fst (mapModelResponseToApp example_runtime noduleScenario
                         "file-1" later_world))
               = Normal ["ft-1700000001001"; "find-1700000001000-r0"])
    by (vm_compute; reflexivity).
  split; [|split; assumption].
  intros Heq. rewrite Heq, H2 in H1. discriminate H1.
Qed.

(** C4 (amended): the normaliser is deterministic up to the identifiers of
    the findings, and deterministic outright once the clock and the random
    generator are fixed.  Two runs on the same payload and file identifier,
    in any two states of the world, either both throw the same exception or
    both return, and the two results agree on every field of the result and
    of each finding except [id], which is built from [Date.now()] and
    [Math.random()]; if the two worlds give the same clock readings and the
    same random draws, the two runs return identical values, identifiers
    included. *)
Theorem normalize_deterministic_up_to_ids rt data fileId w1 w2 :
  cmap withoutIds (fst (mapModelResponseToApp rt data fileId w1))
    = cmap withoutIds (fst (mapModelResponseToApp rt data fileId w2))
  /\
  (agree w1 w2 ->
   fst (mapModelResponseToApp rt data fileId w1)
     = fst (mapModelResponseToApp rt data fileId w2)).
Proof.
  split.
  - unfold mapModelResponseToApp.
    apply related_bind_lift; intros hl.
    apply related_bind_lift; intros roi.
    apply related_bind with (f := map withoutId);
      [now apply processHighlights_any_world|].
    intros fs1 fs2 w1' w2' Hfs.
    apply related_bind_lift; intros hl'.
    apply related_bind_lift; intros art.
    apply related_bind with (f := map withoutId);
      [now apply processHighlights_any_world|].
    intros fa1 fa2 w1'' w2'' Hfa.
    apply related_bind with (f := fun _ : Z => tt); [reflexivity|].
    intros now1 now2 v1 v2 _.
    repeat (apply related_bind_lift; intros ?).
    unfold ret, withoutIds. simpl. rewrite Hfa. reflexivity.
  - intros Hagree.
    assert (H : respects (mapModelResponseToApp rt data fileId)).
    { unfold mapModelResponseToApp.
      apply respects_bind; [apply respects_lift | intros hl].
      apply respects_bind; [apply respects_lift | intros roi].
      apply respects_bind; [apply respects_processHighlights | intros fs].
      apply respects_bind; [apply respects_lift | intros hl'].
      apply respects_bind; [apply respects_lift | intros art].
      apply respects_bind; [apply respects_processHighlights | intros fa].
      respects_steps. }
    exact (proj1 (H w1 w2 Hagree)).
Qed.

Lemma normalize_deterministic_up_to_ids_witness :
  agree example_world replayed_world /\
  fst (mapModelResponseToApp example_runtime mockData "file-1" example_world)
  = fst (mapModelResponseToApp example_runtime mockData "file-1" replayed_world).
Proof.
  assert (H : agree example_world replayed_world).
  { unfold agree, example_world, replayed_world.
    cbn [clock clock_reads random36 random_draws].
    split; intros k.
    - rewrite Nat2Z.inj_add. change (Z.of_nat 0) with 0%Z.
      change (Z.of_nat 5) with 5%Z. lia.
    - replace (3 + k - 3) with (0 + k) by lia. reflexivity. }
  split; [exact H|].
  exact (proj2 (normalize_deterministic_up_to_ids example_runtime mockData "file-1"
                  example_world replayed_world) H).
Defined.

(** ** Per-entry facts: evidence and confidence *)

Lemma highlightEvidence_quadruple rt fileId item conf ymin xmin ymax xmax :
  getField item "box_2d" = Normal (JArr [JNum ymin; JNum xmin; JNum ymax; JNum xmax]) ->
  getField item "confidence" = Normal conf ->
  highlightEvidence rt fileId item
  = Normal [ {| Evidence.fileId := fileId;
                Evidence.confidence := js_or conf (JNum 0.8);
                Evidence.source := MODEL_VISION;
                Evidence.bbox := bboxOfQuadruple ymin xmin ymax xmax |} ].
Proof.
  intros Hbox Hconf. unfold highlightEvidence. rewrite Hbox. simpl.
  rewrite Hconf. reflexivity.
Qed.

Lemma highlightEvidence_no_box rt fileId item box :
  getField item "box_2d" = Normal box -> truthy box = false ->
  highlightEvidence rt fileId item = Normal [].
Proof.
  intros Hbox Hfalsy. unfold highlightEvidence. rewrite Hbox, Hfalsy. reflexivity.
Qed.

Lemma highlightEvidence_confidence rt fileId item conf ev :
  getField item "confidence" = Normal conf ->
  highlightEvidence rt fileId item = Normal ev ->
  Forall (fun e => Evidence.confidence e = js_or conf (JNum 0.8)) ev.
Proof.
  intros Hconf. unfold highlightEvidence.
  destruct (getField item "box_2d") as [box|e]; [|discriminate].
  destruct (truthy box).
  - rewrite Hconf.
    repeat match goal with
    | |- context [match ?c with Normal _ => _ | Throw _ => _ end] =>
        destruct c; [|discriminate]
    end.
    intros H. apply Normal_inj in H. subst ev.
    constructor; [reflexivity | constructor].
  - intros H. apply Normal_inj in H. subst ev. constructor.
Qed.

(** The findings after the first follow the entries of the two lists. *)
Lemma findings_follow_items rt data fileId w r w' :
  mapModelResponseToApp rt data fileId w = (Normal r, w') ->
  Forall2 (pushedFor rt data fileId) (allHighlightItems data)
          (tl (AnalysisResult.findings r)).
Proof.
  intros Hrun.
  destruct (mapModelResponseToApp_Normal _ _ _ _ _ _ Hrun)
    as (cls & fr & fa & Hfs & Hfr & Hfa & _).
  rewrite Hfs. simpl. unfold allHighlightItems.
  apply Forall2_app; assumption.
Qed.

(** ** C7: evidence from the bounding box *)

(** C7, as stated, fails at its own scenario: the input is written there
    with its two lists at the top level of the payload, where the normaliser
    does not look; it reads [data.highlights?.regions_of_interest] and
    [data.highlights?.artifacts].  On that input the normaliser returns the
    classification finding alone, and there is no finding 1. *)
Lemma scenario_as_written_has_one_finding :
  exists r w',
    mapModelResponseToApp example_runtime scenarioAsWritten "file-1" example_world
      = (Normal r, w') /\
    List.length (AnalysisResult.findings r) = 1 /\
    nth_error (AnalysisResult.findings r) 1 = None.
Proof. eexists _, _. split; [reflexivity|]. split; reflexivity. Qed.

(** C7 (amended): in every result of the normaliser, the finding of an
    entry of [highlights.regions_of_interest] or [highlights.artifacts] whose
    [box_2d] is a quadruple [[ymin, xmin, ymax, xmax]] carries exactly one
    evidence record, with bounding box
    [{x: xmin, y: ymin, height: ymax - ymin, width: xmax - xmin}], and the
    finding of an entry without [box_2d] carries no evidence.  The two lists
    are read under [highlights] only: a payload without [highlights] yields
    the classification finding alone, whatever it holds at its top level.
    On the scenario payload with its lists under [highlights] the normaliser
    returns two findings, and the first evidence record of finding 1 has the
    box [{y: 10, x: 20, height: 20, width: 20}]. *)
Theorem evidence_from_box rt data fileId w r w' :
  mapModelResponseToApp rt data fileId w = (Normal r, w') ->
  Forall2
    (fun item f =>
       (forall ymin xmin ymax xmax,
          getField item "box_2d"
            = Normal (JArr [JNum ymin; JNum xmin; JNum ymax; JNum xmax]) ->
          exists conf,
            Finding.evidence f
            = [ {| Evidence.fileId := fileId;
                   Evidence.confidence := conf;
                   Evidence.source := MODEL_VISION;
                   Evidence.bbox := bboxOfQuadruple ymin xmin ymax xmax |} ]) /\
       (forall box,
          getField item "box_2d" = Normal box -> truthy box = false ->
          Finding.evidence f = []))
    (allHighlightItems data) (tl (AnalysisResult.findings r))
  /\
  (present (fieldOf data "highlights") = false ->
   exists cls, AnalysisResult.findings r = [cls])
  /\
  (forall fileId' w0,
     exists r0 w0' f1 e,
       mapModelResponseToApp rt noduleScenario fileId' w0 = (Normal r0, w0') /\
       List.length (AnalysisResult.findings r0) = 2 /\
       nth_error (AnalysisResult.findings r0) 1 = Some f1 /\
       nth_error (Finding.evidence f1) 0 = Some e /\
       Evidence.bbox e = {| BBox.y := JNum 10; BBox.x := JNum 20;
                            BBox.height := 20; BBox.width := 20 |}).
Proof.
  intros Hrun. split; [|split].
  - eapply Forall2_impl; [|exact (findings_follow_items _ _ _ _ _ _ Hrun)].
    intros item f (w1 & w2 & Hpush).
    destruct (highlightFinding_Normal _ _ _ _ _ _ _ _ Hpush)
      as (conf & Hconf & _ & _ & Hev & _).
    split.
    + intros ymin xmin ymax xmax Hbox.
      rewrite (highlightEvidence_quadruple rt fileId item conf _ _ _ _ Hbox Hconf) in Hev.
      apply Normal_inj in Hev. exists (js_or conf (JNum 0.8)). now rewrite <- Hev.
    + intros box Hbox Hfalsy.
      rewrite (highlightEvidence_no_box rt fileId item box Hbox Hfalsy) in Hev.
      apply Normal_inj in Hev. now rewrite <- Hev.
  - intros Habsent.
    destruct (mapModelResponseToApp_Normal _ _ _ _ _ _ Hrun)
      as (cls & fr & fa & Hfs & Hfr & Hfa & _).
    assert (Hnone : forall k, highlightItems data k = []).
    { intros k. unfold highlightItems. unfold fieldOf in Habsent.
      destruct (getField data "highlights") as [h|]; [|reflexivity].
      destruct h; try discriminate Habsent; reflexivity. }
    rewrite Hnone in Hfr, Hfa. inversion Hfr. inversion Hfa. subst.
    exists cls. exact Hfs.
  - intros fileId' w0. eexists _, _, _, _.
    split; [reflexivity|]. repeat split.
Qed.

Lemma evidence_from_box_witness :
  exists r w',
    mapModelResponseToApp example_runtime mockData "file-1" example_world
      = (Normal r, w') /\
    Forall2
      (fun item f =>
         forall ymin xmin ymax xmax,
           getField item "box_2d"
             = Normal (JArr [JNum ymin; JNum xmin; JNum ymax; JNum xmax]) ->
           exists conf,
             Finding.evidence f
             = [ {| Evidence.fileId := "file-1";
                    Evidence.confidence := conf;
                    Evidence.source := MODEL_VISION;
                    Evidence.bbox := bboxOfQuadruple ymin xmin ymax xmax |} ])
      (allHighlightItems mockData) (tl (AnalysisResult.findings r)).
Proof.
  eexists _, _. split; [reflexivity|].
  eapply Forall2_impl;
    [| exact (proj1 (evidence_from_box example_runtime mockData "file-1"
                       example_world _ _ eq_refl))].
  intros item f [H _]. exact H.
Defined.

(** ** C10 and C5: a confidence of zero *)

(** C10: a confidence of exactly 0 is treated as absent.  In every result of
    the normaliser, the finding of an entry whose confidence is 0 has
    confidence 0.8, and so has each of its evidence records; when the
    payload's [confidence_overall] is 0 the classification finding has
    confidence 0.9; and the simulated payload, which declares
    [confidence_overall: 0.0], yields a classification finding of
    confidence 0.9. *)
Theorem zero_confidence_is_absent rt data fileId w r w' :
  mapModelResponseToApp rt data fileId w = (Normal r, w') ->
  Forall2
    (fun item f =>
       getField item "confidence" = Normal (JNum 0) ->
       Finding.confidence f = JNum 0.8 /\
       Forall (fun e => Evidence.confidence e = JNum 0.8) (Finding.evidence f))
    (allHighlightItems data) (tl (AnalysisResult.findings r))
  /\
  (getField data "confidence_overall" = Normal (JNum 0) ->
   exists cls,
     hd_error (AnalysisResult.findings r) = Some cls /\
     Finding.confidence cls = JNum 0.9)
  /\
  (getField mockData "confidence_overall" = Normal (JNum 0) /\
   forall file language w0,
     exists r0 w0' cls,
       simulateAnalysis rt file language w0 = (Normal r0, w0') /\
       hd_error (AnalysisResult.findings r0) = Some cls /\
       Finding.category cls = CatImpression /\
       Finding.confidence cls = JNum 0.9).
Proof.
  intros Hrun. split; [|split].
  - eapply Forall2_impl; [|exact (findings_follow_items _ _ _ _ _ _ Hrun)].
    intros item f (w1 & w2 & Hpush) Hzero.
    destruct (highlightFinding_Normal _ _ _ _ _ _ _ _ Hpush)
      as (conf & Hconf & _ & Hfc & Hev & _).
    rewrite Hzero in Hconf. apply Normal_inj in Hconf. subst conf.
    split; [exact Hfc|].
    exact (highlightEvidence_confidence rt fileId item (JNum 0) _ Hzero Hev).
  - intros Hzero.
    destruct (mapModelResponseToApp_Normal _ _ _ _ _ _ Hrun)
      as (cls & fr & fa & Hfs & _ & _ & (_ & Hconf & _) & _).
    exists cls. split; [now rewrite Hfs|].
    rewrite Hconf. unfold fieldOf. rewrite Hzero. reflexivity.
  - split; [reflexivity|].
    intros file language w0. unfold simulateAnalysis.
    eexists _, _, _. split; [reflexivity|]. repeat split.
Qed.

Lemma zero_confidence_is_absent_witness :
  exists r w' cls,
    mapModelResponseToApp example_runtime zeroOverallPayload "file-1" example_world
      = (Normal r, w') /\
    getField zeroOverallPayload "confidence_overall" = Normal (JNum 0) /\
    hd_error (AnalysisResult.findings r) = Some cls /\
    Finding.confidence cls = JNum 0.9.
Proof.
  destruct (zero_confidence_is_absent example_runtime zeroOverallPayload "file-1"
              example_world _ _ eq_refl) as (_ & Hcls & _).
  destruct (Hcls eq_refl) as (cls & Hhd & Hconf).
  eexists _, _, cls. split; [reflexivity|].
  split; [reflexivity|]. split; assumption.
Defined.




(** ** C6: the English-fallback fields *)

Lemma js_or_chain a b d : js_or (js_or a b) d = firstTruthy a b d.
Proof.
  unfold js_or, firstTruthy. destruct (truthy a) eqn:Ha.
  - now rewrite Ha.
  - reflexivity.
Qed.

Lemma js_or_defined v d : defined d -> defined (js_or v d).
Proof.
  intros Hd. unfold js_or, defined.
  destruct (truthy v) eqn:Hv; [|exact Hd].
  split; intros ->; discriminate.
Qed.

(** C6, as stated, fails: the payload's English patient summary is present
    (the empty string), and the result's English patient summary is the
    localized one, not the English field. *)
Lemma empty_english_summary_not_kept :
  exists r,
    fst (mapModelResponseToApp example_runtime emptyEnglishPayload "file-1" example_world)
      = Normal r /\
    fieldOf emptyEnglishPayload "summary_patient_en" = JStr "" /\
    present (fieldOf emptyEnglishPayload "summary_patient_en") = true /\
    AnalysisResult.summaryPatientEn r = JStr "Resumen" /\
    AnalysisResult.summaryPatientEn r
      <> spec_english_fallback (fieldOf emptyEnglishPayload "summary_patient_en")
                               (fieldOf emptyEnglishPayload "summary_patient")
                               (JStr "").
Proof.
  eexists. split; [reflexivity|].
  split; [reflexivity|]. split; [reflexivity|]. split; [reflexivity|].
  simpl. intros H. apply (f_equal truthy) in H. discriminate H.
Qed.

(** C6 (amended): in every result of the normaliser each of the six
    English-fallback fields is the payload's English field when that is
    truthy (present and, for a summary, not empty), else the corresponding
    localized field when that is truthy, else the empty string (summaries)
    or the empty list (recommendations); and none of the twelve audience
    fields is undefined or null. *)
Theorem english_fallback_fields rt data fileId w r w' :
  mapModelResponseToApp rt data fileId w = (Normal r, w') ->
  (AnalysisResult.summaryPatientEn r
     = firstTruthy (fieldOf data "summary_patient_en")
                   (fieldOf data "summary_patient") (JStr "") /\
   AnalysisResult.summaryStudentEn r
     = firstTruthy (fieldOf data "summary_student_en")
                   (fieldOf data "summary_student") (JStr "") /\
   AnalysisResult.summaryDoctorEn r
     = firstTruthy (fieldOf data "summary_doctor_en")
                   (fieldOf data "summary_doctor") (JStr "") /\
   AnalysisResult.recommendationsPatientEn r
     = firstTruthy (fieldOf data "recommendations_patient_en")
                   (fieldOf data "recommendations_patient") (JArr []) /\
   AnalysisResult.recommendationsStudentEn r
     = firstTruthy (fieldOf data "recommendations_student_en")
                   (fieldOf data "recommendations_student") (JArr []) /\
   AnalysisResult.recommendationsDoctorEn r
     = firstTruthy (fieldOf data "recommendations_doctor_en")
                   (fieldOf data "recommendations_doctor") (JArr []))
  /\
  Forall defined
    [ AnalysisResult.summaryPatient r; AnalysisResult.summaryStudent r;
      AnalysisResult.summaryDoctor r;
      AnalysisResult.recommendationsPatient r;
      AnalysisResult.recommendationsStudent r;
      AnalysisResult.recommendationsDoctor r;
      AnalysisResult.summaryPatientEn r; AnalysisResult.summaryStudentEn r;
      AnalysisResult.summaryDoctorEn r;
      AnalysisResult.recommendationsPatientEn r;
      AnalysisResult.recommendationsStudentEn r;
      AnalysisResult.recommendationsDoctorEn r ].
Proof.
  intros Hrun.
  destruct (mapModelResponseToApp_Normal _ _ _ _ _ _ Hrun)
    as (cls & fr & fa & _ & _ & _ & _ & ->).
  cbn [AnalysisResult.summaryPatient AnalysisResult.summaryStudent
       AnalysisResult.summaryDoctor AnalysisResult.recommendationsPatient
       AnalysisResult.recommendationsStudent AnalysisResult.recommendationsDoctor
       AnalysisResult.summaryPatientEn AnalysisResult.summaryStudentEn
       AnalysisResult.summaryDoctorEn AnalysisResult.recommendationsPatientEn
       AnalysisResult.recommendationsStudentEn
       AnalysisResult.recommendationsDoctorEn].
  split.
  - rewrite !js_or_chain. repeat split.
  - assert (Hs : defined (JStr "")) by (split; discriminate).
    assert (Ha : defined (JArr [])) by (split; discriminate).
    repeat constructor; apply js_or_defined; assumption.
Qed.

Lemma english_fallback_fields_witness :
  exists r w',
    mapModelResponseToApp example_runtime emptyEnglishPayload "file-1" example_world
      = (Normal r, w') /\
    AnalysisResult.summaryPatientEn r = JStr "Resumen" /\
    AnalysisResult.summaryDoctorEn r = JStr "" /\
    AnalysisResult.recommendationsDoctorEn r = JArr [].
Proof.
  eexists _, _. split; [reflexivity|].
  destruct (english_fallback_fields example_runtime emptyEnglishPayload "file-1"
              example_world _ _ eq_refl) as [(Hp & _ & Hd & _ & _ & Hr) _].
  split; [exact Hp|]. split; [exact Hd | exact Hr].
Defined.

(** ** C3: analysis without a credential *)

(** C3, as stated, fails: without a credential the analysis resolves, but
    not every summary field both states the demonstration mode and explains
    how to supply a credential.  The patient summary carries the notice and
    no instructions; the student summary carries the instructions and no
    notice. *)
Lemma simulated_summaries_differ :
  exists r,
    fst (analyzeMedicalImage example_runtime noCredentialBrowser noModel
           exampleFile "English" example_world) = Normal r /\
    AnalysisResult.summaryPatient r = JStr fallbackMsg /\
    explainsCredential fallbackMsg = false /\
    AnalysisResult.summaryStudent r = JStr instructionMsg /\
    statesDemoMode instructionMsg = false /\
    ~ Forall (fun v => demoNoticeWithInstructions v = true) (summaryFields r).
Proof.
  eexists. split; [reflexivity|].
  split; [reflexivity|]. split; [reflexivity|].
  split; [reflexivity|]. split; [reflexivity|].
  intros H. inversion H as [|v vs Hv _]. vm_compute in Hv. discriminate Hv.
Qed.

(** C3 (amended): for every file and language, when no credential is
    resolvable the analysis resolves with the simulated result, whose
    summaries are fixed texts: the patient summary (and the canonical
    summary, and the English patient summary) is the demonstration-mode
    notice; the student summaries are the instructions for entering an API
    key; the doctor summaries state that the application runs in simulation
    mode because no API key was found. *)
Theorem no_credential_simulation rt b sdk file language w :
  truthy (getApiKey rt b) = false ->
  exists r w',
    analyzeMedicalImage rt b sdk file language w = (Normal r, w') /\
    simulateAnalysis rt file language w = (Normal r, w') /\
    (AnalysisResult.summary r = JStr fallbackMsg /\
     AnalysisResult.summaryPatient r = JStr fallbackMsg /\
     AnalysisResult.summaryPatientEn r = JStr fallbackMsg /\
     includes "DEMO MODE" fallbackMsg = true) /\
    (AnalysisResult.summaryStudent r = JStr instructionMsg /\
     AnalysisResult.summaryStudentEn r = JStr instructionMsg /\
     explainsCredential instructionMsg = true) /\
    (AnalysisResult.summaryDoctor r = JStr missingKeyMsg /\
     AnalysisResult.summaryDoctorEn r = JStr missingKeyMsg /\
     statesDemoMode missingKeyMsg = true /\
     explainsCredential missingKeyMsg = true).
Proof.
  intros Hkey. unfold analyzeMedicalImage. rewrite Hkey. cbn [negb].
  unfold simulateAnalysis.
  eexists _, _. split; [reflexivity|]. split; [reflexivity|].
  cbn [AnalysisResult.summary AnalysisResult.summaryPatient
       AnalysisResult.summaryPatientEn AnalysisResult.summaryStudent
       AnalysisResult.summaryStudentEn AnalysisResult.summaryDoctor
       AnalysisResult.summaryDoctorEn].
  repeat split; vm_compute; reflexivity.
Qed.

Lemma no_credential_simulation_witness :
  truthy (getApiKey example_runtime noCredentialBrowser) = false /\
  exists r w',
    analyzeMedicalImage example_runtime noCredentialBrowser noModel
      exampleFile "Tamil" example_world = (Normal r, w') /\
    AnalysisResult.summaryPatient r = JStr fallbackMsg.
Proof.
  split; [reflexivity|].
  destruct (no_credential_simulation example_runtime noCredentialBrowser noModel
              exampleFile "Tamil" example_world eq_refl)
    as (r & w' & Hrun & _ & (_ & Hp & _) & _).
  exists r, w'. split; assumption.
Defined.

(** ** The feedback ledger and the store *)

Lemma Forall2_map_self {A} (g : A -> A) (l : list A) :
  Forall2 (fun x y => y = g x) l (map g l).
Proof. induction l; simpl; constructor; auto. Qed.

Lemma Forall2_compose {A B C} (R : A -> B -> Prop) (S : B -> C -> Prop)
    (T : A -> C -> Prop) :
  (forall a b c, R a b -> S b c -> T a c) ->
  forall la lb lc, Forall2 R la lb -> Forall2 S lb lc -> Forall2 T la lc.
Proof.
  intros H la lb lc HR. revert lc.
  induction HR as [|a b la lb Hab _ IH]; intros lc HS; inversion HS; subst.
  - constructor.
  - constructor; [eapply H; eassumption | now apply IH].
Qed.

Lemma with_findings_same r : Report.with_findings (Report.findings r) r = r.
Proof. destruct r; reflexivity. Qed.

(** After [updateReport], the viewer of the updated report finds the report
    with the updates applied. *)
Lemma reportOf_updateReport id report u s :
  reportOf id s = Some report ->
  reportOf id (updateReport (Report.id report) u s) = Some (applyUpdates u report).
Proof.
  unfold reportOf, updateReport. cbn [Store.reports].
  intros Hfind.
  assert (Hid : Report.id report = id).
  { apply find_some in Hfind. destruct Hfind as [_ H]. now apply String.eqb_eq. }
  assert (Hu : forall r, Report.id (applyUpdates u r) = Report.id r)
    by (intros r; destruct u; reflexivity).
  subst id.
  induction (Store.reports s) as [|r rest IH]; [discriminate Hfind|].
  cbn [find map] in *.
  destruct (String.eqb (Report.id r) (Report.id report)) eqn:Hr.
  - assert (r = report) by congruence. subst r. now rewrite Hu, Hr.
  - rewrite Hr. now apply IH.
Qed.

Section Ledger.
Context (rt : JsRuntime) (findingId : string) (isAccurate : bool)
        (correction : option string).

Lemma submitted_widen w0 w w' f f' :
  clock w = clock w0 -> clock_reads w0 <= clock_reads w ->
  forall w'', clock_reads w' <= clock_reads w'' ->
  submitted rt findingId isAccurate correction w w' f f' ->
  submitted rt findingId isAccurate correction w0 w'' f f'.
Proof.
  intros Hc Hle w'' Hle'. unfold submitted, recorded.
  destruct (String.eqb (Finding.id f) findingId); [|auto].
  intros (k & Hk & ->). exists k. split; [lia|]. now rewrite Hc.
Qed.

(** The [map] of [submitFeedback] never throws; it stamps each matching
    finding with its own reading of the clock. *)
Lemma mapM_withFeedback fs : forall w,
  exists fs' w',
    mapM (withFeedback rt findingId isAccurate correction) fs w = (Normal fs', w') /\
    clock w' = clock w /\ clock_reads w <= clock_reads w' /\
    Forall2 (submitted rt findingId isAccurate correction w w') fs fs'.
Proof.
  induction fs as [|f rest IH]; intros w; cbn [mapM].
  - exists [], w. repeat split; [lia | constructor].
  - unfold bind at 1. unfold withFeedback at 1.
    destruct (String.eqb (Finding.id f) findingId) eqn:Hid.
    + unfold bind at 1, Date_now, ret at 1.
      destruct (IH (tick_clock w)) as (fs' & w' & Hrest & Hc & Hle & Hall).
      unfold bind at 1. rewrite Hrest. unfold ret.
      eexists _, w'. split; [reflexivity|].
      simpl in Hc, Hle. split; [exact Hc|]. split; [lia|].
      constructor.
      * unfold submitted. rewrite Hid. exists (clock_reads w).
        split; [lia | reflexivity].
      * eapply Forall2_impl; [|exact Hall].
        intros a b Hab.
        apply (submitted_widen w (tick_clock w) w'); simpl; auto; lia.
    + unfold ret at 1.
      destruct (IH w) as (fs' & w' & Hrest & Hc & Hle & Hall).
      unfold bind at 1. rewrite Hrest. unfold ret.
      eexists _, w'. split; [reflexivity|].
      split; [exact Hc|]. split; [exact Hle|].
      constructor; [|exact Hall].
      unfold submitted. now rewrite Hid.
Qed.

(** With no matching finding the list comes back as it was, and the clock
    is not read. *)
Lemma mapM_withFeedback_unknown fs w :
  Forall (fun f => Finding.id f <> findingId) fs ->
  mapM (withFeedback rt findingId isAccurate correction) fs w = (Normal fs, w).
Proof.
  induction 1 as [|f rest Hf _ IH]; cbn [mapM]; [reflexivity|].
  unfold bind at 1, withFeedback at 1.
  apply String.eqb_neq in Hf. rewrite Hf.
  unfold ret at 1. unfold bind at 1. rewrite IH. reflexivity.
Qed.

End Ledger.

(** ** C2: feedback on an unknown finding *)

(** C2, as stated, fails: feedback on an identifier that matches no finding
    of the report does not fail; [submitFeedback] completes normally (and
    the store holds the report as before). *)
Lemma unknown_finding_is_not_an_error :
  Forall (fun f => Finding.id f <> "missing-id") (Report.findings exampleReport) /\
  fst (submitFeedback example_runtime exampleReport "missing-id" true None
         exampleStore exampleViewer example_world)
    = Normal (exampleStore,
              {| ViewerState.correctionText := "";
                 ViewerState.showCorrectionInput := None;
                 ViewerState.location := "/report/rep-1" |}) /\
  ~ failsWithFindingNotFound
      (fst (submitFeedback example_runtime exampleReport "missing-id" true None
              exampleStore exampleViewer example_world)).
Proof.
  split; [repeat constructor; discriminate|].
  split; [reflexivity|].
  intros (e & He & _). vm_compute in He. discriminate He.
Qed.

(** C2 (amended): for every report and every finding identifier that
    matches none of the report's findings, [submitFeedback] completes
    without an error and without reading the clock, and the report keeps
    its finding list: the store still holds the same report under its
    identifier. *)
Theorem unknown_finding_leaves_findings rt id report findingId isAccurate
    correction s v w :
  reportOf id s = Some report ->
  Forall (fun f => Finding.id f <> findingId) (Report.findings report) ->
  exists s',
    submitFeedback rt report findingId isAccurate correction s v w
      = (Normal (s', ViewerState.mk "" None (ViewerState.location v)), w) /\
    ReportViewer rt id (SubmitFeedback findingId isAccurate correction) s v w
      = (Normal (s', ViewerState.mk "" None (ViewerState.location v)), w) /\
    reportOf id s' = Some report /\
    ~ failsWithFindingNotFound
        (fst (submitFeedback rt report findingId isAccurate correction s v w)).
Proof.
  intros Hfind Hunknown.
  assert (Hrun : submitFeedback rt report findingId isAccurate correction s v w
                 = (Normal (updateReport (Report.id report)
                              (UpdFindings (Report.findings report)) s,
                            ViewerState.mk "" None (ViewerState.location v)), w)).
  { unfold submitFeedback, bind.
    rewrite (mapM_withFeedback_unknown rt findingId isAccurate correction _ w Hunknown).
    reflexivity. }
  eexists. split; [exact Hrun|]. split; [|split].
  - unfold ReportViewer. fold (reportOf id s). rewrite Hfind. exact Hrun.
  - rewrite (reportOf_updateReport id report _ s Hfind).
    cbn [applyUpdates]. now rewrite with_findings_same.
  - rewrite Hrun. intros (e & He & _). discriminate He.
Qed.

Lemma unknown_finding_leaves_findings_witness :
  reportOf "rep-1" exampleStore = Some exampleReport /\
  exists s',
    fst (submitFeedback example_runtime exampleReport "missing-id" true None
           exampleStore exampleViewer example_world)
      = Normal (s', ViewerState.mk "" None "/report/rep-1") /\
    reportOf "rep-1" s' = Some exampleReport.
Proof.
  split; [reflexivity|].
  destruct (unknown_finding_leaves_findings example_runtime "rep-1" exampleReport
              "missing-id" true None exampleStore exampleViewer example_world
              eq_refl)
    as (s' & Hrun & _ & Hkept & _).
  - repeat constructor; discriminate.
  - exists s'. split; [now rewrite Hrun | exact Hkept].
Defined.

(** ** C8: feedback overwrites feedback *)

(** C8: two successive feedback submissions for the same finding of a
    report leave each finding of that identifier with exactly one feedback
    record, the one of the second submission: its accuracy flag, its
    correction text, and a timestamp read from the clock during the second
    submission.  Nothing of the first record remains, and every other
    finding is as it was. *)
Theorem feedback_last_write_wins rt id report findingId a1 c1 a2 c2 s v w :
  reportOf id s = Some report ->
  exists s1 v1 w1 s2 v2 w2 report2,
    ReportViewer rt id (SubmitFeedback findingId a1 c1) s v w
      = (Normal (s1, v1), w1) /\
    ReportViewer rt id (SubmitFeedback findingId a2 c2) s1 v1 w1
      = (Normal (s2, v2), w2) /\
    reportOf id s2 = Some report2 /\
    Forall2
      (fun f f2 =>
         if String.eqb (Finding.id f) findingId then
           exists k, clock_reads w1 <= k < clock_reads w2 /\
                     f2 = setFeedback (Some (recorded rt a2 c2 w1 k)) f
         else f2 = f)
      (Report.findings report) (Report.findings report2).
Proof.
  intros Hfind.
  destruct (mapM_withFeedback rt findingId a1 c1 (Report.findings report) w)
    as (fs1 & w1 & Hmap1 & _ & _ & Hall1).
  destruct (mapM_withFeedback rt findingId a2 c2 fs1 w1)
    as (fs2 & w2 & Hmap2 & _ & _ & Hall2).
  set (s1 := updateReport (Report.id report) (UpdFindings fs1) s).
  set (report1 := Report.with_findings fs1 report).
  assert (Hfind1 : reportOf id s1 = Some report1)
    by exact (reportOf_updateReport id report (UpdFindings fs1) s Hfind).
  exists s1, (ViewerState.mk "" None (ViewerState.location v)), w1.
  exists (updateReport (Report.id report1) (UpdFindings fs2) s1),
         (ViewerState.mk "" None (ViewerState.location v)), w2,
         (Report.with_findings fs2 report1).
  split; [|split; [|split]].
  - unfold ReportViewer. fold (reportOf id s). rewrite Hfind.
    unfold submitFeedback, bind. rewrite Hmap1. reflexivity.
  - unfold ReportViewer. fold (reportOf id s1). rewrite Hfind1.
    unfold submitFeedback, bind. cbn [Report.findings report1 Report.with_findings].
    rewrite Hmap2. reflexivity.
  - exact (reportOf_updateReport id report1 (UpdFindings fs2) s1 Hfind1).
  - cbn [Report.findings Report.with_findings].
    eapply Forall2_compose; [|exact Hall1|exact Hall2].
    intros f f1 f2 H1 H2. unfold submitted in H1, H2.
    destruct (String.eqb (Finding.id f) findingId) eqn:Hid.
    + destruct H1 as (k1 & _ & ->).
      cbn [setFeedback Finding.id] in H2. rewrite Hid in H2.
      destruct H2 as (k2 & Hk2 & ->). exists k2. split; [exact Hk2|].
      reflexivity.
    + subst f1. rewrite Hid in H2. exact H2.
Qed.

Lemma feedback_last_write_wins_witness :
  reportOf "rep-1" exampleStore = Some exampleReport /\
  exists s2 v2 w2 report2,
    session example_runtime
      [ ("rep-1", SubmitFeedback "f1" false (Some "It is a cyst"));
        ("rep-1", SubmitFeedback "f1" true None) ]
      exampleStore exampleViewer example_world = (Normal (s2, v2), w2) /\
    reportOf "rep-1" s2 = Some report2 /\
    map Finding.feedback (Report.findings report2)
      = [ Some {| Feedback.isAccurate := true; Feedback.correction := None;
                  Feedback.timestamp := "1970-01-01T00:00:00.000Z" |};
          None ].
Proof.
  split; [reflexivity|].
  destruct (feedback_last_write_wins example_runtime "rep-1" exampleReport "f1"
              false (Some "It is a cyst") true None
              exampleStore exampleViewer example_world eq_refl)
    as (s1 & v1 & w1 & s2 & v2 & w2 & report2 & H1 & H2 & Hfind & Hall).
  exists s2, v2, w2, report2. split; [|split; [exact Hfind|]].
  - cbn [session]. unfold bind at 1. rewrite H1. cbn [fst snd].
    unfold bind at 1. rewrite H2. reflexivity.
  - inversion Hall as [|f f' fs fs' Hf Hrest Heq1 Heq2]; subst.
    inversion Hrest as [|g g' gs gs' Hg Hnil Heq3 Heq4]; subst.
    inversion Hnil; subst.
    cbn in Hf, Hg. destruct Hf as (k & _ & ->). subst g'. reflexivity.
Defined.

(** ** C9: the report lifecycle *)

Lemma evolves_refl r : evolves r r.
Proof. split; [reflexivity | left; reflexivity]. Qed.

Lemma evolves_trans r1 r2 r3 : evolves r1 r2 -> evolves r2 r3 -> evolves r1 r3.
Proof.
  intros [Hid12 Hst12] [Hid23 Hst23]. split; [congruence|].
  destruct Hst23 as [H|H]; [|right; exact H].
  destruct Hst12 as [H'|H']; [left | right]; congruence.
Qed.

Lemma surjective_pairing3 {A B C} (p : A * B * C) :
  p = (fst (fst p), snd (fst p), snd p).
Proof. destruct p as [[a b] c]. reflexivity. Qed.

Lemma Forall2_refl {A} (R : A -> A -> Prop) :
  (forall a, R a a) -> forall l, Forall2 R l l.
Proof. intros H l. induction l; constructor; auto. Qed.

(** [updateReport] changes no identifier and moves no status except to the
    status it is given. *)
Lemma updateReport_evolves id u s :
  (forall st, u = UpdStatus st -> st = APPROVED) ->
  Forall2 evolves (Store.reports s) (Store.reports (updateReport id u s)).
Proof.
  intros Hu. unfold updateReport. cbn [Store.reports].
  eapply Forall2_impl; [|apply Forall2_map_self].
  intros r r' ->. cbv beta.
  destruct (String.eqb (Report.id r) id); [|apply evolves_refl].
  destruct u as [st|fs]; cbn [applyUpdates]; split; try reflexivity.
  - right. cbn. now apply Hu.
  - left. reflexivity.
Qed.

(** One interaction with the viewer completes, and every report evolves. *)
Lemma ReportViewer_evolves rt id a s v w :
  exists s' v' w',
    ReportViewer rt id a s v w = (Normal (s', v'), w') /\
    Forall2 evolves (Store.reports s) (Store.reports s').
Proof.
  unfold ReportViewer.
  destruct (find _ (Store.reports s)) as [report|].
  - destruct a as [|findingId isAccurate correction].
    + unfold handleApprove, ret. eexists _, _, _. split; [reflexivity|].
      apply updateReport_evolves. intros st H. now injection H as <-.
    + unfold submitFeedback, bind.
      destruct (mapM_withFeedback rt findingId isAccurate correction
                  (Report.findings report) w) as (fs' & w' & -> & _).
      unfold ret. eexists _, _, _. split; [reflexivity|].
      apply updateReport_evolves. intros st H. discriminate H.
  - unfold ret. eexists _, _, _. split; [reflexivity|].
    apply Forall2_refl, evolves_refl.
Qed.

(** A new report starts under review. *)
Lemma newReport_status rt patient reportFile language analysis w r w' :
  newReport rt patient reportFile language analysis w = (Normal r, w') ->
  Report.status r = REVIEW_REQUIRED.
Proof.
  unfold newReport. intros H.
  apply bind_Normal in H. destruct H as (now & w1 & _ & H).
  destruct patient as [p|]; [|discriminate H].
  apply bind_Normal in H. destruct H as (created & w2 & _ & H).
  apply ret_Normal in H. destruct H as [-> _]. reflexivity.
Qed.

(** C9: the lifecycle is one-directional.  (1) Whenever [handleSubmit] adds
    a report to the store, that report has status [REVIEW_REQUIRED], and it
    changes no other report.  (2) [handleApprove] sets the status of the
    viewed report to [APPROVED] and touches no other report.  (3) Every
    sequence of viewer interactions (approvals and feedback submissions, on
    any reports) completes, keeps every report's identifier, and leaves each
    status as it was or [APPROVED]; so a report that is [APPROVED] stays
    [APPROVED]. *)
Theorem lifecycle_one_directional rt :
  (forall browser sdk u s w u' s' w',
     handleSubmit rt browser sdk u s w = (u', s', w') ->
     Store.reports s' = Store.reports s \/
     exists r, Store.reports s' = r :: Store.reports s /\
               Report.status r = REVIEW_REQUIRED)
  /\
  (forall report s v,
     Forall2 (fun r r' =>
                r' = if String.eqb (Report.id r) (Report.id report)
                     then Report.with_status APPROVED r else r)
             (Store.reports s)
             (Store.reports (fst (handleApprove report s v))))
  /\
  (forall acts s v w,
     exists s' v' w',
       session rt acts s v w = (Normal (s', v'), w') /\
       Forall2 (fun r r' =>
                  evolves r r' /\
                  (Report.status r = APPROVED -> Report.status r' = APPROVED))
               (Store.reports s) (Store.reports s')).
Proof.
  split; [|split].
  - intros browser sdk u s w u' s' w'. unfold handleSubmit.
    destruct (UploadState.file u) as [file|];
      [|intros H; left; congruence].
    destruct (Store.user s) as [user|];
      [|intros H; left; congruence].
    destruct (negb (truthy (JStr (UploadState.selectedPatientId u))));
      [intros H; left; congruence|].
    destruct (createReport rt browser sdk file u s w)
      as [[r|e] w1] eqn:Hcreate; intros H.
    + right. exists r. split; [injection H as _ <- _; reflexivity|].
      unfold createReport in Hcreate.
      apply bind_Normal in Hcreate. destruct Hcreate as (now & w2 & _ & Hcreate).
      apply bind_Normal in Hcreate.
      destruct Hcreate as (analysis & w3 & _ & Hnew).
      exact (newReport_status _ _ _ _ _ _ _ _ Hnew).
    + left. injection H as _ <- _. reflexivity.
  - intros report s v. unfold handleApprove, updateReport.
    cbn [fst Store.reports].
    eapply Forall2_impl; [|apply Forall2_map_self].
    intros r r' ->. reflexivity.
  - intros acts. induction acts as [|[id a] rest IH]; intros s v w.
    + exists s, v, w. split; [reflexivity|].
      apply Forall2_refl. intros r. split; [apply evolves_refl | auto].
    + destruct (ReportViewer_evolves rt id a s v w) as (s1 & v1 & w1 & Hstep & Hev1).
      destruct (IH s1 v1 w1) as (s' & v' & w' & Hrest & Hev2).
      exists s', v', w'. split.
      * cbn [session]. unfold bind. rewrite Hstep. exact Hrest.
      * eapply Forall2_compose; [|exact Hev1|exact Hev2].
        intros r1 r2 r3 H12 [H23 _].
        assert (H13 : evolves r1 r3) by (eapply evolves_trans; eassumption).
        split; [exact H13|].
        intros Happroved. destruct H13 as [_ [H|H]]; congruence.
Qed.

Lemma lifecycle_one_directional_witness :
  (exists r,
     Store.reports (snd (fst (handleSubmit example_runtime noCredentialBrowser noModel
                                exampleUpload exampleStore example_world)))
       = r :: Store.reports exampleStore /\
     Report.status r = REVIEW_REQUIRED) /\
  (exists s' v' w',
     session example_runtime
       [ ("rep-1", Approve);
         ("rep-1", SubmitFeedback "f1" true None);
         ("rep-2", Approve) ]
       exampleStore exampleViewer example_world = (Normal (s', v'), w') /\
     Forall2 (fun r r' =>
                evolves r r' /\
                (Report.status r = APPROVED -> Report.status r' = APPROVED))
             (Store.reports exampleStore) (Store.reports s')).
Proof.
  destruct (lifecycle_one_directional example_runtime) as (Hcreate & _ & Hsession).
  split.
  - destruct (Hcreate noCredentialBrowser noModel exampleUpload exampleStore
                example_world _ _ _ (surjective_pairing3 _)) as [Hsame | Hnew].
    + apply (f_equal (@List.length Report.t)) in Hsame.
      vm_compute in Hsame. discriminate Hsame.
    + exact Hnew.
  - apply Hsession.
Defined.

(** * Further properties of the sources *)

(** ** The credential: [getApiKey] and the admin page *)

Lemma nonempty_truthy s : (0 <? String.length s)%nat = true -> truthy (JStr s) = true.
Proof. destruct s; simpl; [discriminate | reflexivity]. Qed.

Lemma truthy_nonempty s : truthy (JStr s) = true -> (0 <? String.length s)%nat = true.
Proof. destruct s; simpl; [discriminate | reflexivity]. Qed.

(** The value [getApiKey] takes from [process.env], and from the window or
    the environment, is truthy or the empty string. *)
Lemma getApiKey_without_local_falsy rt b :
  truthy (getApiKey rt (withLocalKey None b)) = false ->
  getApiKey rt (withLocalKey None b) = JStr "".
Proof.
  unfold getApiKey, withLocalKey. cbn [localStorage_MEDLENS_API_KEY
    window_MEDLENS_API_KEY process].
  destruct (truthy (window_MEDLENS_API_KEY b)) eqn:Hw; [congruence|].
  destruct (process b) as [p|]; [|reflexivity].
  destruct p; try reflexivity.
  all: destruct (getField _ "env") as [env|e]; [|reflexivity].
  all: destruct (truthy env); [|reflexivity].
  all: destruct (getField env "API_KEY") as [k|e]; [|reflexivity].
  all: destruct (truthy k) eqn:Hk; [congruence | reflexivity].
Qed.

(** A stored key that is not blank is the credential, trimmed. *)
Lemma getApiKey_stored rt b k :
  localStorage_MEDLENS_API_KEY b = Some k ->
  String_trim rt k <> "" -> k <> "" ->
  getApiKey rt b = JStr (String_trim rt k) /\
  truthy (getApiKey rt b) = true.
Proof.
  assert (Hne : forall s, s <> "" -> (0 <? String.length s)%nat = true)
    by (intros [|c s] H; [congruence | reflexivity]).
  intros Hk Htrim Hkne. unfold getApiKey. rewrite Hk.
  rewrite (nonempty_truthy k (Hne k Hkne)), (Hne _ Htrim). cbn [andb].
  split; [reflexivity | apply nonempty_truthy, Hne, Htrim].
Qed.

(** X1: the credential is resolved in a fixed order.  A stored key that is
    not blank wins, trimmed, whatever the window and the environment hold;
    without one, a truthy [window.MEDLENS_API_KEY] wins over the
    environment; and when nothing is resolved the result is the empty
    string, never [undefined] or [null]. *)
Theorem getApiKey_precedence rt b :
  (forall k, localStorage_MEDLENS_API_KEY b = Some k ->
             String_trim rt k <> "" -> k <> "" ->
             getApiKey rt b = JStr (String_trim rt k) /\
             truthy (getApiKey rt b) = true)
  /\
  (localStorage_MEDLENS_API_KEY b = None \/
   (exists k, localStorage_MEDLENS_API_KEY b = Some k /\
              (k = "" \/ String_trim rt k = "")) ->
   getApiKey rt b = getApiKey rt (withLocalKey None b) /\
   (truthy (window_MEDLENS_API_KEY b) = true ->
    getApiKey rt b = window_MEDLENS_API_KEY b))
  /\
  (truthy (getApiKey rt b) = false -> getApiKey rt b = JStr "").
Proof.
  assert (Hne : forall s, s <> "" -> (0 <? String.length s)%nat = true)
    by (intros [|c s] H; [congruence | reflexivity]).
  assert (Hblank :
            localStorage_MEDLENS_API_KEY b = None \/
            (exists k, localStorage_MEDLENS_API_KEY b = Some k /\
                       (k = "" \/ String_trim rt k = "")) ->
            getApiKey rt b = getApiKey rt (withLocalKey None b)).
  { intros [Hnone | (k & Hk & Hblank)]; unfold getApiKey, withLocalKey;
      cbn [localStorage_MEDLENS_API_KEY window_MEDLENS_API_KEY process].
    - now rewrite Hnone.
    - rewrite Hk. destruct Hblank as [-> | ->]; [reflexivity|].
      now rewrite andb_false_r. }
  split; [|split].
  - intros k. apply getApiKey_stored.
  - intros H. split; [now apply Hblank|].
    intros Hw. rewrite (Hblank H). unfold getApiKey, withLocalKey.
    cbn [localStorage_MEDLENS_API_KEY window_MEDLENS_API_KEY]. now rewrite Hw.
  - intros Hfalsy.
    destruct (localStorage_MEDLENS_API_KEY b) as [k|] eqn:Hk.
    + destruct (truthy (JStr k) && (0 <? String.length (String_trim rt k))%nat)
        eqn:Huse.
      * exfalso. unfold getApiKey in Hfalsy. rewrite Hk, Huse in Hfalsy.
        apply andb_prop in Huse. destruct Huse as [_ Hlen].
        rewrite (nonempty_truthy _ Hlen) in Hfalsy. discriminate Hfalsy.
      * assert (Heq : getApiKey rt b = getApiKey rt (withLocalKey None b)).
        { unfold getApiKey, withLocalKey.
          cbn [localStorage_MEDLENS_API_KEY window_MEDLENS_API_KEY process].
          now rewrite Hk, Huse. }
        rewrite Heq in *. now apply getApiKey_without_local_falsy.
    + assert (Heq : getApiKey rt b = getApiKey rt (withLocalKey None b))
        by (apply Hblank; now left).
      rewrite Heq in *. now apply getApiKey_without_local_falsy.
Qed.

Lemma getApiKey_precedence_witness :
  getApiKey example_runtime threeKeysBrowser = JStr "stored-key" /\
  getApiKey example_runtime (withLocalKey (Some "   ") threeKeysBrowser)
    = JStr "window-key".
Proof.
  destruct (getApiKey_precedence example_runtime threeKeysBrowser) as (Hlocal & _ & _).
  destruct (getApiKey_precedence example_runtime
              (withLocalKey (Some "   ") threeKeysBrowser)) as (_ & Hblank & _).
  split.
  - apply (Hlocal "  stored-key " eq_refl); discriminate.
  - apply Hblank; [|reflexivity].
    right. exists "   ". split; [reflexivity | right; reflexivity].
Defined.

(** X2: saving a key on the admin page and resolving the credential compose.
    After [handleSaveKey] with a typed key that is not blank, [getApiKey]
    returns that key trimmed, whatever the window and the environment hold,
    and the page, mounted again, shows it; after [handleSaveKey] with a
    blank key the stored entry is gone and [getApiKey] resolves as if
    nothing had ever been stored. *)
Theorem saved_key_is_resolved rt a b :
  (String_trim rt (AdminState.apiKey a) <> "" ->
   String_trim rt (String_trim rt (AdminState.apiKey a))
     = String_trim rt (AdminState.apiKey a) ->
   getApiKey rt (snd (handleSaveKey rt a b))
     = JStr (String_trim rt (AdminState.apiKey a)) /\
   AdminState.hasExistingKey (fst (handleSaveKey rt a b)) = true /\
   AdminState.apiKey (loadSavedKey a (snd (handleSaveKey rt a b)))
     = String_trim rt (AdminState.apiKey a))
  /\
  (String_trim rt (AdminState.apiKey a) = "" ->
   localStorage_MEDLENS_API_KEY (snd (handleSaveKey rt a b)) = None /\
   getApiKey rt (snd (handleSaveKey rt a b)) = getApiKey rt (withLocalKey None b) /\
   AdminState.hasExistingKey (fst (handleSaveKey rt a b)) = false)
  /\
  AdminState.keySaved (fst (handleSaveKey rt a b)) = true.
Proof.
  unfold handleSaveKey.
  destruct (truthy (JStr (String_trim rt (AdminState.apiKey a)))) eqn:Htrim;
    cbn [negb fst snd].
  - split; [|split; [|reflexivity]].
    + intros Hne Hidem.
      set (k := String_trim rt (AdminState.apiKey a)) in *.
      split; [|split; [reflexivity|]].
      * destruct (getApiKey_stored rt (withLocalKey (Some k) b) k eq_refl)
          as [Hkey _].
        -- now rewrite Hidem.
        -- exact Hne.
        -- now rewrite <- Hidem at 2.
      * unfold loadSavedKey, withLocalKey. cbn [localStorage_MEDLENS_API_KEY].
        now rewrite Htrim.
    + intros Hblank. rewrite Hblank in Htrim. discriminate Htrim.
  - split; [|split; [|reflexivity]].
    + intros Hne. exfalso. apply Hne.
      destruct (String_trim rt (AdminState.apiKey a)); [reflexivity | discriminate].
    + intros _. repeat split.
Qed.

Lemma saved_key_is_resolved_witness :
  getApiKey example_runtime (snd (handleSaveKey example_runtime exampleAdmin threeKeysBrowser))
    = JStr "typed-key" /\
  getApiKey example_runtime
    (snd (handleSaveKey example_runtime
            (AdminState.mk "  " false false true) threeKeysBrowser))
    = JStr "window-key".
Proof.
  split.
  - apply (proj1 (saved_key_is_resolved example_runtime exampleAdmin threeKeysBrowser));
      [discriminate | reflexivity].
  - destruct (proj1 (proj2 (saved_key_is_resolved example_runtime
                              (AdminState.mk "  " false false true) threeKeysBrowser))
                    eq_refl) as (_ & Hkey & _).
    exact Hkey.
Defined.

(** ** The gateway with a credential *)

Lemma simulateAnalysis_completes rt file language w :
  exists r w', simulateAnalysis rt file language w = (Normal r, w').
Proof. unfold simulateAnalysis. eexists _, _. reflexivity. Qed.

Lemma enhanceError_rewords rt m :
  enhanceError rt (Error m) = Error m \/
  exists m', In m' rewordings /\ enhanceError rt (Error m) = Error m'.
Proof.
  unfold enhanceError, rewordings. cbn [error_message].
  destruct (includes "API key not valid" m || includes "API_KEY" m);
    [right; eexists; split; [|reflexivity]; simpl; tauto|].
  destruct (includes "fetch" m);
    [right; eexists; split; [|reflexivity]; simpl; tauto|].
  destruct (includes "400" m);
    [right; eexists; split; [|reflexivity]; simpl; tauto|].
  destruct (includes "503" m);
    [right; eexists; split; [|reflexivity]; simpl; tauto|].
  left. reflexivity.
Qed.

(** The catch block treats whatever has a string message as an error with
    that message. *)
Lemma catchBlock_message rt c m :
  caughtMessage rt c = Some m -> catchBlock rt c = enhanceError rt (Error m).
Proof.
  destruct c as [e|v]; cbn [caughtMessage catchBlock].
  - intros H. injection H as <-. unfold enhanceError.
    destruct e; reflexivity.
  - destruct (getField v "message") as [[| | | |s| |]|t]; try discriminate.
    intros H. injection H as ->. reflexivity.
Qed.

(** On a value without a usable message the catch block itself fails. *)
Lemma catchBlock_noUsableMessage rt v :
  noUsableMessage v = true ->
  catchBlock rt (Foreign v) = TypeError (ReadOfNullish "message") \/
  catchBlock rt (Foreign v) = TypeError (ReadOfNullish "includes") \/
  catchBlock rt (Foreign v) = TypeError (NotAFunction "includes").
Proof.
  unfold noUsableMessage. cbn [catchBlock].
  destruct v as [| |bv|x|sv|elems|props]; cbn [getField includesOf];
    try (intros _; left; reflexivity);
    try (intros _; right; left; reflexivity).
  destruct (lookup "message" props) as [[| |bm|xm|sm|em|pm]|];
    cbn [includesOf]; intros H; try discriminate H;
    try (right; left; reflexivity); right; right; reflexivity.
Qed.

(** X3: how an analysis is rejected, once [getApiKey] has returned.
    [analyzeMedicalImage] rejects only when a credential was resolved, and
    then with what its [catch] block throws for the value the [try] block
    failed with.  When that value has a string message, as every exception
    of this code and of the engine and every error object of the client
    has, the rejection is an [Error] whose message is that message or one of
    the four fixed rewordings.  When the client throws a value without a
    usable message ([undefined], [null], or a value whose [message] is
    neither a string nor an array) the unguarded [error.message.includes] of
    the [catch] block fails, and the rejection is the engine's TypeError
    instead. *)
Theorem analyze_rejections rt b sdk file language w e :
  fst (analyzeMedicalImage rt b sdk file language w) = Throw e ->
  truthy (getApiKey rt b) = true /\
  exists c,
    fst (analyzeWithModel rt sdk (getApiKey rt b) file language w) = Failed c /\
    e = catchBlock rt c /\
    (forall m,
       caughtMessage rt c = Some m ->
       e = enhanceError rt (Error m) /\
       (e = Error m \/ exists m', In m' rewordings /\ e = Error m')) /\
    (forall v,
       c = Foreign v -> noUsableMessage v = true ->
       e = TypeError (ReadOfNullish "message") \/
       e = TypeError (ReadOfNullish "includes") \/
       e = TypeError (NotAFunction "includes")).
Proof.
  unfold analyzeMedicalImage.
  destruct (truthy (getApiKey rt b)) eqn:Hkey; cbn [negb].
  - unfold tryCatch.
    destruct (analyzeWithModel rt sdk (getApiKey rt b) file language w)
      as [[r|c] w']; cbn [fst]; intros H; [discriminate H|].
    split; [reflexivity|]. exists c. split; [reflexivity|].
    injection H as <-. split; [reflexivity|]. split.
    + intros m Hm. rewrite (catchBlock_message _ _ _ Hm).
      split; [reflexivity | apply enhanceError_rewords].
    + intros v -> Hv. now apply catchBlock_noUsableMessage.
  - destruct (simulateAnalysis_completes rt file language w) as (r & w' & ->).
    discriminate.
Qed.

Lemma analyze_rejections_witness :
  fst (analyzeMedicalImage example_runtime threeKeysBrowser (rejectingWith JUndefined)
         exampleFile "English" example_world)
    = Throw (TypeError (ReadOfNullish "message")) /\
  truthy (getApiKey example_runtime threeKeysBrowser) = true.
Proof.
  assert (H : fst (analyzeMedicalImage example_runtime threeKeysBrowser
                     (rejectingWith JUndefined) exampleFile "English" example_world)
              = Throw (TypeError (ReadOfNullish "message")))
    by (vm_compute; reflexivity).
  split; [exact H|].
  exact (proj1 (analyze_rejections _ _ _ _ _ _ _ H)).
Defined.



Lemma ToNumber_primitive rt v : primitive v = true -> exists x, ToNumber rt v = Normal x.
Proof.
  destruct v as [| |[|]| | | |]; simpl; intros H; try discriminate H;
    eexists; reflexivity.
Qed.

(** X5: a low overall confidence is a soft error.  With a credential and a
    response that parses to a payload (not [null]) whose
    [confidence_overall] is a number of any size, a string, a boolean, null
    or absent, the gateway is the normaliser applied to the parsed payload
    and the file's identifier: it resolves with exactly the normaliser's
    result, and where the normaliser throws it rejects with the reworded
    exception. *)
Theorem analyze_is_normalize rt b sdk file language w url text data :
  truthy (getApiKey rt b) = true ->
  GoogleGenAI_new sdk (getApiKey rt b) = None ->
  ReportFile.url file = Some url ->
  generateContent sdk (getApiKey rt b) file language = Responded (Some text) ->
  text <> "" ->
  JSON_parse rt text = Some data ->
  present data = true ->
  primitive (fieldOf data "confidence_overall") = true ->
  analyzeMedicalImage rt b sdk file language w
    = rethrow (mapModelResponseToApp rt data (ReportFile.id file)) (enhanceError rt) w
  /\
  (forall r w',
     mapModelResponseToApp rt data (ReportFile.id file) w = (Normal r, w') ->
     analyzeMedicalImage rt b sdk file language w = (Normal r, w')).
Proof.
  intros Hkey Hnew Hurl Hresp Hne Hparse Hdata Hprim.
  assert (Heq : analyzeMedicalImage rt b sdk file language w
                = rethrow (mapModelResponseToApp rt data (ReportFile.id file))
                          (enhanceError rt) w).
  { unfold analyzeMedicalImage, analyzeWithModel.
    rewrite Hkey, Hnew, Hurl, Hresp. cbn [negb].
    destruct text as [|c text]; [congruence|].
    cbn [truthy negb String.eqb]. rewrite Hparse.
    destruct (ToNumber_primitive rt _ Hprim) as [x Hx].
    assert (Hfield : getField data "confidence_overall"
                     = Normal (fieldOf data "confidence_overall")).
    { unfold fieldOf. destruct data; try discriminate Hdata; reflexivity. }
    unfold tryCatch, attempt, rethrow, bind, lift. rewrite Hfield, Hx.
    destruct (mapModelResponseToApp rt data (ReportFile.id file) w) as [[r|e] w'];
      reflexivity. }
  split; [exact Heq|].
  intros r w' Hrun. rewrite Heq. unfold rethrow. now rewrite Hrun.
Qed.

Lemma analyze_is_normalize_witness :
  exists r w',
    analyzeMedicalImage parsing_runtime threeKeysBrowser (answering (Some "{}"))
      exampleFile "English" example_world = (Normal r, w') /\
    List.length (AnalysisResult.findings r) = 1.
Proof.
  destruct (analyze_is_normalize parsing_runtime threeKeysBrowser
              (answering (Some "{}")) exampleFile "English" example_world
              "data:image/png;base64,AAAA" "{}" (JObj [])
              eq_refl eq_refl eq_refl eq_refl) as [_ Hnormal];
    [discriminate | reflexivity | reflexivity | reflexivity |].
  eexists _, _. split; [apply Hnormal; reflexivity | reflexivity].
Defined.

(** ** The normaliser: what it refuses and what every result carries *)

(** The finding pushed for an item, field by field. *)
Lemma highlightFinding_shape rt data fileId cat item w f w' :
  highlightFinding rt data fileId cat item w = (Normal f, w') ->
  exists label_s description_s ev,
    ToString rt (fieldOf item "label") = Normal label_s /\
    ToString rt (fieldOf item "description") = Normal description_s /\
    highlightEvidence rt fileId item = Normal ev /\
    present item = true /\
    f = {| Finding.id := "find-" ++ Z_to_string (clock w (clock_reads w)) ++ "-"
                           ++ random36 w (random_draws w);
           Finding.category := cat;
           Finding.text := label_s ++ ": " ++ description_s;
           Finding.confidence := js_or (fieldOf item "confidence") (JNum 0.8);
           Finding.explanation :=
             js_or (fieldOf data "summary_student") (JStr "Visual pattern detected.");
           Finding.explanationEn :=
             js_or (fieldOf data "summary_student_en") (JStr "Visual pattern detected.");
           Finding.suggestedActions :=
             js_or (fieldOf data "recommendations_student") (JArr []);
           Finding.icdCodes := Some [];
           Finding.evidence := ev;
           Finding.feedback := None |}.
Proof.
  unfold highlightFinding. intros H. run_inv H.
  unfold Date_now in Hstep. inversion Hstep; subst; clear Hstep.
  unfold Math_random36 in Hstep0. inversion Hstep0; subst; clear Hstep0.
  assert (Hitem : present item = true)
    by (destruct item; try reflexivity; discriminate).
  name_fields item. name_fields data.
  eexists _, _, _. repeat split; eassumption.
Qed.

(** The evidence of a finding is empty or one record made for this file. *)
Lemma highlightEvidence_shape rt fileId item ev :
  highlightEvidence rt fileId item = Normal ev ->
  ev = [] \/
  exists box,
    ev = [ {| Evidence.fileId := fileId;
              Evidence.confidence := js_or (fieldOf item "confidence") (JNum 0.8);
              Evidence.source := MODEL_VISION;
              Evidence.bbox := box |} ].
Proof.
  unfold highlightEvidence.
  destruct (getField item "box_2d") as [box_2d|e]; [|discriminate].
  destruct (truthy box_2d); [|intros H; left; now apply Normal_inj in H].
  destruct (getField item "confidence") as [conf|e] eqn:Hconf; [|discriminate].
  repeat match goal with
  | |- context [match ?c with Normal _ => _ | Throw _ => _ end] =>
      destruct c; [|discriminate]
  end.
  intros H. apply Normal_inj in H. subst ev. right.
  unfold fieldOf. rewrite Hconf. eexists. reflexivity.
Qed.

(** The two highlight lists of a payload on which the normaliser returns
    are walkable, and the classification finding is stamped by the clock. *)
Lemma mapModelResponseToApp_requires rt data fileId w r w' :
  mapModelResponseToApp rt data fileId w = (Normal r, w') ->
  present data = true /\
  walkable (highlightValue data "regions_of_interest") /\
  walkable (highlightValue data "artifacts") /\
  exists cls rest now,
    AnalysisResult.findings r = cls :: rest /\
    Finding.id cls = "ft-" ++ Z_to_string now.
Proof.
  assert (Hwalk : forall items cat acc v fs v',
            processHighlights rt data fileId items cat acc v = (Normal fs, v') ->
            walkable items).
  { intros items cat acc v fs v'. unfold processHighlights, walkable.
    destruct (truthy items) eqn:Ht; cbn [negb]; [|now left].
    destruct items; try (unfold throw; discriminate). intros _. right. eauto. }
  unfold mapModelResponseToApp. intros H.
  apply bind_Normal in H. destruct H as (hl & w1 & Hhl & H).
  apply lift_Normal in Hhl. destruct Hhl as [Hhl ->].
  apply bind_Normal in H. destruct H as (roi & w1 & Hroi & H).
  apply lift_Normal in Hroi. destruct Hroi as [Hroi ->].
  apply bind_Normal in H. destruct H as (fs1 & w1 & Hfs1 & H).
  apply bind_Normal in H. destruct H as (hl' & w2 & Hhl' & H).
  apply lift_Normal in Hhl'. destruct Hhl' as [Hhl' ->].
  apply bind_Normal in H. destruct H as (art & w2 & Hart & H).
  apply lift_Normal in Hart. destruct Hart as [Hart ->].
  apply bind_Normal in H. destruct H as (fs2 & w2 & Hfs2 & H).
  apply bind_Normal in H. destruct H as (now & w3 & Hnow & H).
  run_inv H.
  split; [destruct data; try reflexivity; discriminate|].
  split; [|split].
  - unfold highlightValue. rewrite Hhl, Hroi. eapply Hwalk, Hfs1.
  - unfold highlightValue. rewrite Hhl', Hart. eapply Hwalk, Hfs2.
  - eexists _, fs2, now. split; reflexivity.
Qed.

(** X6: what the normaliser refuses.  It returns a result only if the
    payload is neither [null] nor [undefined], each of the two highlight
    lists is falsy or an array, no entry of either list is [null], the
    label and the description of every entry convert to a string, and
    [file_type] is a string or absent; on any other payload it throws and
    no result exists. *)
Theorem normalize_requires rt data fileId w r w' :
  mapModelResponseToApp rt data fileId w = (Normal r, w') ->
  present data = true /\
  walkable (highlightValue data "regions_of_interest") /\
  walkable (highlightValue data "artifacts") /\
  Forall (fun item =>
            present item = true /\
            (exists s, ToString rt (fieldOf item "label") = Normal s) /\
            (exists s, ToString rt (fieldOf item "description") = Normal s))
         (allHighlightItems data) /\
  string_or_absent (fieldOf data "file_type") = true.
Proof.
  intros Hrun.
  destruct (mapModelResponseToApp_requires _ _ _ _ _ _ Hrun)
    as (Hdata & Hroi & Hart & _).
  split; [exact Hdata|]. split; [exact Hroi|]. split; [exact Hart|]. split.
  - pose proof (findings_follow_items _ _ _ _ _ _ Hrun) as Hall.
    induction Hall as [|item f items fs (w1 & w2 & Hpush) _ IH]; constructor;
      [|exact IH].
    destruct (highlightFinding_shape _ _ _ _ _ _ _ _ Hpush)
      as (ls & ds & ev & Hls & Hds & _ & Hitem & _).
    split; [exact Hitem|]. split; eexists; eassumption.
  - destruct (mapModelResponseToApp_Normal _ _ _ _ _ _ Hrun)
      as (cls & fr & fa & _ & _ & _ & (_ & _ & _ & _ & Htxt) & _).
    destruct (fieldOf data "file_type"); try reflexivity; discriminate Htxt.
Qed.

Lemma normalize_requires_witness :
  exists r w',
    mapModelResponseToApp example_runtime mockData "file-1" example_world
      = (Normal r, w') /\
    string_or_absent (fieldOf mockData "file_type") = true.
Proof.
  eexists _, _. split; [reflexivity|].
  exact (proj2 (proj2 (proj2 (proj2
    (normalize_requires example_runtime mockData "file-1" example_world _ _ eq_refl))))).
Defined.

(** X7: evidence is traceable.  In every result of the normaliser each
    finding has at most one evidence record; each record names the file the
    normaliser was called for, comes from the vision model, and has the
    confidence of its finding; the classification finding has none. *)
Theorem evidence_is_traceable rt data fileId w r w' :
  mapModelResponseToApp rt data fileId w = (Normal r, w') ->
  Forall (fun f =>
            List.length (Finding.evidence f) <= 1 /\
            Forall (fun e =>
                      Evidence.fileId e = fileId /\
                      Evidence.source e = MODEL_VISION /\
                      Evidence.confidence e = Finding.confidence f)
                   (Finding.evidence f))
         (AnalysisResult.findings r) /\
  (exists cls, hd_error (AnalysisResult.findings r) = Some cls /\
               Finding.evidence cls = []).
Proof.
  intros Hrun.
  destruct (mapModelResponseToApp_Normal _ _ _ _ _ _ Hrun)
    as (cls & fr & fa & Hfs & Hfr & Hfa & (_ & _ & Hev & _) & _).
  assert (Hpushed : forall item f, pushedFor rt data fileId item f ->
            List.length (Finding.evidence f) <= 1 /\
            Forall (fun e =>
                      Evidence.fileId e = fileId /\
                      Evidence.source e = MODEL_VISION /\
                      Evidence.confidence e = Finding.confidence f)
                   (Finding.evidence f)).
  { intros item f (w1 & w2 & Hpush).
    destruct (highlightFinding_shape _ _ _ _ _ _ _ _ Hpush)
      as (ls & ds & ev & _ & _ & Hevid & _ & ->). cbn [Finding.evidence Finding.confidence].
    destruct (highlightEvidence_shape _ _ _ _ Hevid) as [-> | (box & ->)].
    - split; [simpl; lia | constructor].
    - split; [simpl; lia|]. constructor; [|constructor]. repeat split. }
  split.
  - rewrite Hfs. constructor.
    + rewrite Hev. split; [simpl; lia | constructor].
    + apply Forall_app. split.
      * clear Hfs Hfa. induction Hfr; constructor; eauto.
      * clear Hfs Hfr. induction Hfa; constructor; eauto.
  - exists cls. split; [now rewrite Hfs | exact Hev].
Qed.

Lemma evidence_is_traceable_witness :
  exists r w',
    mapModelResponseToApp example_runtime mockData "file-1" example_world
      = (Normal r, w') /\
    map (fun f => List.length (Finding.evidence f)) (AnalysisResult.findings r) = [0; 1] /\
    Forall (fun f => List.length (Finding.evidence f) <= 1) (AnalysisResult.findings r).
Proof.
  eexists _, _. split; [reflexivity|]. split; [reflexivity|].
  eapply Forall_impl;
    [| exact (proj1 (evidence_is_traceable example_runtime mockData "file-1"
                       example_world _ _ eq_refl))].
  intros f [H _]. exact H.
Defined.

(** X8: the findings of a result share their context and start without
    feedback.  Every region or artifact finding has category Finding, and
    its explanation, English explanation and suggested actions are the
    payload's student summary, English student summary and student
    recommendations (or the fixed fallbacks), the same for every entry;
    no finding of the result has feedback. *)
Theorem findings_share_context rt data fileId w r w' :
  mapModelResponseToApp rt data fileId w = (Normal r, w') ->
  Forall (fun f =>
            Finding.category f = CatFinding /\
            Finding.explanation f
              = js_or (fieldOf data "summary_student") (JStr "Visual pattern detected.") /\
            Finding.explanationEn f
              = js_or (fieldOf data "summary_student_en")
                      (JStr "Visual pattern detected.") /\
            Finding.suggestedActions f
              = js_or (fieldOf data "recommendations_student") (JArr []) /\
            Finding.icdCodes f = Some [])
         (tl (AnalysisResult.findings r)) /\
  Forall (fun f => Finding.feedback f = None) (AnalysisResult.findings r).
Proof.
  intros Hrun.
  pose proof (findings_follow_items _ _ _ _ _ _ Hrun) as Hall.
  destruct (mapModelResponseToApp_Normal _ _ _ _ _ _ Hrun)
    as (cls & fr & fa & Hfs & _ & _ & (_ & _ & _ & Hfb & _) & _).
  assert (Htl : Forall (fun f =>
            (Finding.category f = CatFinding /\
             Finding.explanation f
               = js_or (fieldOf data "summary_student") (JStr "Visual pattern detected.") /\
             Finding.explanationEn f
               = js_or (fieldOf data "summary_student_en")
                       (JStr "Visual pattern detected.") /\
             Finding.suggestedActions f
               = js_or (fieldOf data "recommendations_student") (JArr []) /\
             Finding.icdCodes f = Some []) /\
            Finding.feedback f = None)
          (tl (AnalysisResult.findings r))).
  { induction Hall as [|item f items fs (w1 & w2 & Hpush) _ IH]; constructor;
      [|exact IH].
    destruct (highlightFinding_shape _ _ _ _ _ _ _ _ Hpush)
      as (ls & ds & ev & _ & _ & _ & _ & ->).
    repeat split. }
  split.
  - eapply Forall_impl; [|exact Htl]. intros f [H _]. exact H.
  - rewrite Hfs in *. cbn [tl] in Htl. constructor; [exact Hfb|].
    eapply Forall_impl; [|exact Htl]. intros f [_ H]. exact H.
Qed.

Lemma findings_share_context_witness :
  exists r w',
    mapModelResponseToApp example_runtime mockData "file-1" example_world
      = (Normal r, w') /\
    map Finding.explanation (tl (AnalysisResult.findings r)) = [JStr instructionMsg] /\
    Forall (fun f => Finding.feedback f = None) (AnalysisResult.findings r).
Proof.
  eexists _, _. split; [reflexivity|]. split; [reflexivity|].
  exact (proj2 (findings_share_context example_runtime mockData "file-1"
                  example_world _ _ eq_refl)).
Defined.

(** X9: the classification finding cannot be mistaken for a region or
    artifact finding.  In every result its identifier differs from the
    identifier of every other finding, so feedback addressed to it reads
    the clock once and changes that finding alone. *)
Theorem classification_id_is_apart rt data fileId w r w' :
  mapModelResponseToApp rt data fileId w = (Normal r, w') ->
  exists cls rest,
    AnalysisResult.findings r = cls :: rest /\
    Forall (fun f => Finding.id f <> Finding.id cls) rest /\
    forall isAccurate correction w0,
      mapM (withFeedback rt (Finding.id cls) isAccurate correction)
           (AnalysisResult.findings r) w0
      = (Normal (setFeedback
                   (Some (recorded rt isAccurate correction w0 (clock_reads w0))) cls
                 :: rest),
         tick_clock w0).
Proof.
  intros Hrun.
  pose proof (findings_follow_items _ _ _ _ _ _ Hrun) as Hall.
  destruct (mapModelResponseToApp_requires _ _ _ _ _ _ Hrun)
    as (_ & _ & _ & cls & rest & now & Hfs & Hid).
  rewrite Hfs in Hall. cbn [tl] in Hall.
  assert (Hapart : Forall (fun f => Finding.id f <> Finding.id cls) rest).
  { clear Hfs.
    induction Hall as [|item f items fs (w1 & w2 & Hpush) _ IH]; constructor;
      [|exact IH].
    destruct (highlightFinding_Normal _ _ _ _ _ _ _ _ Hpush)
      as (conf & _ & _ & _ & _ & Hfid & _).
    rewrite Hfid, Hid. cbn [String.append]. intros H. discriminate H. }
  exists cls, rest. split; [exact Hfs|]. split; [exact Hapart|].
  intros isAccurate correction w0. rewrite Hfs. cbn [mapM].
  unfold bind at 1, withFeedback at 1. rewrite String.eqb_refl.
  unfold bind at 1, Date_now, ret at 1.
  unfold bind at 1.
  rewrite (mapM_withFeedback_unknown rt (Finding.id cls) isAccurate correction
             rest (tick_clock w0) Hapart).
  reflexivity.
Qed.

Lemma classification_id_is_apart_witness :
  exists r w',
    mapModelResponseToApp example_runtime mockData "file-1" example_world
      = (Normal r, w') /\
    map Finding.id (AnalysisResult.findings r)
      = ["ft-1700000000001"; "find-1700000000000-r0"] /\
    exists cls rest,
      AnalysisResult.findings r = cls :: rest /\
      Forall (fun f => Finding.id f <> Finding.id cls) rest.
Proof.
  eexists _, _. split; [reflexivity|]. split; [vm_compute; reflexivity|].
  destruct (classification_id_is_apart example_runtime mockData "file-1"
              example_world _ _ eq_refl) as (cls & rest & Hfs & Hapart & _).
  exists cls, rest. split; assumption.
Defined.

(** ** From the payload to what the viewer shows and exports *)

(** The report [handleSubmit] builds, field by field. *)
Lemma newReport_fields rt pat reportFile language analysis w report w' :
  newReport rt pat reportFile language analysis w = (Normal report, w') ->
  exists p,
    pat = Some p /\
    report =
      {| Report.id := "rep-" ++ Z_to_string (clock w (clock_reads w));
         Report.patientId := Patient.id p;
         Report.patientName := Patient.name p;
         Report.createdAt :=
           Date_toISOString rt (clock (tick_clock w) (clock_reads (tick_clock w)));
         Report.status := REVIEW_REQUIRED;
         Report.files := [reportFile];
         Report.findings := AnalysisResult.findings analysis;
         Report.summary := AnalysisResult.summary analysis;
         Report.language := language;
         Report.summaryPatient := AnalysisResult.summaryPatient analysis;
         Report.summaryStudent := AnalysisResult.summaryStudent analysis;
         Report.summaryDoctor := AnalysisResult.summaryDoctor analysis;
         Report.recommendationsPatient := AnalysisResult.recommendationsPatient analysis;
         Report.recommendationsStudent := AnalysisResult.recommendationsStudent analysis;
         Report.recommendationsDoctor := AnalysisResult.recommendationsDoctor analysis;
         Report.summaryPatientEn := AnalysisResult.summaryPatientEn analysis;
         Report.summaryStudentEn := AnalysisResult.summaryStudentEn analysis;
         Report.summaryDoctorEn := AnalysisResult.summaryDoctorEn analysis;
         Report.recommendationsPatientEn := AnalysisResult.recommendationsPatientEn analysis;
         Report.recommendationsStudentEn := AnalysisResult.recommendationsStudentEn analysis;
         Report.recommendationsDoctorEn := AnalysisResult.recommendationsDoctorEn analysis |}.
Proof.
  unfold newReport. intros H.
  apply bind_Normal in H. destruct H as (now & w1 & Hnow & H).
  unfold Date_now in Hnow. inversion Hnow; subst; clear Hnow.
  destruct pat as [p|]; [|discriminate H].
  apply bind_Normal in H. destruct H as (created & w2 & Hcreated & H).
  unfold Date_now in Hcreated. inversion Hcreated; subst; clear Hcreated.
  apply ret_Normal in H. destruct H as [-> _].
  exists p. split; reflexivity.
Qed.

Lemma js_or_truthy a d : truthy d = true -> truthy (js_or a d) = true.
Proof. intros Hd. unfold js_or. destruct (truthy a) eqn:Ha; assumption. Qed.

Lemma js_or_falls_through a d : js_or (js_or a (JStr "")) d = js_or a d.
Proof. unfold js_or. destruct (truthy a) eqn:Ha; [now rewrite Ha | reflexivity]. Qed.

(** X10: what a freshly created report shows and exports.  For a report
    built from a result of the normaliser, in each of the three modes: the
    displayed summary is the payload's localized summary of that audience
    when truthy, else the payload's patient summary when truthy, else
    "Analysis complete."; the exported summary is the English summary of
    that audience, else the localized one, else the patient summary, else
    "Analysis complete."; so neither is ever empty or undefined.  The
    displayed and exported recommendations are the audience's localized,
    respectively English-else-localized, list, else the empty list. *)
Theorem fresh_report_selection rt data fileId w r w' pat reportFile language v
    report v' (mode : ExplanationMode) :
  mapModelResponseToApp rt data fileId w = (Normal r, w') ->
  newReport rt pat reportFile language r v = (Normal report, v') ->
  getSummaryForMode mode report
    = firstTruthy (fieldOf data (summaryKey mode)) (fieldOf data "summary_patient")
                  (JStr "Analysis complete.") /\
  exportSummaryText mode report
    = firstTruthy (fieldOf data (summaryEnKey mode)) (fieldOf data (summaryKey mode))
        (js_or (fieldOf data "summary_patient") (JStr "Analysis complete.")) /\
  truthy (getSummaryForMode mode report) = true /\
  truthy (exportSummaryText mode report) = true /\
  getRecommendationsForMode mode report
    = js_or (fieldOf data (recommendationsKey mode)) (JArr []) /\
  exportRecommendations mode report
    = firstTruthy (fieldOf data (recommendationsEnKey mode))
                  (fieldOf data (recommendationsKey mode)) (JArr []).
Proof.
  intros Hrun Hnew.
  destruct (mapModelResponseToApp_Normal _ _ _ _ _ _ Hrun)
    as (cls & fr & fa & _ & _ & _ & _ & ->).
  destruct (newReport_fields _ _ _ _ _ _ _ _ Hnew) as (p & _ & ->).
  assert (Hjj : forall a d, js_or (js_or a d) d = js_or a d).
  { intros a d. unfold js_or. destruct (truthy a) eqn:Ha; [now rewrite Ha|].
    destruct (truthy d); reflexivity. }
  assert (Hft : forall a b d, truthy d = true -> truthy (firstTruthy a b d) = true).
  { intros a b d Hd. unfold firstTruthy.
    destruct (truthy a) eqn:Ha; [exact Ha|].
    destruct (truthy b) eqn:Hb; [exact Hb | exact Hd]. }
  assert (Hdisp : forall a sp,
            js_or (js_or a (JStr "")) (js_or sp (JStr "Analysis complete."))
            = firstTruthy a sp (JStr "Analysis complete.")).
  { intros a sp. rewrite js_or_falls_through. unfold js_or, firstTruthy.
    destruct (truthy a); reflexivity. }
  assert (Hexp : forall en loc sp,
            js_or (js_or (js_or en loc) (JStr "")) (js_or sp (JStr "Analysis complete."))
            = firstTruthy en loc (js_or sp (JStr "Analysis complete."))).
  { intros en loc sp. rewrite js_or_falls_through. unfold js_or at 1 2, firstTruthy.
    destruct (truthy en) eqn:Hen; [now rewrite Hen|].
    destruct (truthy loc); reflexivity. }
  assert (Hrec : forall en loc,
            js_or (js_or (js_or en loc) (JArr [])) (JArr [])
            = firstTruthy en loc (JArr [])).
  { intros en loc. rewrite Hjj. apply js_or_chain. }
  destruct mode;
    cbn [getSummaryForMode exportSummaryText getRecommendationsForMode
         exportRecommendations summaryKey summaryEnKey recommendationsKey
         recommendationsEnKey
         Report.summary Report.summaryPatient Report.summaryStudent
         Report.summaryDoctor Report.summaryPatientEn Report.summaryStudentEn
         Report.summaryDoctorEn Report.recommendationsPatient
         Report.recommendationsStudent Report.recommendationsDoctor
         Report.recommendationsPatientEn Report.recommendationsStudentEn
         Report.recommendationsDoctorEn
         AnalysisResult.summary AnalysisResult.summaryPatient
         AnalysisResult.summaryStudent AnalysisResult.summaryDoctor
         AnalysisResult.summaryPatientEn AnalysisResult.summaryStudentEn
         AnalysisResult.summaryDoctorEn AnalysisResult.recommendationsPatient
         AnalysisResult.recommendationsStudent AnalysisResult.recommendationsDoctor
         AnalysisResult.recommendationsPatientEn
         AnalysisResult.recommendationsStudentEn
         AnalysisResult.recommendationsDoctorEn];
    rewrite Hdisp, Hexp, Hjj, Hrec;
    (split; [reflexivity|]); (split; [reflexivity|]);
    (split; [apply Hft; reflexivity|]);
    (split; [apply Hft, js_or_truthy; reflexivity|]);
    split; reflexivity.
Qed.

Lemma fresh_report_selection_witness :
  exists r w' report v',
    mapModelResponseToApp example_runtime emptyEnglishPayload "file-1" example_world
      = (Normal r, w') /\
    newReport example_runtime (Some (Patient.mk "p1" "Ada")) exampleFile "Tamil" r w'
      = (Normal report, v') /\
    getSummaryForMode doctor report = JStr "Resumen" /\
    exportSummaryText student report = JStr "Resumen".
Proof.
  eexists _, _, _, _. split; [reflexivity|]. split; [reflexivity|].
  split.
  - exact (proj1 (fresh_report_selection example_runtime emptyEnglishPayload "file-1"
                    example_world _ _ (Some (Patient.mk "p1" "Ada")) exampleFile
                    "Tamil" _ _ _ doctor eq_refl eq_refl)).
  - exact (proj1 (proj2 (fresh_report_selection example_runtime emptyEnglishPayload
                           "file-1" example_world _ _ (Some (Patient.mk "p1" "Ada"))
                           exampleFile "Tamil" _ _ _ student eq_refl eq_refl))).
Defined.

(** ** The viewer: feedback and approval *)

Lemma Forall2_map_in {A} (g : A -> A) (l : list A) :
  Forall2 (fun x y => In x l /\ y = g x) l (map g l).
Proof.
  assert (H : forall l', incl l' l ->
            Forall2 (fun x y => In x l /\ y = g x) l' (map g l')).
  { induction l' as [|a l' IH]; intros Hincl; cbn [map]; constructor.
    - split; [apply Hincl; now left | reflexivity].
    - apply IH. intros x Hx. apply Hincl. now right. }
  apply H, incl_refl.
Qed.

Lemma same_id_same_finding (fs : list Finding.t) f g :
  NoDup (map Finding.id fs) -> In f fs -> In g fs ->
  Finding.id f = Finding.id g -> f = g.
Proof.
  induction fs as [|h rest IH]; intros Hnd Hf Hg Hid; [contradiction|].
  cbn [map] in Hnd. inversion Hnd as [|x l Hnotin Hnd']; subst.
  destruct Hf as [-> | Hf]; destruct Hg as [-> | Hg].
  - reflexivity.
  - exfalso. apply Hnotin. rewrite Hid. now apply in_map.
  - exfalso. apply Hnotin. rewrite <- Hid. now apply in_map.
  - now apply IH.
Qed.

(** Each finding the submission addresses reads the clock once. *)
Lemma mapM_withFeedback_reads rt findingId isAccurate correction fs : forall w fs' w',
  mapM (withFeedback rt findingId isAccurate correction) fs w = (Normal fs', w') ->
  clock_reads w' = clock_reads w + addressed findingId fs /\
  random_draws w' = random_draws w /\
  map (setFeedback None) fs' = map (setFeedback None) fs.
Proof.
  unfold addressed.
  induction fs as [|f rest IH]; intros w fs' w' H; cbn [mapM] in H.
  - apply ret_Normal in H. destruct H as [-> ->]. simpl. repeat split; lia.
  - apply bind_Normal in H. destruct H as (f' & w1 & Hf & H).
    apply bind_Normal in H. destruct H as (rest' & w2 & Hrest & H).
    apply ret_Normal in H. destruct H as [-> ->].
    destruct (IH _ _ _ Hrest) as (Hreads & Hdraws & Hsame).
    unfold withFeedback in Hf. cbn [filter].
    destruct (String.eqb (Finding.id f) findingId).
    + apply bind_Normal in Hf. destruct Hf as (now & w3 & Hnow & Hf).
      unfold Date_now in Hnow. inversion Hnow; subst; clear Hnow.
      apply ret_Normal in Hf. destruct Hf as [-> ->].
      cbn [clock_reads random_draws tick_clock] in *.
      cbn [map List.length]. rewrite Hsame.
      split; [lia|]. split; [exact Hdraws | reflexivity].
    + apply ret_Normal in Hf. destruct Hf as [-> ->].
      cbn [map]. rewrite Hsame.
      split; [exact Hreads|]. split; [exact Hdraws | reflexivity].
Qed.

(** X11: a feedback submission changes feedback and nothing else.  For the
    report the viewer shows, the submission completes; afterwards the store
    holds under the same identifier a report that differs from it in its
    finding list only, whose findings are the old ones in the old order up
    to their feedback; every report with another identifier is untouched;
    the clock was read once for each finding that has the submitted
    identifier, and no random number was drawn. *)
Theorem feedback_changes_feedback_only rt id report findingId isAccurate correction
    s v w :
  reportOf id s = Some report ->
  exists s' v' w' report',
    ReportViewer rt id (SubmitFeedback findingId isAccurate correction) s v w
      = (Normal (s', v'), w') /\
    reportOf id s' = Some report' /\
    Report.with_findings (Report.findings report) report' = report /\
    map (setFeedback None) (Report.findings report')
      = map (setFeedback None) (Report.findings report) /\
    Forall2 (fun r r' => Report.id r <> Report.id report -> r' = r)
            (Store.reports s) (Store.reports s') /\
    clock_reads w' = clock_reads w + addressed findingId (Report.findings report) /\
    random_draws w' = random_draws w.
Proof.
  intros Hfind.
  destruct (mapM_withFeedback rt findingId isAccurate correction
              (Report.findings report) w) as (fs' & w' & Hmap & _).
  destruct (mapM_withFeedback_reads _ _ _ _ _ _ _ _ Hmap) as (Hreads & Hdraws & Hsame).
  exists (updateReport (Report.id report) (UpdFindings fs') s),
         (ViewerState.mk "" None (ViewerState.location v)), w',
         (Report.with_findings fs' report).
  split; [|split; [|split; [|split; [|split; [|split]]]]].
  - unfold ReportViewer. fold (reportOf id s). rewrite Hfind.
    unfold submitFeedback, bind. rewrite Hmap. reflexivity.
  - exact (reportOf_updateReport id report (UpdFindings fs') s Hfind).
  - destruct report; reflexivity.
  - exact Hsame.
  - unfold updateReport. cbn [Store.reports].
    eapply Forall2_impl; [|apply Forall2_map_self].
    intros r r' -> Hother. cbv beta.
    apply String.eqb_neq in Hother. now rewrite Hother.
  - exact Hreads.
  - exact Hdraws.
Qed.

Lemma feedback_changes_feedback_only_witness :
  reportOf "rep-1" exampleStore = Some exampleReport /\
  exists s' v' w' report',
    ReportViewer example_runtime "rep-1" (SubmitFeedback "f2" false (Some "No effusion"))
      exampleStore exampleViewer example_world = (Normal (s', v'), w') /\
    reportOf "rep-1" s' = Some report' /\
    clock_reads w' = 1.
Proof.
  split; [reflexivity|].
  destruct (feedback_changes_feedback_only example_runtime "rep-1" exampleReport "f2"
              false (Some "No effusion") exampleStore exampleViewer example_world
              eq_refl)
    as (s' & v' & w' & report' & Hrun & Hfind & _ & _ & _ & Hreads & _).
  exists s', v', w', report'. split; [exact Hrun|]. split; [exact Hfind|].
  exact Hreads.
Defined.

(** With distinct identifiers, a submission for a finding without feedback
    stamps that finding and returns the others as they are. *)
Lemma mapM_withFeedback_distinct rt findingId isAccurate correction fs : forall w f0,
  NoDup (map Finding.id fs) -> In f0 fs -> Finding.id f0 = findingId ->
  mapM (withFeedback rt findingId isAccurate correction) fs w
  = (Normal (map (fun f => if String.eqb (Finding.id f) findingId
                           then setFeedback
                                  (Some (recorded rt isAccurate correction w
                                           (clock_reads w))) f
                           else f) fs),
     tick_clock w).
Proof.
  induction fs as [|f rest IH]; intros w f0 Hnd Hin Hid; [contradiction|].
  cbn [map] in Hnd. inversion Hnd as [|x l Hnotin Hnd']; subst.
  cbn [mapM map]. unfold bind at 1, withFeedback at 1.
  destruct (String.eqb (Finding.id f) (Finding.id f0)) eqn:Hf.
  - apply String.eqb_eq in Hf.
    assert (Hrest : Forall (fun g => Finding.id g <> Finding.id f0) rest).
    { apply Forall_forall. intros g Hg Heq. apply Hnotin. rewrite Hf, <- Heq.
      now apply in_map. }
    unfold bind at 1, Date_now, ret at 1. unfold bind at 1.
    rewrite (mapM_withFeedback_unknown rt (Finding.id f0) isAccurate correction
               rest (tick_clock w) Hrest).
    unfold ret. f_equal. f_equal. f_equal.
    clear -Hrest. induction Hrest as [|g gs Hg _ IHg]; [reflexivity|].
    cbn [map]. apply String.eqb_neq in Hg. rewrite Hg. now rewrite <- IHg.
  - destruct Hin as [-> | Hin]; [rewrite String.eqb_refl in Hf; discriminate Hf|].
    unfold ret at 1. unfold bind at 1.
    rewrite (IH w f0 Hnd' Hin eq_refl). reflexivity.
Qed.

(** X12: through the rendered viewer, recorded feedback is final.  When the
    findings of the shown report have distinct identifiers, a feedback
    submission the viewer offers (the finding has no feedback yet) reads the
    clock once, gives that finding its record, and returns every other
    finding, in particular every finding that already has feedback, exactly
    as it was. *)
Theorem offered_feedback_keeps_records rt id report findingId isAccurate correction
    s v w :
  reportOf id s = Some report ->
  NoDup (map Finding.id (Report.findings report)) ->
  offered report (SubmitFeedback findingId isAccurate correction) ->
  exists s' v' report',
    ReportViewer rt id (SubmitFeedback findingId isAccurate correction) s v w
      = (Normal (s', v'), tick_clock w) /\
    reportOf id s' = Some report' /\
    Forall2 (fun f f' =>
               (forall fb, Finding.feedback f = Some fb -> f' = f) /\
               (Finding.id f <> findingId -> f' = f) /\
               (Finding.id f = findingId ->
                Finding.feedback f = None /\
                f' = setFeedback
                       (Some (recorded rt isAccurate correction w (clock_reads w))) f))
            (Report.findings report) (Report.findings report').
Proof.
  intros Hfind Hnd (f0 & Hin & Hid & Hnone).
  pose proof (mapM_withFeedback_distinct rt findingId isAccurate correction
                (Report.findings report) w f0 Hnd Hin Hid) as Hmap.
  eexists _, _, _. split; [|split].
  - unfold ReportViewer. fold (reportOf id s). rewrite Hfind.
    unfold submitFeedback, bind. rewrite Hmap. reflexivity.
  - exact (reportOf_updateReport id report (UpdFindings _) s Hfind).
  - cbn [applyUpdates Report.findings Report.with_findings].
    eapply Forall2_impl; [|apply Forall2_map_in].
    intros f f' [Hf ->]. cbv beta.
    destruct (String.eqb (Finding.id f) findingId) eqn:Heq.
    + apply String.eqb_eq in Heq.
      assert (f = f0) by (apply (same_id_same_finding _ f f0 Hnd Hf Hin); congruence).
      subst f. split; [|split].
      * intros fb Hfb. congruence.
      * intros Hne. congruence.
      * intros _. split; [exact Hnone | reflexivity].
    + apply String.eqb_neq in Heq. split; [|split]; intros; try reflexivity.
      contradiction.
Qed.

Lemma offered_feedback_keeps_records_witness :
  reportOf "rep-1" reviewedStore = Some reviewedReport /\
  NoDup (map Finding.id (Report.findings reviewedReport)) /\
  offered reviewedReport (SubmitFeedback "f2" true None) /\
  exists s' v' report',
    ReportViewer example_runtime "rep-1" (SubmitFeedback "f2" true None)
      reviewedStore exampleViewer example_world
      = (Normal (s', v'), tick_clock example_world) /\
    reportOf "rep-1" s' = Some report'.
Proof.
  assert (Hoffer : offered reviewedReport (SubmitFeedback "f2" true None)).
  { exists (exampleFinding "f2" "Effusion: small").
    split; [right; left; reflexivity | split; reflexivity]. }
  assert (Hnd : NoDup (map Finding.id (Report.findings reviewedReport))).
  { repeat constructor; simpl; intuition discriminate. }
  split; [reflexivity|]. split; [exact Hnd|]. split; [exact Hoffer|].
  destruct (offered_feedback_keeps_records example_runtime "rep-1" reviewedReport "f2"
              true None reviewedStore exampleViewer example_world eq_refl Hnd Hoffer)
    as (s' & v' & report' & Hrun & Hfind & _).
  exists s', v', report'. split; [exact Hrun | exact Hfind].
Defined.

Lemma updateReport_commute id fs st s :
  updateReport id (UpdFindings fs) (updateReport id (UpdStatus st) s)
  = updateReport id (UpdStatus st) (updateReport id (UpdFindings fs) s).
Proof.
  unfold updateReport. cbn [Store.reports Store.patients Store.user]. f_equal.
  rewrite !map_map. apply map_ext. intros r.
  destruct (String.eqb (Report.id r) id) eqn:Hr; cbn [applyUpdates].
  - destruct r; cbn in *. now rewrite Hr.
  - now rewrite Hr.
Qed.

Lemma updateReport_status_twice id st s :
  updateReport id (UpdStatus st) (updateReport id (UpdStatus st) s)
  = updateReport id (UpdStatus st) s.
Proof.
  unfold updateReport. cbn [Store.reports Store.patients Store.user]. f_equal.
  rewrite map_map. apply map_ext. intros r.
  destruct (String.eqb (Report.id r) id) eqn:Hr; cbn [applyUpdates].
  - destruct r; cbn in *. now rewrite Hr.
  - now rewrite Hr.
Qed.

Lemma reportOf_id id s report : reportOf id s = Some report -> Report.id report = id.
Proof.
  unfold reportOf. intros H. apply find_some in H. destruct H as [_ H].
  now apply String.eqb_eq.
Qed.

Lemma ReportViewer_found rt id a s v report :
  reportOf id s = Some report ->
  ReportViewer rt id a s v
  = match a with
    | Approve => ret (handleApprove report s v)
    | SubmitFeedback findingId isAccurate correction =>
        submitFeedback rt report findingId isAccurate correction s v
    end.
Proof. unfold reportOf, ReportViewer. now intros ->. Qed.

Lemma ReportViewer_missing rt id a s v :
  reportOf id s = None -> ReportViewer rt id a s v = ret (s, v).
Proof. unfold reportOf, ReportViewer. now intros ->. Qed.

(** X13: approval and feedback do not interfere.  On the viewer of one
    report, approving and then submitting feedback leaves the same store,
    the same viewer state and the same world as submitting the feedback and
    then approving: approval never touches findings and feedback never
    touches the status. *)
Theorem approve_and_feedback_commute rt id findingId isAccurate correction s v w :
  session rt [ (id, Approve); (id, SubmitFeedback findingId isAccurate correction) ]
    s v w
  = session rt [ (id, SubmitFeedback findingId isAccurate correction); (id, Approve) ]
      s v w.
Proof.
  cbn [session]. unfold bind.
  destruct (reportOf id s) as [report|] eqn:Hfind.
  - pose proof (reportOf_id _ _ _ Hfind) as Hid.
    destruct (mapM_withFeedback rt findingId isAccurate correction
                (Report.findings report) w) as (fs' & w' & Hmap & _).
    pose proof (reportOf_updateReport id report (UpdStatus APPROVED) s Hfind) as H1.
    pose proof (reportOf_updateReport id report (UpdFindings fs') s Hfind) as H2.
    rewrite (ReportViewer_found rt id _ s v report Hfind).
    rewrite (ReportViewer_found rt id _ s v report Hfind).
    unfold ret at 1. cbn [fst snd handleApprove].
    rewrite (ReportViewer_found rt id _ _ _ _ H1).
    unfold submitFeedback, bind.
    cbn [applyUpdates Report.findings Report.with_status Report.id].
    rewrite Hmap. unfold ret at 1 2 3. cbn [fst snd].
    rewrite (ReportViewer_found rt id _ _ _ _ H2).
    unfold ret, handleApprove.
    cbn [fst snd applyUpdates Report.id Report.with_findings ViewerState.location
         ViewerState.correctionText ViewerState.showCorrectionInput].
    now rewrite updateReport_commute.
  - rewrite !(ReportViewer_missing rt id _ s v Hfind).
    unfold ret. cbn [fst snd].
    rewrite !(ReportViewer_missing rt id _ s v Hfind). reflexivity.
Qed.


(** X14: approval is final and changes the status alone.  Approving the
    shown report leaves under its identifier the same report with status
    [APPROVED], findings included, and sends the viewer to the dashboard;
    the viewer of the approved report no longer offers approval; and
    approving it again all the same changes nothing. *)
Theorem approval_is_final id report s v :
  reportOf id s = Some report ->
  reportOf id (fst (handleApprove report s v))
    = Some (Report.with_status APPROVED report) /\
  Report.with_status (Report.status report) (Report.with_status APPROVED report)
    = report /\
  ViewerState.location (snd (handleApprove report s v)) = "/" /\
  ~ offered (Report.with_status APPROVED report) Approve /\
  handleApprove (Report.with_status APPROVED report)
    (fst (handleApprove report s v)) (snd (handleApprove report s v))
  = handleApprove report s v.
Proof.
  intros Hfind. unfold handleApprove. cbn [fst snd].
  split; [exact (reportOf_updateReport id report (UpdStatus APPROVED) s Hfind)|].
  split; [destruct report; reflexivity|].
  split; [reflexivity|].
  split; [intros H; apply H; reflexivity|].
  cbn [Report.id Report.with_status ViewerState.correctionText
       ViewerState.showCorrectionInput].
  now rewrite updateReport_status_twice.
Qed.

Lemma approval_is_final_witness :
  reportOf "rep-1" exampleStore = Some exampleReport /\
  reportOf "rep-1" (fst (handleApprove exampleReport exampleStore exampleViewer))
    = Some (Report.with_status APPROVED exampleReport).
Proof.
  split; [reflexivity|].
  exact (proj1 (approval_is_final "rep-1" exampleReport exampleStore exampleViewer
                  eq_refl)).
Defined.

(** ** The upload page *)

Lemma Array_includes_In xs x : Array_includes xs x = true <-> In x xs.
Proof.
  unfold Array_includes. rewrite existsb_exists. split.
  - intros (y & Hin & Heq). apply String.eqb_eq in Heq. now subst y.
  - intros Hin. exists x. split; [exact Hin | apply String.eqb_refl].
Qed.

(** X15: which files the upload page takes.  [processFile] clears the error
    exactly when the file's type is one of the four accepted types and its
    size is at most 50 MB (a file of exactly 50 MB passes); then that file is
    the chosen one.  A refused file leaves the previously chosen file chosen,
    the type is checked before the size, and in no case does [processFile]
    itself touch the preview, the patient, the language or the location. *)
Theorem processFile_validation f u :
  (UploadState.error (processFile f u) = None <->
     In (File.type f) validTypes /\ (File.size f <= 50 * 1024 * 1024)%Z) /\
  (UploadState.error (processFile f u) = None ->
     UploadState.file (processFile f u) = Some (File.type f, File.name f)) /\
  (UploadState.error (processFile f u) <> None ->
     UploadState.file (processFile f u) = UploadState.file u) /\
  (~ In (File.type f) validTypes ->
     UploadState.error (processFile f u)
       = Some "Invalid file type. Please upload JPG, PNG, or PDF.") /\
  (UploadState.preview (processFile f u) = UploadState.preview u /\
   UploadState.selectedPatientId (processFile f u) = UploadState.selectedPatientId u /\
   UploadState.selectedLanguage (processFile f u) = UploadState.selectedLanguage u /\
   UploadState.location (processFile f u) = UploadState.location u).
Proof.
  unfold processFile, withError.
  destruct (Array_includes validTypes (File.type f)) eqn:Htype; cbn [negb].
  - apply Array_includes_In in Htype.
    destruct (Z.gtb_spec (File.size f) (50 * 1024 * 1024)) as [Hbig|Hsmall];
      cbn [UploadState.error UploadState.file UploadState.preview
           UploadState.selectedPatientId UploadState.selectedLanguage
           UploadState.location].
    + split; [split; [discriminate | intros [_ H]; lia]|].
      split; [discriminate|]. split; [reflexivity|].
      split; [intros H; contradiction|]. repeat split.
    + split; [split; [intros _; split; assumption | reflexivity]|].
      split; [reflexivity|]. split; [intros H; now contradiction H|].
      split; [intros H; contradiction|]. repeat split.
  - assert (Hnot : ~ In (File.type f) validTypes).
    { intros Hin. apply Array_includes_In in Hin. congruence. }
    cbn [UploadState.error UploadState.file UploadState.preview
         UploadState.selectedPatientId UploadState.selectedLanguage
         UploadState.location].
    split; [split; [discriminate | intros [H _]; contradiction]|].
    split; [discriminate|]. split; [reflexivity|].
    split; [reflexivity|]. repeat split.
Qed.

(** What a report made by [createReport] holds. *)
Lemma createReport_fields rt browser sdk file u s w r w' :
  createReport rt browser sdk file u s w = (Normal r, w') ->
  Report.status r = REVIEW_REQUIRED /\
  Report.language r = UploadState.selectedLanguage u /\
  Report.id r <> "" /\
  (exists p, In p (Store.patients s) /\
             Patient.id p = UploadState.selectedPatientId u /\
             Report.patientId r = Patient.id p /\
             Report.patientName r = Patient.name p) /\
  Report.files r =
    [ {| ReportFile.id := "file-" ++ Z_to_string (clock w (clock_reads w));
         ReportFile.url := UploadState.preview u;
         ReportFile.type := fst file;
         ReportFile.name := snd file |} ].
Proof.
  unfold createReport. intros H.
  apply bind_Normal in H. destruct H as (now & w1 & Hnow & H).
  unfold Date_now in Hnow. injection Hnow as <- <-.
  apply bind_Normal in H. destruct H as (analysis & w2 & _ & Hnew).
  destruct (newReport_fields _ _ _ _ _ _ _ _ Hnew) as (p & Hp & ->).
  apply find_some in Hp. destruct Hp as [Hin Hid]. apply String.eqb_eq in Hid.
  cbn [Report.status Report.language Report.id Report.patientId Report.patientName
       Report.files].
  split; [reflexivity|]. split; [reflexivity|]. split; [discriminate|].
  split; [|reflexivity].
  exists p. repeat split; assumption.
Qed.



Lemma uploaded_same_patients s s' r :
  Store.patients s' = Store.patients s -> uploaded s' r -> uploaded s r.
Proof. unfold uploaded. intros ->. exact (fun H => H). Qed.

(** One event keeps the chosen file acceptable and adds at most one report,
    which holds that file. *)
Lemma uploadStep_invariant rt browser sdk e u s w u' s' w' :
  fileAccepted u ->
  uploadStep rt browser sdk e u s w = (u', s', w') ->
  fileAccepted u' /\
  Store.patients s' = Store.patients s /\
  (Store.reports s' = Store.reports s \/
   exists r, Store.reports s' = r :: Store.reports s /\ uploaded s r).
Proof.
  intros Hacc. destruct e; cbn [uploadStep].
  - intros H; injection H as <- <- <-.
    split; [|split; [reflexivity | left; reflexivity]].
    destruct files as [|f rest]; cbn [handleFileChange]; [exact Hacc|].
    unfold processFile.
    destruct (Array_includes validTypes (File.type f)) eqn:Htype; cbn [negb];
      [|exact Hacc].
    destruct (File.size f >? 50 * 1024 * 1024)%Z; [exact Hacc|].
    apply Array_includes_In in Htype. exact Htype.
  - intros H; injection H as <- <- <-.
    split; [exact Hacc | split; [reflexivity | left; reflexivity]].
  - intros H; injection H as <- <- <-.
    split; [exact I | split; [reflexivity | left; reflexivity]].
  - intros H; injection H as <- <- <-.
    split; [exact Hacc | split; [reflexivity | left; reflexivity]].
  - intros H; injection H as <- <- <-.
    split; [exact Hacc | split; [reflexivity | left; reflexivity]].
  - intros H; injection H as <- <- <-.
    split; [exact Hacc | split; [reflexivity | left; reflexivity]].
  - unfold handleSubmit. unfold fileAccepted in Hacc.
    destruct (UploadState.file u) as [file|] eqn:Hfile;
      [|intros H; injection H as <- <- <-;
        split; [unfold fileAccepted; now rewrite Hfile
               | split; [reflexivity | left; reflexivity]]].
    destruct (Store.user s) as [user|];
      [|intros H; injection H as <- <- <-;
        split; [unfold fileAccepted; now rewrite Hfile
               | split; [reflexivity | left; reflexivity]]].
    destruct (negb (truthy (JStr (UploadState.selectedPatientId u))));
      [intros H; injection H as <- <- <-;
        split; [unfold fileAccepted; now rewrite Hfile
               | split; [reflexivity | left; reflexivity]]|].
    destruct (createReport rt browser sdk file u s w) as [[r|e] w1] eqn:Hcreate;
      intros H; injection H as <- <- <-.
    + split; [exact Hacc | split; [reflexivity|]].
      right. exists r. split; [reflexivity|].
      destruct (createReport_fields _ _ _ _ _ _ _ _ _ Hcreate)
        as (Hst & _ & _ & (p & Hin & _ & Hpid & Hname) & Hfiles).
      split; [exact Hst|]. split; [exists p; repeat split; assumption|].
      eexists. split; [exact Hfiles | exact Hacc].
    + split; [exact Hacc | split; [reflexivity | left; reflexivity]].
Qed.

(** X17: only accepted files reach the store.  Start the upload page with
    no file chosen, or with a chosen file of an accepted type, and let the
    user do anything in any order: choose or drop files, have previews load,
    remove the file, select patients and languages, dismiss errors, submit.
    Then the store's earlier reports are all still there, unchanged and in
    order, and every report added in front of them awaits review, belongs to
    a patient of the store, and holds exactly one file, of an accepted
    type. *)
Theorem uploads_hold_accepted_files rt browser sdk es : forall u s w u' s' w',
  fileAccepted u ->
  uploadSession rt browser sdk es u s w = (u', s', w') ->
  fileAccepted u' /\
  Store.patients s' = Store.patients s /\
  exists added,
    Store.reports s' = (added ++ Store.reports s)%list /\
    Forall (uploaded s) added.
Proof.
  induction es as [|e rest IH]; intros u s w u' s' w' Hacc; cbn [uploadSession].
  - intros H; injection H as <- <- <-.
    split; [exact Hacc | split; [reflexivity|]].
    exists []. split; [reflexivity | constructor].
  - destruct (uploadStep rt browser sdk e u s w) as [[u1 s1] w1] eqn:Hstep.
    intros Hrest.
    destruct (uploadStep_invariant _ _ _ _ _ _ _ _ _ _ Hacc Hstep)
      as (Hacc1 & Hpat1 & Hreps1).
    destruct (IH _ _ _ _ _ _ Hacc1 Hrest) as (Hacc' & Hpat' & added & Hreps & Hall).
    split; [exact Hacc' | split; [congruence|]].
    assert (Hall' : Forall (uploaded s) added).
    { eapply Forall_impl; [|exact Hall].
      intros r. now apply uploaded_same_patients. }
    destruct Hreps1 as [Hsame | (r & Hnew & Hup)].
    + exists added. split; [congruence | exact Hall'].
    + exists (added ++ [r])%list. split.
      * rewrite Hreps, Hnew, <- app_assoc. reflexivity.
      * apply Forall_app. split; [exact Hall' | constructor; [exact Hup | constructor]].
Qed.

Lemma uploads_hold_accepted_files_witness :
  fileAccepted initialUpload /\
  List.length
    (Store.reports
       (snd (fst (uploadSession example_runtime noCredentialBrowser noModel
                    [ FilesChosen [scanFile];
                      ReaderLoaded "data:image/png;base64,AAAA";
                      SelectPatient "p1";
                      Submit ]
                    initialUpload exampleStore example_world)))) = 2 /\
  exists added,
    Store.reports
      (snd (fst (uploadSession example_runtime noCredentialBrowser noModel
                   [ FilesChosen [scanFile];
                     ReaderLoaded "data:image/png;base64,AAAA";
                     SelectPatient "p1";
                     Submit ]
                   initialUpload exampleStore example_world)))
    = (added ++ Store.reports exampleStore)%list /\
    Forall (uploaded exampleStore) added.
Proof.
  split; [exact I|]. split; [vm_compute; reflexivity|].
  exact (proj2 (proj2
    (uploads_hold_accepted_files example_runtime noCredentialBrowser noModel
       [ FilesChosen [scanFile];
         ReaderLoaded "data:image/png;base64,AAAA";
         SelectPatient "p1";
         Submit ]
       initialUpload exampleStore example_world _ _ _ I (surjective_pairing3 _)))).
Defined.

Lemma simulateAnalysis_summary rt file language w :
  exists r w',
    simulateAnalysis rt file language w = (Normal r, w') /\
    AnalysisResult.summary r = JStr fallbackMsg.
Proof. unfold simulateAnalysis. eexists _, _. split; reflexivity. Qed.

(** X18: an upload without a credential always goes through.  When no API
    key is resolvable, a file is chosen, somebody is signed in and the
    selected patient is one of the store's, [handleSubmit] cannot fail: it
    adds a report awaiting review for that patient, in the selected language,
    holding the chosen file and the demonstration notice as its summary,
    shows no error and navigates to the report.  The outcome is the same
    whatever the model client would have done: the client is not consulted. *)
Theorem demo_submission_succeeds rt browser sdk u s w file user p :
  truthy (getApiKey rt browser) = false ->
  UploadState.file u = Some file ->
  Store.user s = Some user ->
  UploadState.selectedPatientId u <> "" ->
  find (fun p => String.eqb (Patient.id p) (UploadState.selectedPatientId u))
       (Store.patients s) = Some p ->
  (exists r,
     snd (fst (handleSubmit rt browser sdk u s w)) = addReport r s /\
     UploadState.location (fst (fst (handleSubmit rt browser sdk u s w)))
       = "/report/" ++ Report.id r /\
     UploadState.error (fst (fst (handleSubmit rt browser sdk u s w))) = None /\
     Report.status r = REVIEW_REQUIRED /\
     Report.patientId r = UploadState.selectedPatientId u /\
     Report.patientName r = Patient.name p /\
     Report.language r = UploadState.selectedLanguage u /\
     Report.summary r = JStr fallbackMsg /\
     Report.files r =
       [ {| ReportFile.id := "file-" ++ Z_to_string (clock w (clock_reads w));
            ReportFile.url := UploadState.preview u;
            ReportFile.type := fst file;
            ReportFile.name := snd file |} ]) /\
  forall sdk',
    handleSubmit rt browser sdk' u s w = handleSubmit rt browser sdk u s w.
Proof.
  intros Hkey Hfile Huser Hsel Hfind.
  assert (Htruthy : truthy (JStr (UploadState.selectedPatientId u)) = true).
  { destruct (UploadState.selectedPatientId u); [contradiction | reflexivity]. }
  assert (Hcreate : forall sdk0,
            exists r w',
              createReport rt browser sdk0 file u s w = (Normal r, w') /\
              createReport rt browser sdk file u s w = (Normal r, w') /\
              Report.summary r = JStr fallbackMsg).
  { intros sdk0. unfold createReport. rewrite Hfind.
    unfold bind at 1 3, Date_now. unfold analyzeMedicalImage. rewrite Hkey.
    cbn [negb].
    destruct (simulateAnalysis_summary rt
                {| ReportFile.id := "file-" ++ Z_to_string (clock w (clock_reads w));
                   ReportFile.url := UploadState.preview u;
                   ReportFile.type := fst file;
                   ReportFile.name := snd file |}
                (UploadState.selectedLanguage u) (tick_clock w))
      as (a & w2 & Ha & Hsum).
    unfold bind at 1 2. rewrite Ha.
    unfold newReport, bind, Date_now, ret.
    eexists _, _. split; [reflexivity|]. split; [reflexivity|].
    exact Hsum. }
  split.
  - destruct (Hcreate sdk) as (r & w' & Hrun & _ & Hsum).
    destruct (createReport_fields _ _ _ _ _ _ _ _ _ Hrun)
      as (Hst & Hlang & _ & (p' & _ & Hpid & Hrid & Hname) & Hfiles).
    assert (Hp : find (fun p => String.eqb (Patient.id p)
                                  (UploadState.selectedPatientId u))
                      (Store.patients s) = Some p) by exact Hfind.
    exists r. unfold handleSubmit. rewrite Hfile, Huser, Htruthy. cbn [negb].
    rewrite Hrun. cbn [fst snd UploadState.location UploadState.error].
    split; [reflexivity|]. split; [reflexivity|]. split; [reflexivity|].
    split; [exact Hst|]. split; [congruence|].
    split; [|split; [exact Hlang | split; [exact Hsum | exact Hfiles]]].
    unfold createReport in Hrun. rewrite Hfind in Hrun.
    apply bind_Normal in Hrun. destruct Hrun as (now & w1 & _ & Hrun).
    apply bind_Normal in Hrun. destruct Hrun as (a & w2 & _ & Hnew).
    destruct (newReport_fields _ _ _ _ _ _ _ _ Hnew) as (q & Hq & ->).
    injection Hq as <-. reflexivity.
  - intros sdk'. destruct (Hcreate sdk') as (r & w' & Hrun' & Hrun & _).
    unfold handleSubmit. rewrite Hfile, Huser, Htruthy. cbn [negb].
    now rewrite Hrun', Hrun.
Qed.

Lemma demo_submission_succeeds_witness :
  truthy (getApiKey example_runtime noCredentialBrowser) = false /\
  forall sdk',
    handleSubmit example_runtime noCredentialBrowser sdk' exampleUpload exampleStore
      example_world
    = handleSubmit example_runtime noCredentialBrowser noModel exampleUpload
        exampleStore example_world.
Proof.
  split; [reflexivity|].
  exact (proj2
    (demo_submission_succeeds example_runtime noCredentialBrowser noModel
       exampleUpload exampleStore example_world ("image/png", "scan.png")
       {| User.id := "u1"; User.name := "Dr. Sarah Connor";
          User.email := "sarah@medlens.ai"; User.role := "CLINICIAN" |}
       {| Patient.id := "p1"; Patient.name := "Ada" |}
       eq_refl eq_refl eq_refl
       (fun H : UploadState.selectedPatientId exampleUpload = "" =>
          eq_ind "p1" (fun x => match x with EmptyString => False | _ => True end)
                 I "" H)
       eq_refl)).
Defined.

(** ** The confidence badge *)



